(** * GENwear slang tracker: the approval-workflow data layer and the
      candidate extractor

    A shallow embedding of [models.py] (class [SlangDatabase]) and of the
    candidate extractor of [slang_scraper.py] (class [SlangScraper]), with
    the properties of the specification stated and proved over it.

    Conventions of the embedding.
    - A Python [str] is a [string]; a character is an 8-bit code point, and
      the [str] methods the code calls ([lower], [strip], [isalpha],
      [isdigit], [in], slicing) are given with their Python meaning on the
      code points 0..255.
    - The SQLite file is a record of three tables, each a list of rows in
      rowid order; every method of [SlangDatabase] takes the database and
      returns its result together with the database it leaves.
      [CURRENT_TIMESTAMP] is an explicit argument.
    - SQL [INTEGER] is [Z]; an integer that Python hands to a statement
      has to fit 64 bits, which [add_mention] shows for the engagement it
      is given.  The limits and bounds of the queries are literals and
      defaults wherever the repository calls them, and are taken as [Z].
    - A [double] is the rational ([Q]) it stands for: [AVG] rounds to
      binary64 as SQLite does, and [round] is that of Python.  The
      confidence literals are kept as their decimals, whose order is the
      order of their doubles.
    - What lies outside the repository (the [re] engine, the Urban
      Dictionary client, the iteration order of a Python [set]) is a
      variable of the section that uses it. *)

From Stdlib Require Import List String Ascii ZArith NArith QArith Qround Bool Lia.
From Stdlib Require Import Permutation Sorted.
Import ListNotations.

Local Open Scope string_scope.
Local Open Scope Z_scope.

(* ================================================================= *)
(** ** Python strings *)

Module Py.

Definition code (c : ascii) : N := N_of_ascii c.

Definition between (lo hi n : N) : bool := ((lo <=? n) && (n <=? hi))%N.

(** [c.isspace()] *)
Definition isspace_char (c : ascii) : bool :=
  let n := code c in
  between 9 13 n || between 28 32 n || (n =? 133)%N || (n =? 160)%N.

(** [c.isalpha()] *)
Definition isalpha_char (c : ascii) : bool :=
  let n := code c in
  between 65 90 n || between 97 122 n
  || (n =? 170)%N || (n =? 181)%N || (n =? 186)%N
  || between 192 214 n || between 216 246 n || between 248 255 n.

(** [c.isdigit()] *)
Definition isdigit_char (c : ascii) : bool :=
  let n := code c in
  between 48 57 n || (n =? 178)%N || (n =? 179)%N || (n =? 185)%N.

(** the class [[a-zA-Z]] of the [re] patterns *)
Definition is_ascii_letter (c : ascii) : bool :=
  let n := code c in between 65 90 n || between 97 122 n.

(** [c.lower()] *)
Definition lower_char (c : ascii) : ascii :=
  let n := code c in
  if between 65 90 n || (between 192 222 n && negb (n =? 215)%N)
  then ascii_of_N (n + 32)
  else c.

(** [s.lower()] *)
Fixpoint lower (s : string) : string :=
  match s with
  | EmptyString => EmptyString
  | String c s' => String (lower_char c) (lower s')
  end.

(** [s.lstrip()] *)
Fixpoint lstrip (s : string) : string :=
  match s with
  | EmptyString => EmptyString
  | String c s' => if isspace_char c then lstrip s' else s
  end.

(** [s.rstrip()] *)
Fixpoint rstrip (s : string) : string :=
  match s with
  | EmptyString => EmptyString
  | String c s' =>
      match rstrip s' with
      | EmptyString => if isspace_char c then EmptyString else String c EmptyString
      | r => String c r
      end
  end.

(** [s.strip()] *)
Definition strip (s : string) : string := rstrip (lstrip s).

(** [len(s)] *)
Definition len (s : string) : Z := Z.of_nat (String.length s).

(** [s[:n]] for a literal [n >= 0] *)
Fixpoint take (n : nat) (s : string) : string :=
  match n, s with
  | S n', String c s' => String c (take n' s')
  | _, _ => EmptyString
  end.

(** truth value of a string: [bool(s)] *)
Definition truthy (s : string) : bool :=
  match s with EmptyString => false | _ => true end.

(** truth value of an optional string: [None] and [''] are false *)
Definition truthy_opt (o : option string) : bool :=
  match o with None => false | Some s => truthy s end.

Fixpoint all_chars (p : ascii -> bool) (s : string) : bool :=
  match s with
  | EmptyString => true
  | String c s' => p c && all_chars p s'
  end.

(** [s.isalpha()]: at least one character and all of them letters *)
Definition isalpha (s : string) : bool := truthy s && all_chars isalpha_char s.

(** [s.isdigit()] *)
Definition isdigit (s : string) : bool := truthy s && all_chars isdigit_char s.

(** [s.replace(c, '')] for a one-character [c] *)
Fixpoint remove_char (c : ascii) (s : string) : string :=
  match s with
  | EmptyString => EmptyString
  | String d s' => if Ascii.eqb d c then remove_char c s' else String d (remove_char c s')
  end.

(** [needle in hay] for strings *)
Fixpoint contains (needle hay : string) : bool :=
  String.prefix needle hay
  || match hay with
     | EmptyString => false
     | String _ hay' => contains needle hay'
     end.

(** [x in xs] for a list or a set of strings *)
Definition str_in (x : string) (xs : list string) : bool :=
  existsb (String.eqb x) xs.

(** [c * n] *)
Fixpoint repeat_char (c : ascii) (n : nat) : string :=
  match n with
  | O => EmptyString
  | S n' => String c (repeat_char c n')
  end.

(** order of two strings by code points, as SQLite's BINARY collation
    and Python's [<] have it *)
Fixpoint ltb (a b : string) : bool :=
  match a, b with
  | _, EmptyString => false
  | EmptyString, String _ _ => true
  | String x a', String y b' =>
      (code x <? code y)%N || ((code x =? code y)%N && ltb a' b')
  end.

End Py.

(* ================================================================= *)
(** ** models.py: the store *)

Definition Timestamp := Z.

(** A row of [slang_terms]. *)
Record TermRow := mkTermRow {
  st_id : Z;
  st_term : string;
  st_definition : option string;
  st_category : string;
  st_approval_status : string;
  st_approved_by : option string;
  st_approved_at : option Timestamp;
  st_rejection_reason : option string;
  st_first_seen : Timestamp
}.

(** A row of [mentions]. *)
Record MentionRow := mkMentionRow {
  m_id : Z;
  m_term_id : Z;
  m_platform : string;
  m_content : string;
  m_engagement_score : Z;
  m_detected_at : Timestamp
}.

(** A row of [daily_trends]. *)
Record TrendRow := mkTrendRow {
  dt_id : Z;
  dt_term_id : Z;
  dt_date : Z;
  dt_mention_count : Z;
  dt_total_engagement : Z;
  dt_momentum_score : Q
}.

Record SlangDatabase := mkDb {
  slang_terms : list TermRow;
  mentions : list MentionRow;
  daily_trends : list TrendRow
}.

(** The database [init_database] leaves on a fresh file. *)
Definition init_database : SlangDatabase := mkDb [] [] [].

(** The rowid SQLite gives a row inserted without one: 1 in an empty
    table, otherwise one more than the largest in use. *)
Definition next_rowid (ids : list Z) : Z :=
  match ids with
  | [] => 1
  | i :: rest => fold_right Z.max i rest + 1
  end.

(** [term.lower().strip()], the key every method looks a term up by. *)
Definition normalize (term : string) : string := Py.strip (Py.lower term).

(** [SELECT ... FROM slang_terms WHERE term = ?] followed by [fetchone()]. *)
Definition select_term (key : string) (db : SlangDatabase) : option TermRow :=
  find (fun r => String.eqb (st_term r) key) (slang_terms db).

Definition set_definition (d : option string) (r : TermRow) : TermRow :=
  mkTermRow (st_id r) (st_term r) d (st_category r) (st_approval_status r)
            (st_approved_by r) (st_approved_at r) (st_rejection_reason r)
            (st_first_seen r).

Definition set_approved (approved_by : string) (now : Timestamp) (r : TermRow) : TermRow :=
  mkTermRow (st_id r) (st_term r) (st_definition r) (st_category r) "approved"
            (Some approved_by) (Some now) (st_rejection_reason r)
            (st_first_seen r).

Definition set_rejected (reason rejected_by : string) (now : Timestamp) (r : TermRow) : TermRow :=
  mkTermRow (st_id r) (st_term r) (st_definition r) (st_category r) "rejected"
            (Some rejected_by) (Some now) (Some reason)
            (st_first_seen r).

(** [UPDATE slang_terms SET ... WHERE p]: the rows left, and [rowcount]. *)
Definition update_terms (p : TermRow -> bool) (f : TermRow -> TermRow)
           (rows : list TermRow) : list TermRow :=
  map (fun r => if p r then f r else r) rows.

Definition rowcount {A : Type} (p : A -> bool) (rows : list A) : Z :=
  Z.of_nat (List.length (filter p rows)).

(** The test of [add_term] for "we have a better one". *)
Definition better_definition (definition current_def : option string) : bool :=
  match definition with
  | None => false
  | Some d =>
      Py.truthy d && Py.truthy (Py.strip d)
      && (negb (Py.truthy_opt current_def)
          || match current_def with
             | None => false
             | Some cur =>
                 Py.str_in cur ["Trending slang term"; "Approved slang term"]
                 || (Py.len (Py.strip cur) <? Py.len (Py.strip d))
             end)
  end.

(** [add_term]: the INSERT, and on the UNIQUE violation the lookup and the
    conditional UPDATE of the definition. *)
Definition add_term (term : string) (definition : option string)
           (category : string) (now : Timestamp) (db : SlangDatabase)
  : Z * SlangDatabase :=
  let key := normalize term in
  match select_term key db with
  | None =>
      let term_id := next_rowid (map st_id (slang_terms db)) in
      (term_id,
       mkDb (slang_terms db ++
               [mkTermRow term_id key definition category "pending"
                          None None None now])
            (mentions db) (daily_trends db))
  | Some result =>
      let term_id := st_id result in
      let current_def := st_definition result in
      if better_definition definition current_def
      then (term_id,
            mkDb (update_terms (fun r => st_id r =? term_id)
                               (set_definition definition) (slang_terms db))
                 (mentions db) (daily_trends db))
      else (term_id, db)
  end.

(** A Python [int] that [sqlite3] binds to a parameter of a statement: an
    SQLite INTEGER has 64 bits, a signed one. *)
Definition sqlite_integer (n : Z) : bool :=
  (- 2 ^ 63 <=? n) && (n <? 2 ^ 63).

(** What a call does: it returns a value, or it raises the [OverflowError]
    of a parameter that is no SQLite INTEGER. *)
Inductive Outcome (A : Type) :=
| Returned (value : A)
| OverflowError.

Arguments Returned {A} value.
Arguments OverflowError {A}.

(** [add_mention]: [add_term] commits on a connection of its own; the
    INSERT that follows binds [engagement], and raises before anything is
    written when it has more than 64 bits. *)
Definition add_mention (term platform content : string) (engagement : Z)
           (now : Timestamp) (db : SlangDatabase)
  : Outcome bool * SlangDatabase :=
  let '(term_id, db1) := add_term term None "general" now db in
  if sqlite_integer engagement
  then
    (Returned true,
     mkDb (slang_terms db1)
          (mentions db1 ++
             [mkMentionRow (next_rowid (map m_id (mentions db1))) term_id platform
                           (Py.take 500 content) engagement now])
          (daily_trends db1))
  else (OverflowError, db1).

(** [approve_term] *)
Definition approve_term (term approved_by : string) (now : Timestamp)
           (db : SlangDatabase) : bool * SlangDatabase :=
  let key := normalize term in
  let hit := fun r => String.eqb (st_term r) key in
  (0 <? rowcount hit (slang_terms db),
   mkDb (update_terms hit (set_approved approved_by now) (slang_terms db))
        (mentions db) (daily_trends db)).

(** [reject_term] *)
Definition reject_term (term reason rejected_by : string) (now : Timestamp)
           (db : SlangDatabase) : bool * SlangDatabase :=
  let key := normalize term in
  let hit := fun r => String.eqb (st_term r) key in
  (0 <? rowcount hit (slang_terms db),
   mkDb (update_terms hit (set_rejected reason rejected_by now) (slang_terms db))
        (mentions db) (daily_trends db)).

(** [delete_term] *)
Definition delete_term (term : string) (db : SlangDatabase)
  : bool * SlangDatabase :=
  match select_term (normalize term) db with
  | None => (false, db)
  | Some result =>
      let term_id := st_id result in
      (0 <? rowcount (fun r => st_id r =? term_id) (slang_terms db),
       mkDb (filter (fun r => negb (st_id r =? term_id)) (slang_terms db))
            (filter (fun m => negb (m_term_id m =? term_id)) (mentions db))
            (filter (fun t => negb (dt_term_id t =? term_id)) (daily_trends db)))
  end.

(** [bulk_delete_terms] *)
Fixpoint bulk_delete_terms (terms : list string) (db : SlangDatabase)
  : Z * SlangDatabase :=
  match terms with
  | [] => (0, db)
  | term :: rest =>
      let '(ok, db1) := delete_term term db in
      let '(deleted_count, db2) := bulk_delete_terms rest db1 in
      ((if ok then 1 else 0) + deleted_count, db2)
  end.

(** [bulk_approve_terms]; [clock i] is [CURRENT_TIMESTAMP] at the UPDATE
    of the [i]-th element still to come. *)
Fixpoint bulk_approve_terms (terms : list string) (approved_by : string)
         (clock : nat -> Timestamp) (db : SlangDatabase) : Z * SlangDatabase :=
  match terms with
  | [] => (0, db)
  | term :: rest =>
      let key := normalize term in
      let hit := fun r => String.eqb (st_term r) key
                          && String.eqb (st_approval_status r) "pending" in
      let n := rowcount hit (slang_terms db) in
      let db1 := mkDb (update_terms hit (set_approved approved_by (clock O))
                                    (slang_terms db))
                      (mentions db) (daily_trends db) in
      let '(approved_count, db2) :=
        bulk_approve_terms rest approved_by (fun i => clock (S i)) db1 in
      ((if 0 <? n then 1 else 0) + approved_count, db2)
  end.

(* ----------------------------------------------------------------- *)
(** *** Reading: cleaning, grouping, ordering *)

(** [_clean_definition]; the argument is a column that may be NULL. *)
Definition _clean_definition (definition : option string) : string :=
  match definition with
  | None => "No definition available"
  | Some d =>
      if negb (Py.truthy d) then "No definition available"
      else
        let d := Py.strip d in
        if Py.str_in d ["Trending slang term"; "Approved slang term"; ""]
        then "No definition available"
        else if 300 <? Py.len d then Py.take 297 d ++ "..."
        else d
  end.

(** [row[1] or 'No definition'] *)
Definition or_no_definition (definition : option string) : string :=
  if Py.truthy_opt definition
  then match definition with Some d => d | None => "No definition" end
  else "No definition".

(** One group of [slang_terms st LEFT JOIN mentions m ON st.id = m.term_id
    GROUP BY st.id]: the term row, [COUNT(m.id)] and
    [AVG(m.engagement_score)], which is NULL for a term without mentions.
    [id] is the primary key, so every term row is a group of its own. *)
Record Group := mkGroup {
  g_st : TermRow;
  g_mentions : Z;
  g_avg_engagement : option Q
}.

Definition mentions_of (term_id : Z) (db : SlangDatabase) : list MentionRow :=
  filter (fun m => m_term_id m =? term_id) (mentions db).

Definition mention_count (term_id : Z) (db : SlangDatabase) : Z :=
  Z.of_nat (List.length (mentions_of term_id db)).

(** Rounding of a rational to the nearest integer, ties to even. *)
Definition round_half_even (q : Q) : Z :=
  let f := Qfloor q in
  match Qcompare (q - inject_Z f) (1 # 2) with
  | Lt => f
  | Gt => f + 1
  | Eq => if Z.even f then f else f + 1
  end.

(** A [double] is kept as the rational it stands for.  [double_of_Q q] is
    the binary64 number nearest to [q], ties to the even significand: the
    significand has 53 bits.  The range of the exponent is left out; the
    averages of 64-bit integers are far from both of its ends. *)
Definition double_of_Q (q : Q) : Q :=
  let n := Z.abs (Qnum q) in
  if n =? 0 then inject_Z 0
  else
    let magnitude := n # Qden q in
    let scaled := fun e : Z =>
      if 0 <=? e then Qdiv magnitude (inject_Z (2 ^ e))
      else Qmult magnitude (inject_Z (2 ^ (- e))) in
    let e0 := Z.log2 n - Z.log2 (Zpos (Qden q)) - 52 in
    let e := if Qle_bool (inject_Z (2 ^ 52)) (scaled e0) then e0 else e0 - 1 in
    let significand := inject_Z (round_half_even (scaled e)) in
    let value :=
      if 0 <=? e then Qmult significand (inject_Z (2 ^ e))
      else Qdiv significand (inject_Z (2 ^ (- e))) in
    Qred (if Qnum q <? 0 then Qopp value else value).

(** [AVG(m.engagement_score)] over the integers of a group, NULL for no
    row: SQLite adds every value to a [double] as it walks the rows and
    divides that sum by the count.  (From version 3.44 on it adds the
    integers exactly while the sum fits 64 bits; the two agree as long as
    the sums stay below 2^53.) *)
Definition sql_avg (xs : list Z) : option Q :=
  match xs with
  | [] => None
  | _ =>
      let rSum :=
        fold_left
          (fun rSum v => double_of_Q (Qplus rSum (double_of_Q (inject_Z v))))
          xs (inject_Z 0) in
      Some (double_of_Q (Qdiv rSum (inject_Z (Z.of_nat (List.length xs)))))
  end.

Definition group_of (db : SlangDatabase) (st : TermRow) : Group :=
  mkGroup st (mention_count (st_id st) db)
          (sql_avg (map m_engagement_score (mentions_of (st_id st) db))).

Definition term_groups (db : SlangDatabase) : list Group :=
  map (group_of db) (slang_terms db).

(** [ORDER BY]: [before a b] says that [a] sorts strictly before [b]; rows
    that tie keep the order of the scan (SQL leaves it open). *)
Fixpoint insert_by {A : Type} (before : A -> A -> bool) (x : A) (l : list A)
  : list A :=
  match l with
  | [] => [x]
  | y :: l' => if before y x then y :: insert_by before x l' else x :: l
  end.

Definition order_by {A : Type} (before : A -> A -> bool) (l : list A) : list A :=
  fold_right (insert_by before) [] l.

(** [LIMIT ?]: a negative bound is no bound. *)
Definition sql_limit {A : Type} (limit : Z) (l : list A) : list A :=
  if limit <? 0 then l else firstn (Z.to_nat limit) l.

(** NULL sorts below every value. *)
Definition avg_gt (a b : option Q) : bool :=
  match a, b with
  | Some x, Some y => negb (Qle_bool x y)
  | Some _, None => true
  | None, _ => false
  end.

(** [ORDER BY mentions DESC, avg_engagement DESC] *)
Definition by_mentions_avg_desc (a b : Group) : bool :=
  (g_mentions b <? g_mentions a)
  || ((g_mentions a =? g_mentions b)
      && avg_gt (g_avg_engagement a) (g_avg_engagement b)).

(** [ORDER BY mentions DESC] *)
Definition by_mentions_desc (a b : Group) : bool :=
  g_mentions b <? g_mentions a.

(** [ORDER BY mentions ASC, st.term] *)
Definition by_mentions_asc_term (a b : Group) : bool :=
  (g_mentions a <? g_mentions b)
  || ((g_mentions a =? g_mentions b)
      && Py.ltb (st_term (g_st a)) (st_term (g_st b))).

(** [round(avg or 0, 1)]: Python rounds the [double] it is given, taken
    exactly, to one decimal, ties to the even digit, and returns the
    [double] nearest to that decimal, which is kept here as the decimal. *)
Definition round1 (avg : option Q) : Q :=
  match avg with
  | None => 0
  | Some q => Qred (round_half_even (q * 10) # 10)
  end.

Record TrendingEntry := mkTrending {
  tr_id : Z;
  tr_term : string;
  tr_definition : string;
  tr_category : string;
  tr_approval_status : string;
  tr_approved_by : option string;
  tr_approved_at : option Timestamp;
  tr_rejection_reason : option string;
  tr_mentions : Z;
  tr_avg_engagement : Q;
  tr_first_seen : Timestamp
}.

Definition trending_entry (g : Group) : TrendingEntry :=
  let st := g_st g in
  mkTrending (st_id st) (st_term st) (_clean_definition (st_definition st))
             (st_category st) (st_approval_status st) (st_approved_by st)
             (st_approved_at st) (st_rejection_reason st)
             (g_mentions g) (round1 (g_avg_engagement g)) (st_first_seen st).

(** [WHERE 1=1 {status_filter}] *)
Definition status_filter (status : string) (g : Group) : bool :=
  if String.eqb status "all" then true
  else String.eqb (st_approval_status (g_st g)) status.

(** [get_trending_terms] *)
Definition get_trending_terms (limit : Z) (status : string)
           (db : SlangDatabase) : list TrendingEntry :=
  map trending_entry
      (sql_limit limit
         (order_by by_mentions_avg_desc
            (filter (fun g => 0 <? g_mentions g)
               (filter (status_filter status) (term_groups db))))).

Record ApprovedEntry := mkApproved {
  ap_id : Z;
  ap_term : string;
  ap_definition : string;
  ap_category : string;
  ap_mentions : Z;
  ap_avg_engagement : Q;
  ap_first_seen : Timestamp;
  ap_approved_at : option Timestamp
}.

Definition approved_entry (g : Group) : ApprovedEntry :=
  let st := g_st g in
  mkApproved (st_id st) (st_term st) (_clean_definition (st_definition st))
             (st_category st) (g_mentions g) (round1 (g_avg_engagement g))
             (st_first_seen st) (st_approved_at st).

(** [get_approved_terms] *)
Definition get_approved_terms (limit : Z) (db : SlangDatabase)
  : list ApprovedEntry :=
  map approved_entry
      (sql_limit limit
         (order_by by_mentions_avg_desc
            (filter (fun g => 0 <? g_mentions g)
               (filter (fun g => String.eqb (st_approval_status (g_st g)) "approved")
                       (term_groups db))))).

Record PlaceholderEntry := mkPlaceholder {
  ph_term : string;
  ph_definition : string;
  ph_mentions : Z
}.

(** [st.definition IN ('Trending slang term', 'Approved slang term', '')
    OR st.definition IS NULL] *)
Definition is_placeholder (definition : option string) : bool :=
  match definition with
  | None => true
  | Some d => Py.str_in d ["Trending slang term"; "Approved slang term"; ""]
  end.

(** [get_placeholder_terms] *)
Definition get_placeholder_terms (limit : Z) (db : SlangDatabase)
  : list PlaceholderEntry :=
  map (fun g => mkPlaceholder (st_term (g_st g))
                              (or_no_definition (st_definition (g_st g)))
                              (g_mentions g))
      (sql_limit limit
         (order_by by_mentions_desc
            (filter (fun g => is_placeholder (st_definition (g_st g)))
                    (term_groups db)))).

Record LowValueEntry := mkLowValue {
  lv_term : string;
  lv_definition : string;
  lv_mentions : Z;
  lv_approval_status : string
}.

(** [get_low_value_terms] *)
Definition get_low_value_terms (max_mentions : Z) (db : SlangDatabase)
  : list LowValueEntry :=
  map (fun g => mkLowValue (st_term (g_st g))
                           (or_no_definition (st_definition (g_st g)))
                           (g_mentions g)
                           (st_approval_status (g_st g)))
      (order_by by_mentions_asc_term
         (filter (fun g => g_mentions g <=? max_mentions) (term_groups db))).

(** [get_term_by_id]: the row with that id, if any (the dictionary carries
    its columns but [first_seen]). *)
Definition get_term_by_id (term_id : Z) (db : SlangDatabase) : option TermRow :=
  find (fun r => st_id r =? term_id) (slang_terms db).

(** SQLite's [LIKE]: [%] is any run of characters, [_] any one character,
    and the letters A..Z match their lower case. *)
Definition like_fold (c : ascii) : ascii :=
  if Py.between 65 90 (Py.code c) then ascii_of_N (Py.code c + 32) else c.

Fixpoint sql_like (pattern : string) : string -> bool :=
  match pattern with
  | EmptyString => fun s => negb (Py.truthy s)
  | String c p' =>
      if Ascii.eqb c "%" then
        fix star (s : string) : bool :=
          sql_like p' s
          || match s with
             | EmptyString => false
             | String _ s' => star s'
             end
      else if Ascii.eqb c "_" then
        fun s => match s with
                 | EmptyString => false
                 | String _ s' => sql_like p' s'
                 end
      else
        fun s => match s with
                 | EmptyString => false
                 | String d s' => Ascii.eqb (like_fold c) (like_fold d) && sql_like p' s'
                 end
  end.

Record SearchEntry := mkSearch {
  se_term : string;
  se_definition : string;
  se_category : string;
  se_approval_status : string;
  se_mentions : Z
}.

Definition opt_string_eqb (a b : option string) : bool :=
  match a, b with
  | None, None => true
  | Some x, Some y => String.eqb x y
  | _, _ => false
  end.

(** Equality of two rows on the columns [search_terms] selects. *)
Definition same_selected (a b : Group) : bool :=
  String.eqb (st_term (g_st a)) (st_term (g_st b))
  && opt_string_eqb (st_definition (g_st a)) (st_definition (g_st b))
  && String.eqb (st_category (g_st a)) (st_category (g_st b))
  && String.eqb (st_approval_status (g_st a)) (st_approval_status (g_st b))
  && (g_mentions a =? g_mentions b).

(** [SELECT DISTINCT] *)
Fixpoint sql_distinct (seen l : list Group) : list Group :=
  match l with
  | [] => []
  | g :: l' =>
      if existsb (same_selected g) seen then sql_distinct seen l'
      else g :: sql_distinct (g :: seen) l'
  end.

(** [search_terms] *)
Definition search_terms (query status : string) (db : SlangDatabase)
  : list SearchEntry :=
  let pat := "%" ++ query ++ "%" in
  map (fun g => mkSearch (st_term (g_st g))
                         (_clean_definition (st_definition (g_st g)))
                         (st_category (g_st g))
                         (st_approval_status (g_st g))
                         (g_mentions g))
      (order_by by_mentions_desc
         (sql_distinct []
            (filter (fun g =>
                       (sql_like pat (st_term (g_st g))
                        || match st_definition (g_st g) with
                           | None => false
                           | Some d => sql_like pat d
                           end)
                       && status_filter status g)
                    (term_groups db)))).

Record ActivityEntry := mkActivity {
  ac_term : string;
  ac_status : string;
  ac_approved_by : option string;
  ac_approved_at : option Timestamp
}.

Definition approved_at_gt (a b : TermRow) : bool :=
  match st_approved_at a, st_approved_at b with
  | Some x, Some y => y <? x
  | Some _, None => true
  | None, _ => false
  end.

(** [get_recent_activity] *)
Definition get_recent_activity (limit : Z) (db : SlangDatabase)
  : list ActivityEntry :=
  map (fun r => mkActivity (st_term r) (st_approval_status r)
                           (st_approved_by r) (st_approved_at r))
      (sql_limit limit
         (order_by approved_at_gt
            (filter (fun r => match st_approved_at r with
                              | Some _ => true
                              | None => false
                              end)
                    (slang_terms db)))).

(** The constraints of the schema: [term TEXT UNIQUE] and
    [id INTEGER PRIMARY KEY] on [slang_terms]. *)
Definition schema_ok (db : SlangDatabase) : Prop :=
  NoDup (map st_term (slang_terms db)) /\ NoDup (map st_id (slang_terms db)).

(* ================================================================= *)
(** ** slang_scraper.py: the candidate extractor *)

(** [self.blacklist] *)
Definition blacklist : list string :=
  ["the"; "and"; "for"; "are"; "but"; "not"; "you"; "all"; "can"; "was"; "one";
   "get"; "has"; "him"; "his"; "how"; "now"; "see"; "way"; "who"; "did"; "this";
   "that"; "with"; "have"; "from"; "they"; "know"; "been"; "good"; "time"; "when";
   "come"; "just"; "like"; "make"; "take"; "well"; "what"; "why"; "which"; "going";
   "today"; "where"; "about"; "other"; "really"; "there"; "could"; "would"; "should";
   "still"; "being"; "never"; "always"; "maybe"; "house"; "school"; "work"; "people";
   "reddit"; "comment"; "thread"; "upvote"; "post"; "everyone"; "something"; "anything"].

(** [self.fashion_whitelist] *)
Definition fashion_whitelist : list string :=
  ["wdywt"; "ootd"; "nyfw"; "fits"; "drip"; "slay"; "fire"; "clean"; "fresh";
   "sick"; "hard"; "fit"; "outfit"; "rizz"; "bussin"; "periodt"; "vibe"; "mood";
   "sus"; "based"; "cringe"; "slaps"; "lowkey"; "highkey"; "mid"; "no cap"; "bet";
   "fr"; "ngl"; "hits different"; "W"; "L"; "stan"; "flex"; "finsta"; "vsco";
   "aesthetic"].

(** [self.confirmed_slang] *)
Definition confirmed_slang : list string :=
  ["rizz"; "bussin"; "no cap"; "periodt"; "slay"; "bet"; "fr"; "ngl";
   "lowkey"; "highkey"; "mid"; "W"; "L"; "sus"; "skibidi"; "gyat"; "ohio";
   "fanum tax"; "sigma"; "mewing"; "delulu"; "cap"; "goofy ahh";
   "vibe"; "mood"; "based"; "cringe"; "slaps"; "hits different";
   "stan"; "flex"; "drip"; "fire"; "ratio"; "simp"; "main character";
   "fit"; "outfit"; "clean"; "fresh"; "hard"; "sick"; "wdywt"; "ootd";
   "drip check"; "lewk"; "serving looks"; "snatched"; "on fleek"].

(** [self.gen_alpha_terms] *)
Definition gen_alpha_terms : list string :=
  ["skibidi"; "gyat"; "ohio"; "fanum tax"; "npc"; "goofy ahh"; "sigma";
   "kai cenat"; "speed moments"; "sus"; "mewing"; "skrrt"; "nahhhh";
   "womp womp"; "bruh sound effect"; "giga chad"; "gyatt damn"; "delulu";
   "kairos"; "capybara"].

(** The keys of [self.slang_patterns], in the order of the dictionary. *)
Definition slang_patterns : list string :=
  ["quoted"; "definition"; "social_indicators"; "new_term"; "explanation"].

(** What [get_urban_definition] returns. *)
Record UrbanResult := mkUrban {
  ud_found : bool;
  ud_definition : string;
  ud_example : string;
  ud_votes : Z;
  ud_source : string
}.

(** An element of the list [extract_slang_candidates] builds. *)
Record Candidate := mkCandidate {
  c_term : string;
  c_context : string;
  c_pattern : string;
  c_confidence : Q;
  c_source_platform : string
}.

(** [key=lambda x: x['confidence'], reverse=True]: [a] sorts strictly
    before [b] when its confidence is the larger one. *)
Definition by_confidence_desc (a b : Candidate) : bool :=
  negb (Qle_bool (c_confidence a) (c_confidence b)).

(** The loop over the sorted candidates that keeps the first of each term. *)
Fixpoint unique_by_term (seen_terms : list string) (l : list Candidate)
  : list Candidate :=
  match l with
  | [] => []
  | candidate :: l' =>
      if Py.str_in (c_term candidate) seen_terms
      then unique_by_term seen_terms l'
      else candidate :: unique_by_term (c_term candidate :: seen_terms) l'
  end.

(** One allow-list loop: every term of the list found in the lowercased
    text is appended. *)
Fixpoint scan_allowlist (terms : list string) (text text_lower pattern : string)
         (confidence : Q) (source_platform : string)
         (candidates : list Candidate) : list Candidate :=
  match terms with
  | [] => candidates
  | t :: rest =>
      scan_allowlist rest text text_lower pattern confidence source_platform
        (if Py.contains t text_lower
         then candidates ++
                [mkCandidate t (Py.take 200 text) pattern confidence source_platform]
         else candidates)
  end.

(** The "basic filtering" of a regex match: [true] means [continue]. *)
Definition rejected (term : string) (candidates : list Candidate) : bool :=
  Py.str_in term blacklist
  || (Py.len term <? 3)
  || (15 <? Py.len term)
  || Py.isdigit term
  || negb (Py.isalpha (Py.remove_char "-" (Py.remove_char " " term)))
  || Py.str_in term (map c_term candidates).

(** The match of [^[a-zA-Z\s\-\']+$] against a stripped term. *)
Definition slang_format (term : string) : bool :=
  Py.truthy term
  && Py.all_chars (fun c => Py.is_ascii_letter c || Py.isspace_char c
                            || Ascii.eqb c "-" || Ascii.eqb c "'") term.

Section Extractor.

(** The state of everything outside the extractor that a lookup reads and
    writes: the remote dictionary, the lookup cache, the clock. *)
Variable World : Type.

(** The module-level flag set by the imports. *)
Variable URBAN_DICT_AVAILABLE : bool.

Variable get_urban_definition : string -> World -> UrbanResult * World.

(** [re.findall(self.slang_patterns[name], text)], the first group of
    every match. *)
Variable re_findall : string -> string -> list string.

(** The orders in which the two sets are iterated. *)
Variable fashion_iter gen_alpha_iter : list string.

(** [is_valid_slang] *)
Definition is_valid_slang (term : string) (check_urban : bool) (w : World)
  : bool * World :=
  let term := Py.strip (Py.lower term) in
  if negb (Py.truthy term) || (Py.len term <? 2) || (20 <? Py.len term)
     || negb (slang_format term)
  then (false, w)
  else if Py.str_in term blacklist then (false, w)
  else if Py.str_in term fashion_whitelist || Py.str_in term confirmed_slang
          || Py.str_in term gen_alpha_terms
  then (true, w)
  else if check_urban && URBAN_DICT_AVAILABLE then
    let '(ud_result, w') := get_urban_definition term w in
    (ud_found ud_result && (-5 <=? ud_votes ud_result), w')
  else ((3 <=? Py.len term) && negb (Py.isdigit term), w).

(** The two allow-list loops. *)
Definition allowlist_candidates (text source_platform : string)
  : list Candidate :=
  let text_lower := Py.lower text in
  scan_allowlist gen_alpha_iter text text_lower "gen_alpha_confirmed" 0.95
                 source_platform
    (scan_allowlist fashion_iter text text_lower "fashion_whitelist" 0.9
                    source_platform []).

(** The body of the loop over the matches of one pattern. *)
Definition regex_step (pattern_name text source_platform : string)
           (st : list Candidate * World) (match_ : string)
  : list Candidate * World :=
  let '(candidates, w) := st in
  let term := Py.lower (Py.strip match_) in
  if rejected term candidates then (candidates, w)
  else
    let '(valid, w') := is_valid_slang term true w in
    if valid then
      let base_confidence :=
        if String.eqb pattern_name "definition" then 0.7%Q else 0.5%Q in
      ((candidates ++
          [mkCandidate term (Py.take 200 text) pattern_name base_confidence
                       source_platform])%list,
       w')
    else (candidates, w').

Definition apply_pattern (text source_platform : string)
           (st : list Candidate * World) (pattern_name : string)
  : list Candidate * World :=
  fold_left (regex_step pattern_name text source_platform)
            (re_findall pattern_name (Py.lower text)) st.

(** The list [candidates] when the loops are over, before it is sorted. *)
Definition collect_candidates (text source_platform : string) (w : World)
  : list Candidate * World :=
  fold_left (apply_pattern text source_platform) slang_patterns
            (allowlist_candidates text source_platform, w).

(** [extract_slang_candidates] *)
Definition extract_slang_candidates (text source_platform : string) (w : World)
  : list Candidate * World :=
  if negb (Py.truthy text) || (Py.len (Py.strip text) <? 3) then ([], w)
  else
    let '(candidates, w') := collect_candidates text source_platform w in
    (firstn 10 (unique_by_term [] (order_by by_confidence_desc candidates)), w').

End Extractor.

(* ================================================================= *)
(** ** models.py: the remaining methods *)

(** [update_term_definition] *)
Definition update_term_definition (term definition : string)
           (db : SlangDatabase) : bool * SlangDatabase :=
  let key := normalize term in
  let hit := fun r => String.eqb (st_term r) key in
  (0 <? rowcount hit (slang_terms db),
   mkDb (update_terms hit (set_definition (Some definition)) (slang_terms db))
        (mentions db) (daily_trends db)).

(** The calendar day of a timestamp, [DATE(t)], with timestamps counted in
    seconds. *)
Definition date_of (t : Timestamp) : Z := t / 86400.

(** [dict.get] and [d[k] = v] on a dictionary kept as an association list
    in insertion order. *)
Fixpoint dict_get (k : string) (d : list (string * Z)) : option Z :=
  match d with
  | [] => None
  | (k', v) :: d' => if String.eqb k' k then Some v else dict_get k d'
  end.

Fixpoint dict_set (k : string) (v : Z) (d : list (string * Z)) : list (string * Z) :=
  match d with
  | [] => [(k, v)]
  | (k', v') :: d' =>
      if String.eqb k' k then (k', v) :: d' else (k', v') :: dict_set k v d'
  end.

(** [SELECT COUNT( * ) FROM slang_terms WHERE approval_status = ?] *)
Definition count_status (status : string) (db : SlangDatabase) : Z :=
  rowcount (fun r => String.eqb (st_approval_status r) status) (slang_terms db).

(** The values of a column that [GROUP BY] makes groups of: each value
    once.  SQLite walks the groups in the order of the values, the bytes
    compared, and from the greatest to the least when the statement goes on
    with an [ORDER BY .. DESC]. *)
Definition group_keys (descending : bool) (values : list string) : list string :=
  order_by (fun a b => if descending then Py.ltb b a else Py.ltb a b)
           (nodup string_dec values).

(** [SELECT platform, COUNT( * ) FROM mentions GROUP BY platform
    ORDER BY COUNT( * ) DESC]: one row for each platform that occurs;
    platforms of equal count stay in the order of the groups.  The rows
    become a dictionary, kept here as the list of its items. *)
Definition platform_counts (db : SlangDatabase) : list (string * Z) :=
  order_by (fun a b => snd b <? snd a)
    (map (fun p => (p, rowcount (fun m => String.eqb (m_platform m) p) (mentions db)))
         (group_keys true (map m_platform (mentions db)))).

Record Stats := mkStats {
  total_terms : Z;
  approved_terms : Z;
  pending_terms : Z;
  rejected_terms : Z;
  placeholder_terms : Z;
  total_mentions : Z;
  today_mentions : Z;
  platforms : list (string * Z)
}.

(** [get_stats]; [now] is the clock of [DATE('now')]. *)
Definition get_stats (now : Timestamp) (db : SlangDatabase) : Stats :=
  mkStats (Z.of_nat (List.length (slang_terms db)))
          (count_status "approved" db)
          (count_status "pending" db)
          (count_status "rejected" db)
          (rowcount (fun r => is_placeholder (st_definition r)) (slang_terms db))
          (Z.of_nat (List.length (mentions db)))
          (rowcount (fun m => date_of (m_detected_at m) =? date_of now) (mentions db))
          (platform_counts db).

(** [get_approval_stats]: the three counters start at 0 and every status
    that occurs overwrites or adds its own. *)
Definition get_approval_stats (db : SlangDatabase) : list (string * Z) :=
  fold_left (fun stats status => dict_set status (count_status status db) stats)
            (group_keys false (map st_approval_status (slang_terms db)))
            [("pending", 0); ("approved", 0); ("rejected", 0)].

(** What [cleanup_database] returns. *)
Inductive CleanupReport :=
| DryRun (candidates_for_deletion : list string) (count : Z)
| Deleted (deleted_count total_candidates : Z).

(** The terms [cleanup_database] picks: those of [get_low_value_terms(1)]
    that are among [get_placeholder_terms()], whose limit is 200. *)
Definition cleanup_candidates (db : SlangDatabase) : list string :=
  map lv_term
      (filter (fun t =>
                 existsb (fun p => String.eqb (ph_term p) (lv_term t))
                         (get_placeholder_terms 200 db))
              (get_low_value_terms 1 db)).

(** [cleanup_database] *)
Definition cleanup_database (dry_run : bool) (db : SlangDatabase)
  : CleanupReport * SlangDatabase :=
  let candidates := cleanup_candidates db in
  if dry_run
  then (DryRun candidates (Z.of_nat (List.length candidates)), db)
  else
    let '(deleted_count, db') := bulk_delete_terms candidates db in
    (Deleted deleted_count (Z.of_nat (List.length candidates)), db').

(** A call of a method of [SlangDatabase] that writes. *)
Inductive Call :=
| CallAddTerm (term : string) (definition : option string) (category : string)
              (now : Timestamp)
| CallUpdateTermDefinition (term definition : string)
| CallAddMention (term platform content : string) (engagement : Z)
                 (now : Timestamp)
| CallApproveTerm (term approved_by : string) (now : Timestamp)
| CallRejectTerm (term reason rejected_by : string) (now : Timestamp)
| CallDeleteTerm (term : string)
| CallBulkDeleteTerms (terms : list string)
| CallBulkApproveTerms (terms : list string) (approved_by : string)
                       (clock : nat -> Timestamp)
| CallCleanupDatabase (dry_run : bool).

(** The store a call leaves. *)
Definition run_call (db : SlangDatabase) (c : Call) : SlangDatabase :=
  match c with
  | CallAddTerm term definition category now =>
      snd (add_term term definition category now db)
  | CallUpdateTermDefinition term definition =>
      snd (update_term_definition term definition db)
  | CallAddMention term platform content engagement now =>
      snd (add_mention term platform content engagement now db)
  | CallApproveTerm term approved_by now =>
      snd (approve_term term approved_by now db)
  | CallRejectTerm term reason rejected_by now =>
      snd (reject_term term reason rejected_by now db)
  | CallDeleteTerm term => snd (delete_term term db)
  | CallBulkDeleteTerms terms => snd (bulk_delete_terms terms db)
  | CallBulkApproveTerms terms approved_by clock =>
      snd (bulk_approve_terms terms approved_by clock db)
  | CallCleanupDatabase dry_run => snd (cleanup_database dry_run db)
  end.

(** The store after a sequence of calls on a fresh file. *)
Definition run_calls (calls : list Call) : SlangDatabase :=
  fold_left run_call calls init_database.

(* ================================================================= *)
(** ** app.py: the admin routes over the store *)

(** What a route answers: [jsonify({'success': .., 'message' or 'error':
    ..})] with its HTTP status, or [redirect(location)]. *)
Inductive Response :=
| Json (status : Z) (success : bool) (text : string)
| Redirect (location : string).

(** The HTTP status of an answer; a redirection of Flask is a 302. *)
Definition http_status (response : Response) : Z :=
  match response with
  | Json status _ _ => status
  | Redirect _ => 302
  end.

(** [requires_admin]: the decorated view runs only in a session whose
    [admin_authenticated] is set; any other request is sent to the login
    page and the view is not called. *)
Definition requires_admin {Store : Type} (admin_authenticated : bool)
           (f : Store -> Response * Store) (db : Store) : Response * Store :=
  if negb admin_authenticated then (Redirect "/admin-login", db) else f db.

(** [delete_term_api], behind [@requires_admin]: the route rejects the term
    with a fixed reason.  [failure] is the text of the exception that the
    store raises inside [reject_term], if it raises one (a file that is
    locked or missing): the [except] branch answers it with 500, and the
    UPDATE was not committed. *)
Definition delete_term_api (admin_authenticated : bool) (failure : option string)
           (term : string) (now : Timestamp) (db : SlangDatabase)
  : Response * SlangDatabase :=
  requires_admin admin_authenticated
    (fun db =>
       match failure with
       | Some e => (Json 500 false e, db)
       | None =>
           let '(result, db') :=
             reject_term term "Deleted by admin" "dashboard" now db in
           if result
           then (Json 200 true ("Deleted " ++ term), db')
           else (Json 404 false "Term not found", db')
       end)
    db.

(** The loop of the route [/api/admin/bulk-approve]: [approve_term] on each
    term, the successes counted and a message kept for each failure. *)
Fixpoint bulk_approve_route (terms : list string) (clock : nat -> Timestamp)
         (db : SlangDatabase) : (Z * list string) * SlangDatabase :=
  match terms with
  | [] => ((0, []), db)
  | term :: rest =>
      let '(result, db1) := approve_term term "dashboard" (clock O) db in
      let '((approved_count, errors), db2) :=
        bulk_approve_route rest (fun i => clock (S i)) db1 in
      if result
      then ((1 + approved_count, errors), db2)
      else ((approved_count, ("Term not found: " ++ term) :: errors), db2)
  end.

(* ================================================================= *)
(** ** slang_scraper.py: the remaining pure methods *)

(** [self.category_mapping], in the order of the dictionary. *)
Definition category_mapping : list (string * list string) :=
  [("attitude", ["vibe"; "mood"; "slay"; "periodt"; "fire"; "based"; "cringe"]);
   ("fashion", ["drip"; "fit"; "outfit"; "clean"; "fresh"; "sick"; "hard";
                "wdywt"; "ootd"]);
   ("social", ["rizz"; "sus"; "stan"; "flex"; "ratio"; "simp"; "main character"]);
   ("general", ["bussin"; "bet"; "fr"; "ngl"; "lowkey"; "highkey"; "mid"; "W"; "L"]);
   ("gen_alpha", gen_alpha_terms)].

(** The loop over [category_mapping.items()]. *)
Fixpoint mapped_category (term_lower : string)
         (mapping : list (string * list string)) : option string :=
  match mapping with
  | [] => None
  | (category, terms) :: rest =>
      if Py.str_in term_lower terms then Some category
      else mapped_category term_lower rest
  end.

(** [categorize_term] *)
Definition categorize_term (term : string) : string :=
  let term_lower := Py.lower term in
  match mapped_category term_lower category_mapping with
  | Some category => category
  | None =>
      if Py.str_in term_lower gen_alpha_terms then "gen_alpha"
      else if Py.str_in term_lower fashion_whitelist then "fashion"
      else if existsb (fun word => Py.contains word term_lower)
                      ["fit"; "style"; "wear"; "look"]
      then "fashion"
      else "general"
  end.

(** [batch_approve_researched_terms]: [approve_term] on each term, with
    the default actor, and a count that does not look at the result. *)
Fixpoint batch_approve_researched_terms (terms_list : list string)
         (clock : nat -> Timestamp) (db : SlangDatabase)
  : (Z * Z) * SlangDatabase :=
  match terms_list with
  | [] => ((0, 0), db)
  | term :: rest =>
      let db1 := snd (approve_term term "dashboard" (clock O) db) in
      let '((approved_count, total_requested), db2) :=
        batch_approve_researched_terms rest (fun i => clock (S i)) db1 in
      ((1 + approved_count, 1 + total_requested), db2)
  end.

(** The separators of [re.split(r'[,\n]+', ...)]: comma and line feed. *)
Definition is_separator (c : ascii) : bool :=
  Ascii.eqb c "," || (Py.code c =? 10)%N.

(** [re.split(r'[,\n]+', s)]: the pieces between the maximal runs of
    separators; [in_run] says that the character before was a separator. *)
Fixpoint split_terms (in_run : bool) (s : string) : list string :=
  match s with
  | EmptyString => [EmptyString]
  | String c s' =>
      if is_separator c
      then if in_run then split_terms true s'
           else EmptyString :: split_terms true s'
      else match split_terms false s' with
           | piece :: rest => String c piece :: rest
           | [] => [String c EmptyString]
           end
  end.

(** The parsing of [research_terms_from_list]: split, strip, and drop the
    pieces that are blank. *)
Definition parse_terms (terms_string : string) : list string :=
  map Py.strip
      (filter (fun term => Py.truthy (Py.strip term))
              (split_terms false (Py.strip terms_string))).

(* ================================================================= *)
(** ** Invariants of the store *)

(** Every stored key is its own normal form. *)
Definition keys_normalized (db : SlangDatabase) : Prop :=
  Forall (fun key => normalize key = key) (map st_term (slang_terms db)).

(** Every stored status is one of the three of the workflow. *)
Definition statuses_valid (db : SlangDatabase) : Prop :=
  Forall (fun status => In status ["pending"; "approved"; "rejected"])
         (map st_approval_status (slang_terms db)).

(** Every mention belongs to a stored term. *)
Definition mentions_refer (db : SlangDatabase) : Prop :=
  Forall (fun m => In (m_term_id m) (map st_id (slang_terms db))) (mentions db).

(** Every stored content has at most 500 characters. *)
Definition contents_bounded (db : SlangDatabase) : Prop :=
  Forall (fun m => Py.len (m_content m) <= 500) (mentions db).

(** All of it together, with the primary key of [mentions] and the table
    [daily_trends], which no method writes. *)
Definition store_ok (db : SlangDatabase) : Prop :=
  schema_ok db /\ keys_normalized db /\ statuses_valid db
  /\ mentions_refer db /\ contents_bounded db
  /\ NoDup (map m_id (mentions db)) /\ daily_trends db = [].

(** The entry of [get_approved_terms] that corresponds to an entry of
    [get_trending_terms]: the same columns, without the approval ones. *)
Definition as_approved_entry (e : TrendingEntry) : ApprovedEntry :=
  mkApproved (tr_id e) (tr_term e) (tr_definition e) (tr_category e)
             (tr_mentions e) (tr_avg_engagement e) (tr_first_seen e)
             (tr_approved_at e).

(** A sequence of calls that builds [drip_db]. *)
Definition drip_calls : list Call :=
  [CallAddTerm "Drip " (Some "Fashionable clothing") "fashion" 100;
   CallAddMention "drip" "reddit" "drip check" 5 101].

(** [sum(d.values())] *)
Definition dict_total (d : list (string * Z)) : Z :=
  fold_right Z.add 0 (map snd d).

(** The normalized name is among the stored keys. *)
Definition key_stored (db : SlangDatabase) (term : string) : bool :=
  Py.str_in (normalize term) (map st_term (slang_terms db)).

(** A term as [parse_terms] returns them: not empty, without white space
    around it, and free of commas and line feeds. *)
Definition clean_term (t : string) : Prop :=
  t <> EmptyString /\ Py.strip t = t
  /\ Py.all_chars (fun c => negb (is_separator c)) t = true.

(** The three lists of known slang that [is_valid_slang] consults. *)
Definition known_slang : list string :=
  (fashion_whitelist ++ confirmed_slang ++ gen_alpha_terms)%list.

(** What every candidate of a call on [text] and [source_platform] carries
    besides its term and score. *)
Definition candidate_of (text source_platform : string) (c : Candidate) : Prop :=
  normalize (c_term c) = c_term c
  /\ c_context c = Py.take 200 text
  /\ c_source_platform c = source_platform.

(** A search text without the wildcards of [LIKE]. *)
Definition wildcard_free (query : string) : bool :=
  Py.all_chars (fun c => negb (Ascii.eqb c "%" || Ascii.eqb c "_")) query.

(** [b] is not later than [a]: the order of [get_recent_activity], where a
    missing time is before every time. *)
Definition not_later (a b : option Timestamp) : Prop :=
  match a, b with
  | Some x, Some y => y <= x
  | Some _, None => True
  | None, Some _ => False
  | None, None => True
  end.

(* ================================================================= *)
(** ** Predicates of the statements *)

(** A string that does not begin with white space. *)
Definition starts_clean (s : string) : Prop :=
  match s with
  | EmptyString => True
  | String c _ => Py.isspace_char c = false
  end.

(** The columns of a term row that an approval decision does not touch
    (the rejection reason is left out: a rejection writes it). *)
Definition same_entry (r r' : TermRow) : Prop :=
  st_id r' = st_id r /\ st_term r' = st_term r
  /\ st_definition r' = st_definition r /\ st_category r' = st_category r
  /\ st_first_seen r' = st_first_seen r.

(** The term is known to the store under its key. *)
Definition known (term : string) (db : SlangDatabase) : Prop :=
  exists r, In r (slang_terms db) /\ st_term r = normalize term.

(** When a call of [add_term] on a stored term takes the new definition,
    in the words of the specification with white space accounted for: the
    new definition is given and not blank, and the stored one is missing,
    empty, a placeholder or, both stripped, strictly shorter. *)
Definition takes_definition (definition current : option string) : Prop :=
  exists d,
    definition = Some d /\ Py.strip d <> ""
    /\ (current = None \/ current = Some ""
        \/ current = Some "Trending slang term"
        \/ current = Some "Approved slang term"
        \/ exists cur, current = Some cur
                       /\ Py.len (Py.strip cur) < Py.len (Py.strip d)).

(** The columns of a term row other than its definition. *)
Definition same_but_definition (r r' : TermRow) : Prop :=
  st_id r' = st_id r /\ st_term r' = st_term r
  /\ st_category r' = st_category r
  /\ st_approval_status r' = st_approval_status r
  /\ st_approved_by r' = st_approved_by r
  /\ st_approved_at r' = st_approved_at r
  /\ st_rejection_reason r' = st_rejection_reason r
  /\ st_first_seen r' = st_first_seen r.

(** "Apply the singular operation per element and count the successes":
    [op i] is the operation as it runs on the [i]-th element still to
    come. *)
Fixpoint apply_each (op : nat -> string -> SlangDatabase -> bool * SlangDatabase)
         (terms : list string) (db : SlangDatabase) : Z * SlangDatabase :=
  match terms with
  | [] => (0, db)
  | term :: rest =>
      let '(ok, db1) := op O term db in
      let '(successes, db2) := apply_each (fun i => op (S i)) rest db1 in
      ((if ok then 1 else 0) + successes, db2)
  end.

(** The singular approval, skipped for a term that is missing or not
    pending. *)
Definition approve_if_pending (approved_by : string) (now : Timestamp)
           (term : string) (db : SlangDatabase) : bool * SlangDatabase :=
  match select_term (normalize term) db with
  | None => (false, db)
  | Some r =>
      if String.eqb (st_approval_status r) "pending"
      then approve_term term approved_by now db
      else (false, db)
  end.

(** The characters the basic filter of the extractor lets through. *)
Definition letter_space_hyphen (c : ascii) : bool :=
  Py.isalpha_char c || Ascii.eqb c " " || Ascii.eqb c "-".

(** What the basic filter asks of the term of a regex match. *)
Definition passes_filter (term : string) : Prop :=
  ~ In term blacklist
  /\ 3 <= Py.len term <= 15
  /\ Py.isdigit term = false
  /\ Py.all_chars letter_space_hyphen term = true.

(** The tag and the score of a candidate that a regex pattern produced. *)
Definition regex_scored (c : Candidate) : Prop :=
  In (c_pattern c) slang_patterns
  /\ c_confidence c
     = if String.eqb (c_pattern c) "definition" then 0.7%Q else 0.5%Q.

(** The candidate the first allow-list loop appends for a term. *)
Definition fashion_candidate (text source_platform t : string) : Candidate :=
  mkCandidate t (Py.take 200 text) "fashion_whitelist" 0.9 source_platform.

(** The candidate the second allow-list loop appends for a term. *)
Definition gen_alpha_candidate (text source_platform t : string) : Candidate :=
  mkCandidate t (Py.take 200 text) "gen_alpha_confirmed" 0.95 source_platform.

(** [a] may stand before [b] in a list sorted by confidence, descending. *)
Definition confidence_desc (a b : Candidate) : Prop :=
  (c_confidence b <= c_confidence a)%Q.

(** What holds of the candidates [rx] that the regex loops have appended
    behind the allow-list candidates [allow]: each passed the basic filter
    and carries the tag and score of its pattern, and none repeats a term
    emitted before it. *)
Definition regex_part_ok (allow rx : list Candidate) : Prop :=
  Forall (fun c => passes_filter (c_term c) /\ regex_scored c) rx
  /\ NoDup (map c_term rx)
  /\ (forall c, In c rx -> ~ In (c_term c) (map c_term allow)).

(* ================================================================= *)
(** ** Concrete inputs and stores of the examples *)

(** A definition of 301 characters: one blank, then 300 letters. *)
Definition padded_definition : string := String " " (Py.repeat_char "a" 300).

(** A definition of 400 letters. *)
Definition long_definition : string := Py.repeat_char "a" 400.

(** The store after [add_term("Drip ", "Fashionable clothing", "fashion")]
    and [add_mention("drip", "reddit", "drip check", 5)] on a fresh file. *)
Definition drip_db : SlangDatabase :=
  snd (add_mention "drip" "reddit" "drip check" 5 101
         (snd (add_term "Drip " (Some "Fashionable clothing") "fashion" 100
                        init_database))).

(** [drip_db] after the term was rejected with the reason "test" and then
    approved. *)
Definition stale_reason_db : SlangDatabase :=
  snd (approve_term "drip" "admin" 103
         (snd (reject_term "drip" "test" "admin" 102 drip_db))).

(** A store with one term and no mention: [add_term("drip")] on a fresh
    file. *)
Definition unmentioned_db : SlangDatabase :=
  snd (add_term "drip" None "general" 100 init_database).

(** [unmentioned_db] with the definition "abc" followed by six blanks. *)
Definition trailing_blanks_db : SlangDatabase :=
  snd (add_term "drip" (Some "abc      ") "general" 101 unmentioned_db).

(** A run without the Urban Dictionary client. *)
Definition no_lookup (term : string) (w : unit) : UrbanResult * unit :=
  (mkUrban false EmptyString EmptyString 0 "unavailable", w).

(** The matches of the five patterns in a text that none of them matches. *)
Definition no_match (pattern_name text : string) : list string := [].

(** The text of the example of the specification. *)
Definition fit_text : string := "your fit is fire, no cap".

(** A text that three patterns match, and the matches of the patterns in
    its lower case: [definition] and [social_indicators] find "cool", and
    [explanation] finds "yeet". *)
Definition yeet_text : string := "yeet means cool fr".

Definition yeet_matches (pattern_name text : string) : list string :=
  if String.eqb pattern_name "definition" then ["cool"]
  else if String.eqb pattern_name "social_indicators" then ["cool"]
  else if String.eqb pattern_name "explanation" then ["yeet"]
  else [].

(** A store with two terms: [drip_db] and the term "mid", added without a
    definition and never mentioned. *)
Definition two_terms_db : SlangDatabase :=
  snd (add_term "mid" None "general" 102 drip_db).

(* ================================================================= *)
(** * Properties *)

(** ** Strings *)

Section StringFacts.

Import Py.

Lemma length_app (a b : string) :
  String.length (a ++ b) = (String.length a + String.length b)%nat.
Proof.
  induction a as [|c a IH]; simpl; [reflexivity | now rewrite IH].
Qed.

Lemma length_take (n : nat) (s : string) :
  String.length (take n s) = Nat.min n (String.length s).
Proof.
  revert s; induction n as [|n IH]; intros [|c s]; simpl; auto.
Qed.

Lemma length_repeat_char (c : ascii) (n : nat) :
  String.length (repeat_char c n) = n.
Proof.
  induction n as [|n IH]; simpl; [reflexivity | now rewrite IH].
Qed.

Lemma lstrip_starts_clean (s : string) : starts_clean (lstrip s).
Proof.
  induction s as [|c s IH]; simpl; [exact I|].
  destruct (isspace_char c) eqn:E; [exact IH | exact E].
Qed.

Lemma lstrip_fixed (s : string) : starts_clean s -> lstrip s = s.
Proof.
  destruct s as [|c s]; simpl; [reflexivity|].
  now intros ->.
Qed.

Lemma rstrip_starts_clean (s : string) :
  starts_clean s -> starts_clean (rstrip s).
Proof.
  destruct s as [|c s]; simpl; [trivial|].
  intros Hc. destruct (rstrip s); simpl; [now rewrite Hc | exact Hc].
Qed.

Lemma rstrip_idempotent (s : string) : rstrip (rstrip s) = rstrip s.
Proof.
  induction s as [|c s IH]; simpl; [reflexivity|].
  destruct (rstrip s) as [|d r] eqn:E.
  - destruct (isspace_char c) eqn:Ec; simpl; [reflexivity | now rewrite Ec].
  - change (rstrip (String c (String d r))) with
      (match rstrip (String d r) with
       | EmptyString =>
           if isspace_char c then EmptyString else String c EmptyString
       | r0 => String c r0
       end).
    now rewrite IH.
Qed.

(** White space is stripped once and for all. *)
Lemma strip_idempotent (s : string) : strip (strip s) = strip s.
Proof.
  unfold strip.
  rewrite (lstrip_fixed (rstrip (lstrip s))).
  - apply rstrip_idempotent.
  - apply rstrip_starts_clean, lstrip_starts_clean.
Qed.

Lemma strip_starts_clean (s : string) : starts_clean (strip s).
Proof. apply rstrip_starts_clean, lstrip_starts_clean. Qed.

Lemma rstrip_app_fixed (x y : string) :
  y <> EmptyString -> rstrip y = y -> rstrip (x ++ y) = x ++ y.
Proof.
  intros Hy Hfix. induction x as [|c x IH]; simpl; [exact Hfix|].
  rewrite IH. destruct (x ++ y) as [|d r] eqn:E; [|reflexivity].
  destruct x; simpl in E; [contradiction | discriminate].
Qed.

Lemma isspace_lower_char (c : ascii) :
  isspace_char (lower_char c) = isspace_char c.
Proof. destruct c as [[] [] [] [] [] [] [] []]; reflexivity. Qed.

Lemma lower_char_idempotent (c : ascii) :
  lower_char (lower_char c) = lower_char c.
Proof. destruct c as [[] [] [] [] [] [] [] []]; reflexivity. Qed.

Lemma lower_idempotent (s : string) : lower (lower s) = lower s.
Proof.
  induction s as [|c s IH]; simpl; [reflexivity|].
  now rewrite lower_char_idempotent, IH.
Qed.

Lemma lower_lstrip (s : string) : lower (lstrip s) = lstrip (lower s).
Proof.
  induction s as [|c s IH]; simpl; [reflexivity|].
  rewrite isspace_lower_char. now destruct (isspace_char c).
Qed.

Lemma lower_rstrip (s : string) : lower (rstrip s) = rstrip (lower s).
Proof.
  induction s as [|c s IH]; simpl; [reflexivity|].
  rewrite <- IH, isspace_lower_char.
  destruct (rstrip s); simpl; [now destruct (isspace_char c) | reflexivity].
Qed.

Lemma lower_strip (s : string) : lower (strip s) = strip (lower s).
Proof. unfold strip. now rewrite lower_rstrip, lower_lstrip. Qed.

(** The key of a key is the key. *)
Lemma normalize_idempotent (term : string) :
  normalize (normalize term) = normalize term.
Proof.
  unfold normalize.
  now rewrite lower_strip, lower_idempotent, strip_idempotent.
Qed.

Lemma str_in_true (x : string) (xs : list string) :
  str_in x xs = true <-> In x xs.
Proof.
  unfold str_in. rewrite existsb_exists. split.
  - intros (y & Hy & E). apply String.eqb_eq in E. now subst.
  - intros H. exists x. split; [exact H | apply String.eqb_refl].
Qed.

Lemma str_in_false (x : string) (xs : list string) :
  str_in x xs = false <-> ~ In x xs.
Proof.
  rewrite <- str_in_true. destruct (str_in x xs); split; intros H;
    try reflexivity; try discriminate; try (intros E; discriminate).
  now elim H.
Qed.

Lemma truthy_true (s : string) : truthy s = true <-> s <> EmptyString.
Proof. destruct s; simpl; split; intros H; congruence. Qed.

End StringFacts.

(** ** [_clean_definition] *)

Section CleanDefinition.

Import Py.

#[local] Arguments take : simpl never.

Lemma clean_placeholder (d : string) :
  str_in (strip d) ["Trending slang term"; "Approved slang term"; ""] = true ->
  _clean_definition (Some d) = "No definition available".
Proof.
  intros H. unfold _clean_definition.
  destruct (negb (truthy d)); [reflexivity|]. cbv zeta. now rewrite H.
Qed.

Lemma clean_kept (d : string) :
  str_in (strip d) ["Trending slang term"; "Approved slang term"; ""] = false ->
  len (strip d) <= 300 ->
  _clean_definition (Some d) = strip d.
Proof.
  intros Hp Hlen. unfold _clean_definition.
  destruct (truthy d) eqn:Hd; cbv beta iota zeta delta [negb].
  - rewrite Hp. destruct (300 <? len (strip d)) eqn:E; [|reflexivity].
    apply Z.ltb_lt in E. lia.
  - destruct d; [|discriminate]. discriminate Hp.
Qed.

Lemma clean_truncated (d : string) :
  300 < len (strip d) ->
  _clean_definition (Some d) = take 297 (strip d) ++ "...".
Proof.
  intros Hlen. unfold _clean_definition.
  assert (Hd : truthy d = true).
  { destruct d; [|reflexivity]. unfold len in Hlen. simpl in Hlen. lia. }
  rewrite Hd. cbv beta iota zeta delta [negb].
  assert (Hp : str_in (strip d)
                 ["Trending slang term"; "Approved slang term"; ""] = false).
  { apply str_in_false. intros Hin. unfold len in Hlen.
    simpl in Hin. destruct Hin as [E|[E|[E|[]]]]; rewrite <- E in Hlen;
      simpl in Hlen; lia. }
  rewrite Hp. apply Z.ltb_lt in Hlen. now rewrite Hlen.
Qed.

(** A truncated definition is already clean. *)
Lemma truncation_is_clean (t : string) :
  starts_clean t -> 300 < len t ->
  _clean_definition (Some (take 297 t ++ "...")) = take 297 t ++ "...".
Proof.
  intros Hclean Hlen.
  assert (Hfix : strip (take 297 t ++ "...") = take 297 t ++ "...").
  { unfold strip. rewrite lstrip_fixed.
    - apply rstrip_app_fixed; [discriminate | reflexivity].
    - destruct t as [|c t]; [|exact Hclean].
      unfold len in Hlen; simpl in Hlen; lia. }
  assert (Hl : len (take 297 t ++ "...") = 300).
  { unfold len in *. rewrite length_app, length_take.
    change (String.length "...") with 3%nat. lia. }
  rewrite clean_kept; rewrite Hfix; [reflexivity| |lia].
  apply str_in_false. intros Hin.
  destruct Hin as [E|[E|[E|[]]]]; rewrite <- E in Hl; discriminate Hl.
Qed.

Lemma clean_idempotent (x : option string) :
  _clean_definition (Some (_clean_definition x)) = _clean_definition x.
Proof.
  destruct x as [d|]; [|reflexivity].
  destruct (str_in (strip d)
              ["Trending slang term"; "Approved slang term"; ""]) eqn:Hp.
  - now rewrite (clean_placeholder d Hp).
  - destruct (Z_lt_le_dec 300 (len (strip d))) as [Hlong|Hshort].
    + rewrite (clean_truncated d Hlong).
      apply truncation_is_clean; [apply strip_starts_clean | exact Hlong].
    + rewrite (clean_kept d Hp Hshort).
      rewrite clean_kept; rewrite strip_idempotent; auto.
Qed.

(** C3 (as amended).  [_clean_definition] is idempotent on every input.
    It strips the white space around a definition first, and the stripped
    form decides: NULL and every definition whose stripped form is empty
    or one of the placeholder strings, so the empty string, each
    placeholder string, a blank definition and a placeholder string with
    white space around it, are mapped to "No definition available"; a
    definition whose stripped form is longer than 300 characters is mapped
    to the first 297 characters of the stripped form followed by "...";
    any other definition is returned stripped.  The three cases cover
    every definition. *)
Theorem clean_definition_spec :
  (forall x : option string,
      _clean_definition (Some (_clean_definition x)) = _clean_definition x)
  /\ _clean_definition None = "No definition available"
  /\ (forall p : string,
         In p [""; "Trending slang term"; "Approved slang term"] ->
         _clean_definition (Some p) = "No definition available")
  /\ (forall d : string,
         In (strip d) [""; "Trending slang term"; "Approved slang term"] ->
         _clean_definition (Some d) = "No definition available")
  /\ (forall d : string,
         300 < len (strip d) ->
         _clean_definition (Some d) = take 297 (strip d) ++ "...")
  /\ (forall d : string,
         ~ In (strip d) [""; "Trending slang term"; "Approved slang term"] ->
         len (strip d) <= 300 ->
         _clean_definition (Some d) = strip d)
  /\ (forall d : string,
         In (strip d) [""; "Trending slang term"; "Approved slang term"]
         \/ 300 < len (strip d)
         \/ (~ In (strip d) [""; "Trending slang term"; "Approved slang term"]
             /\ len (strip d) <= 300)).
Proof.
  assert (Hplace : forall d : string,
             In (strip d) [""; "Trending slang term"; "Approved slang term"] ->
             _clean_definition (Some d) = "No definition available").
  { intros d Hin. apply clean_placeholder. apply (proj2 (str_in_true _ _)).
    destruct Hin as [E|[E|[E|[]]]]; rewrite <- E; simpl; tauto. }
  split; [exact clean_idempotent|].
  split; [reflexivity|].
  split.
  { intros p [E|[E|[E|[]]]]; subst p; reflexivity. }
  split; [exact Hplace|].
  split; [exact clean_truncated|].
  split.
  { intros d Hp Hlen. apply clean_kept; [|exact Hlen].
    apply str_in_false. intros Hin. apply Hp.
    destruct Hin as [E|[E|[E|[]]]]; rewrite <- E; simpl; tauto. }
  intros d.
  destruct (in_dec string_dec (strip d)
              [""; "Trending slang term"; "Approved slang term"]) as [Hin|Hout];
    [now left|].
  destruct (Z_lt_le_dec 300 (len (strip d))); [right; now left|].
  right. right. now split.
Qed.

Lemma clean_definition_spec_witness :
  _clean_definition (Some "Trending slang term") = "No definition available"
  /\ _clean_definition (Some "   ") = "No definition available"
  /\ _clean_definition (Some " Trending slang term ") = "No definition available"
  /\ _clean_definition (Some long_definition)
     = take 297 (strip long_definition) ++ "..."
  /\ _clean_definition (Some padded_definition) = strip padded_definition.
Proof.
  destruct clean_definition_spec as (_ & _ & Hp & Hs & Ht & Hk & _).
  split; [|split; [|split; [|split]]].
  - apply Hp. right. left. reflexivity.
  - apply Hs. left. reflexivity.
  - apply Hs. right. left. reflexivity.
  - apply Ht. vm_compute. reflexivity.
  - apply Hk.
    + vm_compute. intros [E|[E|[E|[]]]]; discriminate E.
    + vm_compute. discriminate.
Defined.

(** C3 as stated fails: a definition of 301 characters, a blank and 300
    letters, is longer than 300 characters and is not cut to its first 297
    characters and "..."; it comes back as the 300 letters. *)
Lemma clean_definition_not_raw_truncation :
  300 < len padded_definition
  /\ _clean_definition (Some padded_definition)
     <> take 297 padded_definition ++ "..."
  /\ _clean_definition (Some padded_definition) = repeat_char "a" 300.
Proof.
  split; [reflexivity|]. split; [|reflexivity].
  vm_compute. discriminate.
Qed.

End CleanDefinition.

(** ** Tables, [ORDER BY] and [LIMIT] *)

Section TableFacts.

Context {A : Type}.

Lemma rowcount_positive (p : A -> bool) (rows : list A) :
  (0 <? rowcount p rows) = true <-> exists r, In r rows /\ p r = true.
Proof.
  unfold rowcount. rewrite Z.ltb_lt. split.
  - intros H. destruct (filter p rows) as [|r l] eqn:E; [simpl in H; lia|].
    exists r. apply filter_In. rewrite E. now left.
  - intros (r & Hin & Hp).
    assert (Hf : In r (filter p rows)) by now apply filter_In.
    destruct (filter p rows); [contradiction | simpl; lia].
Qed.

Lemma rowcount_zero (p : A -> bool) (rows : list A) :
  (0 <? rowcount p rows) = false <-> forall r, In r rows -> p r = false.
Proof.
  split.
  - intros H r Hin. destruct (p r) eqn:E; [|reflexivity].
    assert (Hpos : (0 <? rowcount p rows) = true)
      by (apply rowcount_positive; now exists r).
    congruence.
  - intros H. destruct (0 <? rowcount p rows) eqn:E; [|reflexivity].
    apply rowcount_positive in E. destruct E as (r & Hin & Hp).
    rewrite (H r Hin) in Hp. discriminate.
Qed.

Lemma insert_by_perm (before : A -> A -> bool) (x : A) (l : list A) :
  Permutation (x :: l) (insert_by before x l).
Proof.
  induction l as [|y l IH]; simpl; [reflexivity|].
  destruct (before y x); [|reflexivity].
  rewrite perm_swap. now constructor.
Qed.

Lemma order_by_perm (before : A -> A -> bool) (l : list A) :
  Permutation l (order_by before l).
Proof.
  induction l as [|x l IH]; simpl; [reflexivity|].
  rewrite <- insert_by_perm. now constructor.
Qed.

Lemma order_by_In (before : A -> A -> bool) (l : list A) (x : A) :
  In x (order_by before l) <-> In x l.
Proof.
  split; apply Permutation_in;
    [symmetry|]; apply order_by_perm.
Qed.

Lemma order_by_length (before : A -> A -> bool) (l : list A) :
  List.length (order_by before l) = List.length l.
Proof. symmetry. apply Permutation_length, order_by_perm. Qed.

Lemma firstn_In (n : nat) (l : list A) (x : A) :
  In x (firstn n l) -> In x l.
Proof.
  revert l; induction n as [|n IH]; intros [|y l]; simpl; try tauto.
  intros [E|H]; [now left | right; now apply IH].
Qed.

Lemma sql_limit_In (limit : Z) (l : list A) (x : A) :
  In x (sql_limit limit l) -> In x l.
Proof.
  unfold sql_limit. destruct (limit <? 0); [trivial | apply firstn_In].
Qed.

Lemma sql_limit_all (limit : Z) (l : list A) :
  Z.of_nat (List.length l) <= limit -> sql_limit limit l = l.
Proof.
  intros H. unfold sql_limit.
  destruct (limit <? 0) eqn:E; [reflexivity|].
  apply firstn_all2. lia.
Qed.

End TableFacts.

Lemma update_terms_miss (p : TermRow -> bool) (f : TermRow -> TermRow)
      (rows : list TermRow) :
  (forall r, In r rows -> p r = false) -> update_terms p f rows = rows.
Proof.
  intros H. unfold update_terms. induction rows as [|r rows IH]; simpl; [reflexivity|].
  rewrite (H r (or_introl eq_refl)). f_equal. apply IH.
  intros r' Hin. apply H. now right.
Qed.

Lemma update_terms_Forall2 (p : TermRow -> bool) (f : TermRow -> TermRow)
      (rows : list TermRow) :
  Forall2 (fun r r' => r' = if p r then f r else r) rows (update_terms p f rows).
Proof.
  unfold update_terms. induction rows as [|r rows IH]; simpl; constructor; auto.
Qed.

Lemma update_terms_keeps (g : TermRow -> string) (p : TermRow -> bool)
      (f : TermRow -> TermRow) (rows : list TermRow) :
  (forall r, g (f r) = g r) ->
  map g (update_terms p f rows) = map g rows.
Proof.
  intros H. unfold update_terms. rewrite map_map. apply map_ext.
  intros r. destruct (p r); [apply H | reflexivity].
Qed.

Lemma update_terms_keeps_id (p : TermRow -> bool)
      (f : TermRow -> TermRow) (rows : list TermRow) :
  (forall r, st_id (f r) = st_id r) ->
  map st_id (update_terms p f rows) = map st_id rows.
Proof.
  intros H. unfold update_terms. rewrite map_map. apply map_ext.
  intros r. destruct (p r); [apply H | reflexivity].
Qed.

Lemma select_term_Some (key : string) (db : SlangDatabase) (r : TermRow) :
  select_term key db = Some r -> In r (slang_terms db) /\ st_term r = key.
Proof.
  unfold select_term. intros H. apply find_some in H.
  destruct H as [Hin E]. apply String.eqb_eq in E. now split.
Qed.

Lemma select_term_None (key : string) (db : SlangDatabase) :
  select_term key db = None <-> forall r, In r (slang_terms db) -> st_term r <> key.
Proof.
  unfold select_term. split.
  - intros H r Hin E. pose proof (find_none _ _ H r Hin) as Hf.
    simpl in Hf. apply String.eqb_neq in Hf. contradiction.
  - intros H. destruct (find _ _) as [r|] eqn:E; [|reflexivity].
    apply find_some in E. destruct E as [Hin E]. apply String.eqb_eq in E.
    now elim (H r Hin).
Qed.

(** Under the UNIQUE constraint the lookup by key finds the row there is. *)
Lemma select_term_unique (db : SlangDatabase) (r : TermRow) :
  NoDup (map st_term (slang_terms db)) -> In r (slang_terms db) ->
  select_term (st_term r) db = Some r.
Proof.
  unfold select_term. induction (slang_terms db) as [|x rows IH]; simpl;
    intros Hnd Hin; [contradiction|].
  inversion Hnd as [|? ? Hx Hnd']; subst.
  destruct Hin as [->|Hin]; [now rewrite String.eqb_refl|].
  destruct (String.eqb (st_term x) (st_term r)) eqn:E; [|now apply IH].
  apply String.eqb_eq in E. elim Hx. rewrite E. now apply in_map.
Qed.

(** ** The approval workflow: [approve_term], [reject_term] *)

Section Approval.

Variables (term : string) (db : SlangDatabase).

Lemma hit_known :
  (exists r, In r (slang_terms db)
             /\ String.eqb (st_term r) (normalize term) = true)
  <-> known term db.
Proof.
  unfold known. split; intros (r & Hin & E); exists r; split; auto;
    now apply String.eqb_eq.
Qed.

Lemma approve_term_true (actor : string) (now : Timestamp) :
  fst (approve_term term actor now db) = true <-> known term db.
Proof.
  unfold approve_term. simpl. rewrite rowcount_positive. apply hit_known.
Qed.

Lemma reject_term_true (reason actor : string) (now : Timestamp) :
  fst (reject_term term reason actor now db) = true <-> known term db.
Proof.
  unfold reject_term. simpl. rewrite rowcount_positive. apply hit_known.
Qed.

Lemma approve_term_false (actor : string) (now : Timestamp) :
  fst (approve_term term actor now db) = false ->
  snd (approve_term term actor now db) = db.
Proof.
  unfold approve_term. simpl. intros H.
  rewrite update_terms_miss; [now destruct db|].
  now apply rowcount_zero.
Qed.

Lemma reject_term_false (reason actor : string) (now : Timestamp) :
  fst (reject_term term reason actor now db) = false ->
  snd (reject_term term reason actor now db) = db.
Proof.
  unfold reject_term. simpl. intros H.
  rewrite update_terms_miss; [now destruct db|].
  now apply rowcount_zero.
Qed.

Lemma approve_term_rows (actor : string) (now : Timestamp) :
  Forall2
    (fun r r' =>
       same_entry r r'
       /\ st_rejection_reason r' = st_rejection_reason r
       /\ if String.eqb (st_term r) (normalize term)
          then st_approval_status r' = "approved"
               /\ st_approved_by r' = Some actor
               /\ st_approved_at r' = Some now
          else r' = r)
    (slang_terms db) (slang_terms (snd (approve_term term actor now db))).
Proof.
  unfold approve_term. simpl.
  eapply Forall2_impl; [|apply update_terms_Forall2].
  intros r r' ->. unfold same_entry.
  destruct (String.eqb (st_term r) (normalize term)); simpl; repeat split.
Qed.

Lemma reject_term_rows (reason actor : string) (now : Timestamp) :
  Forall2
    (fun r r' =>
       same_entry r r'
       /\ if String.eqb (st_term r) (normalize term)
          then st_approval_status r' = "rejected"
               /\ st_approved_by r' = Some actor
               /\ st_approved_at r' = Some now
               /\ st_rejection_reason r' = Some reason
          else r' = r)
    (slang_terms db) (slang_terms (snd (reject_term term reason actor now db))).
Proof.
  unfold reject_term. simpl.
  eapply Forall2_impl; [|apply update_terms_Forall2].
  intros r r' ->. unfold same_entry.
  destruct (String.eqb (st_term r) (normalize term)); simpl; repeat split.
Qed.

End Approval.

Lemma Forall2_In_r {A B : Type} (R : A -> B -> Prop) (l : list A) (l' : list B) (y : B) :
  Forall2 R l l' -> In y l' -> exists x, In x l /\ R x y.
Proof.
  induction 1 as [|a b l l' Hab _ IH]; simpl; [contradiction|].
  intros [<-|Hin].
  - exists a. auto.
  - destruct (IH Hin) as (x & Hx & HR). exists x. auto.
Qed.

Lemma Forall2_In_l {A B : Type} (R : A -> B -> Prop) (l : list A) (l' : list B) (x : A) :
  Forall2 R l l' -> In x l -> exists y, In y l' /\ R x y.
Proof.
  induction 1 as [|a b l l' Hab _ IH]; simpl; [contradiction|].
  intros [<-|Hin].
  - exists b. auto.
  - destruct (IH Hin) as (y & Hy & HR). exists y. auto.
Qed.

(** Whatever the row held before, after [approve_term] it is approved and
    carries the new actor and time. *)
Lemma approve_term_post (term actor : string) (now : Timestamp)
      (db : SlangDatabase) (r' : TermRow) :
  In r' (slang_terms (snd (approve_term term actor now db))) ->
  st_term r' = normalize term ->
  st_approval_status r' = "approved"
  /\ st_approved_by r' = Some actor /\ st_approved_at r' = Some now.
Proof.
  intros Hin Hkey.
  destruct (Forall2_In_r _ _ _ _ (approve_term_rows term db actor now) Hin)
    as (r & _ & (Hsame & _ & Hcase)).
  destruct Hsame as (_ & Ht & _). rewrite Hkey in Ht.
  rewrite <- Ht, String.eqb_refl in Hcase. exact Hcase.
Qed.

Lemma reject_term_post (term reason actor : string) (now : Timestamp)
      (db : SlangDatabase) (r' : TermRow) :
  In r' (slang_terms (snd (reject_term term reason actor now db))) ->
  st_term r' = normalize term ->
  st_approval_status r' = "rejected"
  /\ st_approved_by r' = Some actor /\ st_approved_at r' = Some now
  /\ st_rejection_reason r' = Some reason.
Proof.
  intros Hin Hkey.
  destruct (Forall2_In_r _ _ _ _ (reject_term_rows term db reason actor now) Hin)
    as (r & _ & (Hsame & Hcase)).
  destruct Hsame as (_ & Ht & _). rewrite Hkey in Ht.
  rewrite <- Ht, String.eqb_refl in Hcase. exact Hcase.
Qed.

(** C4.  [approve_term] and [reject_term] return true exactly when a row
    has the normalized name; on an unknown term they return false and
    leave the store as it was.  On every matching row, whatever it held
    before, they write the status, the actor and the time (and the reason,
    for a rejection); the other rows and tables are untouched.  So a
    rejected term can be approved, an approved one rejected, and a
    repeated decision overwrites actor, time and reason. *)
Theorem set_approval_status_spec
        (term actor reason : string) (now : Timestamp) (db : SlangDatabase) :
  let approved := approve_term term actor now db in
  let rejected := reject_term term reason actor now db in
  (fst approved = true <-> known term db)
  /\ (fst rejected = true <-> known term db)
  /\ (fst approved = false -> snd approved = db)
  /\ (fst rejected = false -> snd rejected = db)
  /\ mentions (snd approved) = mentions db
  /\ daily_trends (snd approved) = daily_trends db
  /\ mentions (snd rejected) = mentions db
  /\ daily_trends (snd rejected) = daily_trends db
  /\ Forall2
       (fun r r' =>
          same_entry r r'
          /\ if String.eqb (st_term r) (normalize term)
             then st_approval_status r' = "approved"
                  /\ st_approved_by r' = Some actor
                  /\ st_approved_at r' = Some now
             else r' = r)
       (slang_terms db) (slang_terms (snd approved))
  /\ Forall2
       (fun r r' =>
          same_entry r r'
          /\ if String.eqb (st_term r) (normalize term)
             then st_approval_status r' = "rejected"
                  /\ st_approved_by r' = Some actor
                  /\ st_approved_at r' = Some now
                  /\ st_rejection_reason r' = Some reason
             else r' = r)
       (slang_terms db) (slang_terms (snd rejected))
  /\ (forall actor2 now2 r,
         In r (slang_terms (snd (approve_term term actor2 now2 (snd rejected)))) ->
         st_term r = normalize term ->
         st_approval_status r = "approved"
         /\ st_approved_by r = Some actor2 /\ st_approved_at r = Some now2)
  /\ (forall reason2 actor2 now2 r,
         In r (slang_terms (snd (reject_term term reason2 actor2 now2 (snd approved)))) ->
         st_term r = normalize term ->
         st_approval_status r = "rejected"
         /\ st_approved_by r = Some actor2 /\ st_approved_at r = Some now2
         /\ st_rejection_reason r = Some reason2)
  /\ (forall actor2 now2 r,
         In r (slang_terms (snd (approve_term term actor2 now2 (snd approved)))) ->
         st_term r = normalize term ->
         st_approval_status r = "approved"
         /\ st_approved_by r = Some actor2 /\ st_approved_at r = Some now2)
  /\ (forall reason2 actor2 now2 r,
         In r (slang_terms (snd (reject_term term reason2 actor2 now2 (snd rejected)))) ->
         st_term r = normalize term ->
         st_approval_status r = "rejected"
         /\ st_approved_by r = Some actor2 /\ st_approved_at r = Some now2
         /\ st_rejection_reason r = Some reason2).
Proof.
  intros approved rejected. subst approved rejected.
  split; [apply approve_term_true|].
  split; [apply reject_term_true|].
  split; [apply approve_term_false|].
  split; [apply reject_term_false|].
  do 4 (split; [reflexivity|]).
  split.
  { eapply Forall2_impl; [|apply approve_term_rows].
    intros r r' (Hs & _ & Hc). now split. }
  split; [apply reject_term_rows|].
  split; [intros; eapply approve_term_post; eassumption|].
  split; [intros; eapply reject_term_post; eassumption|].
  split; [intros; eapply approve_term_post; eassumption|].
  intros; eapply reject_term_post; eassumption.
Qed.

Lemma set_approval_status_spec_witness :
  fst (approve_term "Drip" "admin" 102 drip_db) = true
  /\ snd (reject_term "fit" "test" "admin" 102 drip_db) = drip_db
  /\ st_approval_status
       (mkTermRow 1 "drip" (Some "Fashionable clothing") "fashion"
                  "approved" (Some "admin") (Some 103) (Some "test") 100)
     = "approved".
Proof.
  split; [|split].
  - apply (set_approval_status_spec "Drip" "admin" "" 102 drip_db).
    exists (mkTermRow 1 "drip" (Some "Fashionable clothing") "fashion" "pending"
                      None None None 100).
    split; [now left | reflexivity].
  - apply (set_approval_status_spec "fit" "admin" "test" 102 drip_db).
    reflexivity.
  - destruct (set_approval_status_spec "drip" "admin" "test" 102 drip_db)
      as (_ & _ & _ & _ & _ & _ & _ & _ & _ & _ & H & _).
    exact (proj1 (H "admin" 103
                    (mkTermRow 1 "drip" (Some "Fashionable clothing") "fashion"
                               "approved" (Some "admin") (Some 103)
                               (Some "test") 100)
                    (or_introl eq_refl) eq_refl)).
Defined.

(** ** The aggregation queries *)

Lemma term_groups_In (db : SlangDatabase) (g : Group) :
  In g (term_groups db) <-> exists r, In r (slang_terms db) /\ g = group_of db r.
Proof.
  unfold term_groups. rewrite in_map_iff. split; intros (r & H1 & H2); exists r; auto.
Qed.

Lemma NoDup_map_inj {A B : Type} (f : A -> B) (l : list A) (a b : A) :
  NoDup (map f l) -> In a l -> In b l -> f a = f b -> a = b.
Proof.
  induction l as [|x l IH]; simpl; [contradiction|].
  intros Hnd Ha Hb E. inversion Hnd as [|? ? Hx Hnd']; subst.
  destruct Ha as [->|Ha], Hb as [->|Hb]; auto.
  - elim Hx. rewrite E. now apply in_map.
  - elim Hx. rewrite <- E. now apply in_map.
Qed.

(** Every entry of [get_trending_terms] is the entry of a stored term that
    passes the status filter and has at least one mention. *)
Lemma trending_In (limit : Z) (status : string) (db : SlangDatabase)
      (e : TrendingEntry) :
  In e (get_trending_terms limit status db) ->
  exists r, In r (slang_terms db)
            /\ e = trending_entry (group_of db r)
            /\ 0 < mention_count (st_id r) db
            /\ status_filter status (group_of db r) = true.
Proof.
  unfold get_trending_terms. rewrite in_map_iff.
  intros (g & <- & Hin). apply sql_limit_In, order_by_In in Hin.
  apply filter_In in Hin. destruct Hin as [Hin Hpos].
  apply filter_In in Hin. destruct Hin as [Hin Hst].
  apply term_groups_In in Hin. destruct Hin as (r & Hr & ->).
  exists r. repeat split; auto. now apply Z.ltb_lt in Hpos.
Qed.

Lemma approved_In (limit : Z) (db : SlangDatabase) (e : ApprovedEntry) :
  In e (get_approved_terms limit db) ->
  exists r, In r (slang_terms db)
            /\ e = approved_entry (group_of db r)
            /\ 0 < mention_count (st_id r) db
            /\ st_approval_status r = "approved".
Proof.
  unfold get_approved_terms. rewrite in_map_iff.
  intros (g & <- & Hin). apply sql_limit_In, order_by_In in Hin.
  apply filter_In in Hin. destruct Hin as [Hin Hpos].
  apply filter_In in Hin. destruct Hin as [Hin Hst].
  apply term_groups_In in Hin. destruct Hin as (r & Hr & ->).
  exists r. repeat split; auto.
  - now apply Z.ltb_lt in Hpos.
  - now apply String.eqb_eq in Hst.
Qed.

Lemma placeholder_In (limit : Z) (db : SlangDatabase) (e : PlaceholderEntry) :
  In e (get_placeholder_terms limit db) ->
  exists r, In r (slang_terms db) /\ ph_term e = st_term r
            /\ ph_mentions e = mention_count (st_id r) db
            /\ is_placeholder (st_definition r) = true.
Proof.
  unfold get_placeholder_terms. rewrite in_map_iff.
  intros (g & <- & Hin). apply sql_limit_In, order_by_In in Hin.
  apply filter_In in Hin. destruct Hin as [Hin Hp].
  apply term_groups_In in Hin. destruct Hin as (r & Hr & ->).
  exists r. repeat split; auto.
Qed.

Lemma low_value_In (max_mentions : Z) (db : SlangDatabase) (e : LowValueEntry) :
  In e (get_low_value_terms max_mentions db) <->
  exists r, In r (slang_terms db)
            /\ e = mkLowValue (st_term r) (or_no_definition (st_definition r))
                              (mention_count (st_id r) db) (st_approval_status r)
            /\ mention_count (st_id r) db <= max_mentions.
Proof.
  unfold get_low_value_terms. rewrite in_map_iff. split.
  - intros (g & <- & Hin). apply order_by_In in Hin.
    apply filter_In in Hin. destruct Hin as [Hin Hp].
    apply term_groups_In in Hin. destruct Hin as (r & Hr & ->).
    exists r. repeat split; auto. now apply Z.leb_le in Hp.
  - intros (r & Hr & -> & Hle). exists (group_of db r). split; [reflexivity|].
    apply order_by_In, filter_In. split.
    + apply term_groups_In. now exists r.
    + now apply Z.leb_le.
Qed.

Lemma sql_distinct_In (seen l : list Group) (g : Group) :
  In g (sql_distinct seen l) -> In g l.
Proof.
  revert seen. induction l as [|x l IH]; simpl; intros seen; [trivial|].
  destruct (existsb (same_selected x) seen).
  - intros H. right. now apply (IH seen).
  - intros [->|H]; [now left | right; now apply (IH (x :: seen))].
Qed.

Lemma search_In (query status : string) (db : SlangDatabase) (e : SearchEntry) :
  In e (search_terms query status db) ->
  exists r, In r (slang_terms db) /\ se_term e = st_term r.
Proof.
  unfold search_terms. rewrite in_map_iff.
  intros (g & <- & Hin). apply order_by_In, sql_distinct_In in Hin.
  apply filter_In in Hin. destruct Hin as [Hin _].
  apply term_groups_In in Hin. destruct Hin as (r & Hr & ->).
  exists r. split; auto.
Qed.

Lemma recent_activity_In (limit : Z) (db : SlangDatabase) (e : ActivityEntry) :
  In e (get_recent_activity limit db) ->
  exists r, In r (slang_terms db) /\ ac_term e = st_term r.
Proof.
  unfold get_recent_activity. rewrite in_map_iff.
  intros (r & <- & Hin). apply sql_limit_In, order_by_In in Hin.
  apply filter_In in Hin. destruct Hin as [Hin _].
  exists r. split; auto.
Qed.

(** C1 (as amended).  A stored term without a mention never appears in
    [get_trending_terms] or [get_approved_terms], whatever its status and
    definition.  [get_low_value_terms] does list it, for every bound that
    is not negative, and [get_placeholder_terms] lists it when its
    definition is a placeholder and the limit does not cut the list. *)
Theorem zero_mentions_excluded
        (db : SlangDatabase) (t : TermRow) (limit : Z) (status : string)
        (max_mentions : Z) :
  schema_ok db ->
  In t (slang_terms db) ->
  mention_count (st_id t) db = 0 ->
  ~ In (st_term t) (map tr_term (get_trending_terms limit status db))
  /\ ~ In (st_term t) (map ap_term (get_approved_terms limit db))
  /\ (0 <= max_mentions ->
      In (st_term t) (map lv_term (get_low_value_terms max_mentions db)))
  /\ (is_placeholder (st_definition t) = true ->
      Z.of_nat (List.length (slang_terms db)) <= limit ->
      In (st_term t) (map ph_term (get_placeholder_terms limit db))).
Proof.
  intros [Hterms _] Hin Hzero. repeat split.
  - rewrite in_map_iff. intros (e & He & Hine).
    apply trending_In in Hine. destruct Hine as (r & Hr & -> & Hpos & _).
    simpl in He.
    rewrite (NoDup_map_inj st_term _ r t Hterms Hr Hin He) in Hpos. lia.
  - rewrite in_map_iff. intros (e & He & Hine).
    apply approved_In in Hine. destruct Hine as (r & Hr & -> & Hpos & _).
    simpl in He.
    rewrite (NoDup_map_inj st_term _ r t Hterms Hr Hin He) in Hpos. lia.
  - intros Hmax. apply in_map_iff.
    eexists. split; [|apply low_value_In; exists t; repeat split; auto; lia].
    reflexivity.
  - intros Hp Hlimit. unfold get_placeholder_terms.
    rewrite map_map. apply in_map_iff. exists (group_of db t).
    split; [reflexivity|].
    rewrite sql_limit_all.
    + apply order_by_In, filter_In. split; [|exact Hp].
      apply term_groups_In. now exists t.
    + rewrite order_by_length.
      etransitivity; [|exact Hlimit].
      apply inj_le. etransitivity; [apply filter_length_le|].
      unfold term_groups. now rewrite length_map.
Qed.

Lemma zero_mentions_excluded_witness :
  ~ In "drip" (map tr_term (get_trending_terms 20 "all" unmentioned_db))
  /\ ~ In "drip" (map ap_term (get_approved_terms 100 unmentioned_db)).
Proof.
  destruct (zero_mentions_excluded unmentioned_db
              (mkTermRow 1 "drip" None "general" "pending" None None None 100)
              20 "all" 2) as (H1 & _).
  - split; repeat constructor; simpl; tauto.
  - now left.
  - reflexivity.
  - split; [exact H1|].
    apply (zero_mentions_excluded unmentioned_db
              (mkTermRow 1 "drip" None "general" "pending" None None None 100)
              100 "all" 2).
    + split; repeat constructor; simpl; tauto.
    + now left.
    + reflexivity.
Defined.

(** C1 as stated fails for two of the four queries: a term without any
    mention is returned by [get_low_value_terms] and by
    [get_placeholder_terms]. *)
Lemma zero_mentions_listed_as_low_value :
  mention_count 1 unmentioned_db = 0
  /\ get_low_value_terms 2 unmentioned_db
     = [mkLowValue "drip" "No definition" 0 "pending"]
  /\ get_placeholder_terms 200 unmentioned_db
     = [mkPlaceholder "drip" "No definition" 0].
Proof. repeat split. Qed.

(** C10.  [approve_term] leaves the rejection reason of every row as it
    was.  A term rejected with a reason and then approved is approved and
    still carries that reason, in the store and in every entry that
    [get_trending_terms] returns for it; the store of the example shows
    such an entry. *)
Theorem approve_keeps_rejection_reason
        (term reason by1 by2 : string) (t1 t2 : Timestamp) (db : SlangDatabase) :
  Forall2 (fun r r' => st_rejection_reason r' = st_rejection_reason r)
          (slang_terms db) (slang_terms (snd (approve_term term by2 t2 db)))
  /\ (forall (limit : Z) (status : string) (e : TrendingEntry),
         In e (get_trending_terms limit status
                 (snd (approve_term term by2 t2
                         (snd (reject_term term reason by1 t1 db))))) ->
         tr_term e = normalize term ->
         tr_approval_status e = "approved"
         /\ tr_rejection_reason e = Some reason)
  /\ get_trending_terms 10 "all" stale_reason_db
     = [mkTrending 1 "drip" "Fashionable clothing" "fashion" "approved"
                   (Some "admin") (Some 103) (Some "test") 1 5 100].
Proof.
  split; [|split].
  - eapply Forall2_impl; [|apply approve_term_rows].
    intros r r' (_ & H & _). exact H.
  - intros limit status e Hin Hkey.
    apply trending_In in Hin. destruct Hin as (r2 & Hr2 & -> & _).
    unfold trending_entry, group_of in *.
    cbn [tr_term tr_approval_status tr_rejection_reason g_st] in *.
    destruct (approve_term_post _ _ _ _ _ Hr2 Hkey) as (Hst & _).
    split; [exact Hst|].
    destruct (Forall2_In_r _ _ _ _
                (approve_term_rows term _ by2 t2) Hr2)
      as (r1 & Hr1 & (Hsame & Hreason & _)).
    rewrite Hreason.
    destruct Hsame as (_ & Ht & _).
    apply (reject_term_post term reason by1 t1 db r1 Hr1). congruence.
  - reflexivity.
Qed.

Lemma approve_keeps_rejection_reason_witness :
  tr_approval_status
    (mkTrending 1 "drip" "Fashionable clothing" "fashion" "approved"
                (Some "admin") (Some 103) (Some "test") 1 5 100)
  = "approved"
  /\ tr_rejection_reason
       (mkTrending 1 "drip" "Fashionable clothing" "fashion" "approved"
                   (Some "admin") (Some 103) (Some "test") 1 5 100)
     = Some "test".
Proof.
  destruct (approve_keeps_rejection_reason "drip" "test" "admin" "admin"
              102 103 drip_db) as (_ & H & _).
  apply (H 10 "all").
  - left. reflexivity.
  - reflexivity.
Defined.

(** ** [add_term] *)

Lemma fold_right_max_ge (i : Z) (rest : list Z) (x : Z) :
  In x (i :: rest) -> x <= fold_right Z.max i rest.
Proof.
  induction rest as [|y rest IH]; simpl.
  - intros [->|[]]. lia.
  - intros [->|[->|Hin]].
    + pose proof (IH (or_introl eq_refl)). lia.
    + lia.
    + pose proof (IH (or_intror Hin)). lia.
Qed.

(** The rowid of an inserted row is in use by no other row. *)
Lemma next_rowid_fresh (ids : list Z) : ~ In (next_rowid ids) ids.
Proof.
  destruct ids as [|i rest]; simpl; [tauto|].
  intros H. apply (fold_right_max_ge i rest) in H. lia.
Qed.

Lemma better_definition_iff (definition current : option string) :
  better_definition definition current = true <-> takes_definition definition current.
Proof.
  unfold better_definition, takes_definition. split.
  - destruct definition as [d|]; [|discriminate].
    intros H. apply andb_prop in H. destruct H as [H Hc].
    apply andb_prop in H. destruct H as [_ Hs].
    exists d. split; [reflexivity|]. split; [now apply truthy_true|].
    destruct current as [cur|]; [|now left].
    destruct (Py.truthy cur) eqn:Ht;
      [|destruct cur; [right; now left | discriminate]].
    unfold Py.truthy_opt in Hc. rewrite Ht in Hc.
    unfold Py.str_in in Hc. cbn [negb orb existsb] in Hc.
    apply orb_prop in Hc. destruct Hc as [Hc|Hc].
    + apply orb_prop in Hc. destruct Hc as [Hc|Hc].
      * apply String.eqb_eq in Hc. rewrite Hc. right; right; now left.
      * apply orb_prop in Hc. destruct Hc as [Hc|Hc]; [|discriminate].
        apply String.eqb_eq in Hc. rewrite Hc. right; right; right; now left.
    + right; right; right; right. exists cur.
      split; [reflexivity | now apply Z.ltb_lt].
  - intros (d & -> & Hs & Hc).
    assert (Hd : Py.truthy d = true) by (destruct d; [now elim Hs | reflexivity]).
    apply truthy_true in Hs. rewrite Hd, Hs. simpl.
    destruct Hc as [->|[->|[->|[->|(cur & -> & Hlt)]]]]; try reflexivity.
    apply Z.ltb_lt in Hlt. rewrite Hlt.
    rewrite !orb_true_r. reflexivity.
Qed.

Lemma add_term_new (term : string) (definition : option string)
      (category : string) (now : Timestamp) (db : SlangDatabase) :
  ~ known term db ->
  add_term term definition category now db
  = (next_rowid (map st_id (slang_terms db)),
     mkDb (slang_terms db ++
             [mkTermRow (next_rowid (map st_id (slang_terms db)))
                        (normalize term) definition category "pending"
                        None None None now])
          (mentions db) (daily_trends db)).
Proof.
  intros Hnew. unfold add_term.
  destruct (select_term (normalize term) db) as [r|] eqn:E; [|reflexivity].
  apply select_term_Some in E. elim Hnew. now exists r.
Qed.

Lemma add_term_existing (term : string) (definition : option string)
      (category : string) (now : Timestamp) (db : SlangDatabase) (r : TermRow) :
  schema_ok db -> In r (slang_terms db) -> st_term r = normalize term ->
  add_term term definition category now db
  = (st_id r,
     if better_definition definition (st_definition r)
     then mkDb (update_terms (fun x => st_id x =? st_id r)
                             (set_definition definition) (slang_terms db))
               (mentions db) (daily_trends db)
     else db).
Proof.
  intros [Hterms _] Hin Hkey. unfold add_term.
  rewrite <- Hkey, (select_term_unique db r Hterms Hin).
  now destruct (better_definition definition (st_definition r)).
Qed.

Lemma NoDup_app_fresh {A : Type} (l : list A) (x : A) :
  NoDup l -> ~ In x l -> NoDup (l ++ [x]).
Proof.
  intros Hnd Hx. induction Hnd as [|y l Hy Hnd IH]; simpl.
  - constructor; [tauto | constructor].
  - constructor.
    + rewrite in_app_iff. simpl. intros [H|[H|[]]]; [tauto|].
      subst. apply Hx. now left.
    + apply IH. intros H. apply Hx. now right.
Qed.

(** [add_term] keeps the constraints of the schema. *)
Lemma add_term_schema_ok (term : string) (definition : option string)
      (category : string) (now : Timestamp) (db : SlangDatabase) :
  schema_ok db -> schema_ok (snd (add_term term definition category now db)).
Proof.
  intros Hok. pose proof Hok as [Hterms Hids]. unfold add_term.
  destruct (select_term (normalize term) db) as [r|] eqn:E.
  - destruct (better_definition definition (st_definition r)); [|exact Hok].
    unfold schema_ok. simpl.
    rewrite (update_terms_keeps st_term), update_terms_keeps_id; auto.
  - unfold schema_ok. simpl. rewrite !map_app. simpl. split.
    + apply NoDup_app_fresh; [exact Hterms|].
      rewrite in_map_iff. intros (r & Hr & Hin).
      rewrite select_term_None in E. now apply (E r Hin).
    + apply NoDup_app_fresh; [exact Hids | apply next_rowid_fresh].
Qed.

Lemma add_term_known (term : string) (definition : option string)
      (category : string) (now : Timestamp) (db : SlangDatabase) :
  exists r, In r (slang_terms (snd (add_term term definition category now db)))
            /\ st_term r = normalize term
            /\ st_id r = fst (add_term term definition category now db).
Proof.
  unfold add_term.
  destruct (select_term (normalize term) db) as [r|] eqn:E.
  - apply select_term_Some in E. destruct E as [Hin Hkey].
    destruct (better_definition definition (st_definition r)); simpl.
    + exists (if st_id r =? st_id r then set_definition definition r else r).
      split; [|rewrite Z.eqb_refl; auto].
      unfold update_terms. apply in_map_iff. exists r. auto.
    + exists r. auto.
  - simpl. eexists. split; [apply in_or_app; right; now left|]. auto.
Qed.

Lemma unique_key_rowcount (rows : list TermRow) (r : TermRow) :
  NoDup (map st_term rows) -> In r rows ->
  rowcount (fun x => String.eqb (st_term x) (st_term r)) rows = 1.
Proof.
  unfold rowcount. induction rows as [|x rows IH]; simpl; [contradiction|].
  intros Hnd Hin. inversion Hnd as [|? ? Hx Hnd']; subst.
  destruct Hin as [->|Hin].
  - rewrite String.eqb_refl. simpl.
    rewrite (proj2 (List.length_zero_iff_nil _)); [reflexivity|].
    destruct (filter _ rows) as [|y l] eqn:E; [reflexivity|].
    assert (Hy : In y (filter (fun x => String.eqb (st_term x) (st_term r)) rows))
      by (rewrite E; now left).
    apply filter_In in Hy. destruct Hy as [Hy Ey]. apply String.eqb_eq in Ey.
    elim Hx. rewrite <- Ey. now apply in_map.
  - destruct (String.eqb (st_term x) (st_term r)) eqn:E; [|now apply IH].
    apply String.eqb_eq in E. elim Hx. rewrite E. now apply in_map.
Qed.

Lemma Forall2_impl_In {A B : Type} (R R' : A -> B -> Prop)
      (l : list A) (l' : list B) :
  Forall2 R l l' ->
  (forall x y, In x l -> R x y -> R' x y) ->
  Forall2 R' l l'.
Proof.
  induction 1 as [|a b l l' Hab _ IH]; intros Himp; constructor.
  - apply Himp; [now left | exact Hab].
  - apply IH. intros x y Hx. apply Himp. now right.
Qed.

Lemma Forall2_same {A : Type} (l : list A) : Forall2 (fun x x' => x' = x) l l.
Proof. induction l; constructor; auto. Qed.

Lemma add_term_existing_rows (term : string) (definition : option string)
      (category : string) (now : Timestamp) (db : SlangDatabase) (r : TermRow) :
  schema_ok db -> In r (slang_terms db) -> st_term r = normalize term ->
  Forall2
    (fun x x' =>
       same_but_definition x x'
       /\ if String.eqb (st_term x) (normalize term)
          then (takes_definition definition (st_definition x)
                /\ st_definition x' = definition)
               \/ (~ takes_definition definition (st_definition x)
                   /\ st_definition x' = st_definition x)
          else x' = x)
    (slang_terms db)
    (slang_terms (snd (add_term term definition category now db))).
Proof.
  intros Hok Hin Hkey. pose proof Hok as [Hterms Hids].
  rewrite (add_term_existing term definition category now db r Hok Hin Hkey).
  cbn [snd].
  assert (Hrow : forall x, In x (slang_terms db) ->
                           (st_id x =? st_id r) = String.eqb (st_term x) (normalize term)).
  { intros x Hx. destruct (st_id x =? st_id r) eqn:E1;
      destruct (String.eqb (st_term x) (normalize term)) eqn:E2; auto.
    - apply Z.eqb_eq in E1.
      rewrite (NoDup_map_inj st_id _ x r Hids Hx Hin E1), Hkey, String.eqb_refl in E2.
      discriminate.
    - apply String.eqb_eq in E2. rewrite <- Hkey in E2.
      rewrite (NoDup_map_inj st_term _ x r Hterms Hx Hin E2), Z.eqb_refl in E1.
      discriminate. }
  assert (Hsame : forall x, In x (slang_terms db) ->
                            (st_id x =? st_id r) = true -> x = r).
  { intros x Hx E. apply Z.eqb_eq in E.
    exact (NoDup_map_inj st_id _ x r Hids Hx Hin E). }
  destruct (better_definition definition (st_definition r)) eqn:Hb; cbn [slang_terms].
  - apply better_definition_iff in Hb.
    eapply Forall2_impl_In; [apply update_terms_Forall2|].
    intros x x' Hx ->. cbv beta. rewrite <- (Hrow x Hx).
    destruct (st_id x =? st_id r) eqn:E.
    + rewrite (Hsame x Hx E). split; [repeat split|]. left. now split.
    + split; [repeat split | reflexivity].
  - assert (Hn : ~ takes_definition definition (st_definition r)).
    { intros H. apply better_definition_iff in H. congruence. }
    eapply Forall2_impl_In; [apply Forall2_same|].
    intros x x' Hx ->. cbv beta. rewrite <- (Hrow x Hx).
    destruct (st_id x =? st_id r) eqn:E.
    + rewrite (Hsame x Hx E). split; [repeat split|]. right. now split.
    + split; [repeat split | reflexivity].
Qed.

(** C2 (as amended).  On a store that satisfies its schema, two calls of
    [add_term] with names of the same normalized key return the same id
    and leave exactly one row of that key, the second call adding none.  On
    a stored term the call returns the id of its row and changes no column
    but the definition, so never the approval status; the definition is
    replaced if and only if the new one is given and not blank and the
    stored one is missing, empty, a placeholder or, both stripped of white
    space, strictly shorter.  On an unknown term it appends a row with
    status pending under a fresh id. *)
Theorem add_term_upsert (db : SlangDatabase) :
  schema_ok db ->
  (forall (n1 n2 : string) (d1 d2 : option string) (c1 c2 : string)
          (t1 t2 : Timestamp),
      normalize n1 = normalize n2 ->
      let first := add_term n1 d1 c1 t1 db in
      let second := add_term n2 d2 c2 t2 (snd first) in
      fst second = fst first
      /\ rowcount (fun r => String.eqb (st_term r) (normalize n1))
                  (slang_terms (snd first)) = 1
      /\ rowcount (fun r => String.eqb (st_term r) (normalize n1))
                  (slang_terms (snd second)) = 1
      /\ List.length (slang_terms (snd second))
         = List.length (slang_terms (snd first))
      /\ schema_ok (snd second))
  /\ (forall (term : string) (definition : option string) (category : string)
             (now : Timestamp) (r : TermRow),
         In r (slang_terms db) -> st_term r = normalize term ->
         let res := add_term term definition category now db in
         fst res = st_id r
         /\ mentions (snd res) = mentions db
         /\ daily_trends (snd res) = daily_trends db
         /\ Forall2
              (fun x x' =>
                 same_but_definition x x'
                 /\ if String.eqb (st_term x) (normalize term)
                    then (takes_definition definition (st_definition x)
                          /\ st_definition x' = definition)
                         \/ (~ takes_definition definition (st_definition x)
                             /\ st_definition x' = st_definition x)
                    else x' = x)
              (slang_terms db) (slang_terms (snd res)))
  /\ (forall (term : string) (definition : option string) (category : string)
             (now : Timestamp),
         ~ known term db ->
         let res := add_term term definition category now db in
         slang_terms (snd res)
         = (slang_terms db ++
              [mkTermRow (fst res) (normalize term) definition category
                         "pending" None None None now])%list
         /\ ~ In (fst res) (map st_id (slang_terms db))
         /\ mentions (snd res) = mentions db
         /\ daily_trends (snd res) = daily_trends db).
Proof.
  intros Hok. split; [|split].
  - intros n1 n2 d1 d2 c1 c2 t1 t2 Hkey first second.
    pose proof (add_term_schema_ok n1 d1 c1 t1 db Hok) as Hok1.
    fold first in Hok1.
    destruct (add_term_known n1 d1 c1 t1 db) as (r1 & Hr1 & Hk1 & Hid1).
    fold first in Hr1, Hid1.
    pose proof (add_term_schema_ok n2 d2 c2 t2 (snd first) Hok1) as Hok2.
    fold second in Hok2.
    destruct (add_term_known n2 d2 c2 t2 (snd first)) as (r2 & Hr2 & Hk2 & Hid2).
    fold second in Hr2, Hid2.
    assert (Hk1' : st_term r1 = normalize n2) by congruence.
    split.
    { subst second.
      rewrite (add_term_existing n2 d2 c2 t2 (snd first) r1 Hok1 Hr1 Hk1').
      exact Hid1. }
    split.
    { rewrite <- Hk1. apply unique_key_rowcount; [apply Hok1 | exact Hr1]. }
    split.
    { rewrite Hkey, <- Hk2. apply unique_key_rowcount; [apply Hok2 | exact Hr2]. }
    split; [|exact Hok2].
    symmetry. eapply Forall2_length.
    exact (add_term_existing_rows n2 d2 c2 t2 (snd first) r1 Hok1 Hr1 Hk1').
  - intros term definition category now r Hin Hkey res. subst res.
    split; [|split; [|split]].
    + now rewrite (add_term_existing term definition category now db r Hok Hin Hkey).
    + rewrite (add_term_existing term definition category now db r Hok Hin Hkey).
      now destruct (better_definition definition (st_definition r)).
    + rewrite (add_term_existing term definition category now db r Hok Hin Hkey).
      now destruct (better_definition definition (st_definition r)).
    + exact (add_term_existing_rows term definition category now db r Hok Hin Hkey).
  - intros term definition category now Hnew res. subst res.
    rewrite (add_term_new term definition category now db Hnew). cbn [fst snd].
    repeat split. apply next_rowid_fresh.
Qed.

Lemma add_term_upsert_witness :
  fst (add_term "drip" None "general" 101
         (snd (add_term "Drip " (Some "Fashionable clothing") "fashion" 100
                 init_database)))
  = fst (add_term "Drip " (Some "Fashionable clothing") "fashion" 100
           init_database)
  /\ fst (add_term "DRIP" (Some "Style") "fashion" 101 unmentioned_db) = 1
  /\ ~ In (fst (add_term "fit" None "general" 101 unmentioned_db))
          (map st_id (slang_terms unmentioned_db)).
Proof.
  assert (Hinit : schema_ok init_database) by (split; constructor).
  assert (Hun : schema_ok unmentioned_db)
    by (split; repeat constructor; simpl; tauto).
  split; [|split].
  - apply (add_term_upsert init_database Hinit). reflexivity.
  - apply (proj1 (proj2 (add_term_upsert unmentioned_db Hun))
             "DRIP" (Some "Style") "fashion" 101
             (mkTermRow 1 "drip" None "general" "pending" None None None 100)).
    + now left.
    + reflexivity.
  - apply (proj2 (proj2 (add_term_upsert unmentioned_db Hun))
             "fit" None "general" 101).
    intros (r & [<-|[]] & E). discriminate E.
Defined.

(** C2 as stated fails where white space is involved.  A definition of one
    blank is not empty and the stored term has no definition, yet nothing
    is stored.  A stored definition of nine characters, "abc" and six
    blanks, is overwritten by the four characters "abcd". *)
Lemma add_term_counts_stripped_lengths :
  map st_definition (slang_terms unmentioned_db) = [None]
  /\ " " <> ""
  /\ map st_definition
         (slang_terms (snd (add_term "drip" (Some " ") "general" 102
                                     unmentioned_db)))
     = [None]
  /\ map st_definition (slang_terms trailing_blanks_db) = [Some "abc      "]
  /\ Py.len "abcd" < Py.len "abc      "
  /\ map st_definition
         (slang_terms (snd (add_term "drip" (Some "abcd") "general" 102
                                     trailing_blanks_db)))
     = [Some "abcd"].
Proof. repeat split; discriminate. Qed.

(** ** [delete_term] *)

Lemma delete_term_unknown (term : string) (db : SlangDatabase) :
  ~ known term db -> delete_term term db = (false, db).
Proof.
  intros Hnew. unfold delete_term.
  destruct (select_term (normalize term) db) as [r|] eqn:E; [|reflexivity].
  apply select_term_Some in E. elim Hnew. now exists r.
Qed.

Lemma delete_term_known (term : string) (db : SlangDatabase) (r : TermRow) :
  schema_ok db -> In r (slang_terms db) -> st_term r = normalize term ->
  delete_term term db
  = (true,
     mkDb (filter (fun x => negb (st_id x =? st_id r)) (slang_terms db))
          (filter (fun m => negb (m_term_id m =? st_id r)) (mentions db))
          (filter (fun t => negb (dt_term_id t =? st_id r)) (daily_trends db))).
Proof.
  intros [Hterms _] Hin Hkey. unfold delete_term.
  rewrite <- Hkey, (select_term_unique db r Hterms Hin). f_equal.
  apply rowcount_positive. exists r. split; [exact Hin | apply Z.eqb_refl].
Qed.

(** A column without duplicates has none after a DELETE. *)
Lemma unique_column_after_delete {B : Type} (column : TermRow -> B)
      (keep : TermRow -> bool) (rows : list TermRow) :
  NoDup (map column rows) -> NoDup (map column (filter keep rows)).
Proof.
  intros Hnd. induction rows as [|x rows IH]; simpl; [constructor|].
  simpl in Hnd. inversion Hnd as [|? ? Hx Hnd']; subst.
  destruct (keep x); simpl; [|now apply IH].
  constructor; [|now apply IH].
  rewrite in_map_iff. intros (y & Hy & Hin). apply filter_In in Hin.
  apply Hx. rewrite <- Hy. apply in_map. tauto.
Qed.

(** [delete_term] keeps the constraints of the schema. *)
Lemma delete_term_schema_ok (term : string) (db : SlangDatabase) :
  schema_ok db -> schema_ok (snd (delete_term term db)).
Proof.
  intros Hok. unfold delete_term.
  destruct (select_term (normalize term) db) as [r|]; [|exact Hok].
  destruct Hok as [Hterms Hids]. split; simpl; now apply unique_column_after_delete.
Qed.

(** C6.  On a stored term [delete_term] returns true and removes the term
    row, every mention and every daily-trend row of its id, and nothing
    else; afterwards no mention is counted for the id, the id is not found,
    and no query returns the term.  On an unknown term it returns false and
    leaves the store as it was. *)
Theorem delete_term_cascade (term : string) (db : SlangDatabase) :
  schema_ok db ->
  (forall r : TermRow,
      In r (slang_terms db) -> st_term r = normalize term ->
      let db' := snd (delete_term term db) in
      fst (delete_term term db) = true
      /\ (forall x, In x (slang_terms db')
                    <-> In x (slang_terms db) /\ st_term x <> normalize term)
      /\ (forall m, In m (mentions db')
                    <-> In m (mentions db) /\ m_term_id m <> st_id r)
      /\ (forall t, In t (daily_trends db')
                    <-> In t (daily_trends db) /\ dt_term_id t <> st_id r)
      /\ mention_count (st_id r) db' = 0
      /\ get_term_by_id (st_id r) db' = None
      /\ (forall limit status,
             ~ In (normalize term) (map tr_term (get_trending_terms limit status db')))
      /\ (forall limit,
             ~ In (normalize term) (map ap_term (get_approved_terms limit db')))
      /\ (forall limit,
             ~ In (normalize term) (map ph_term (get_placeholder_terms limit db')))
      /\ (forall max_mentions,
             ~ In (normalize term) (map lv_term (get_low_value_terms max_mentions db')))
      /\ (forall query status,
             ~ In (normalize term) (map se_term (search_terms query status db')))
      /\ (forall limit,
             ~ In (normalize term) (map ac_term (get_recent_activity limit db'))))
  /\ (~ known term db -> delete_term term db = (false, db)).
Proof.
  intros Hok. split; [|apply delete_term_unknown].
  intros r Hin Hkey db'. subst db'.
  rewrite (delete_term_known term db r Hok Hin Hkey). cbn [fst snd].
  destruct Hok as [Hterms Hids].
  assert (Hrows : forall x,
             In x (filter (fun x => negb (st_id x =? st_id r)) (slang_terms db))
             <-> In x (slang_terms db) /\ st_term x <> normalize term).
  { intros x. rewrite filter_In, negb_true_iff, Z.eqb_neq. split.
    - intros [Hx Hne]. split; [exact Hx|]. intros E. apply Hne.
      rewrite <- Hkey in E.
      now rewrite (NoDup_map_inj st_term _ x r Hterms Hx Hin E).
    - intros [Hx Hne]. split; [exact Hx|]. intros E. apply Hne.
      now rewrite (NoDup_map_inj st_id _ x r Hids Hx Hin E). }
  assert (Hgone : forall x,
             In x (filter (fun x => negb (st_id x =? st_id r)) (slang_terms db)) ->
             st_term x <> normalize term).
  { intros x Hx. now apply Hrows in Hx. }
  split; [reflexivity|].
  split; [exact Hrows|].
  split.
  { intros m. cbn [mentions]. now rewrite filter_In, negb_true_iff, Z.eqb_neq. }
  split.
  { intros t. cbn [daily_trends]. now rewrite filter_In, negb_true_iff, Z.eqb_neq. }
  split.
  { unfold mention_count, mentions_of. cbn [mentions].
    rewrite (proj2 (List.length_zero_iff_nil _)); [reflexivity|].
    destruct (filter _ (filter _ (mentions db))) as [|m l] eqn:E; [reflexivity|].
    assert (Hm : In m (m :: l)) by now left.
    rewrite <- E in Hm. apply filter_In in Hm. destruct Hm as [Hm E1].
    apply filter_In in Hm. destruct Hm as [_ E2].
    rewrite E1 in E2. discriminate. }
  split.
  { unfold get_term_by_id. cbn [slang_terms].
    destruct (find _ _) as [x|] eqn:E; [|reflexivity].
    apply find_some in E. destruct E as [Hx E].
    apply filter_In in Hx. destruct Hx as [_ Hx]. rewrite E in Hx. discriminate. }
  split.
  { intros limit status. rewrite in_map_iff. intros (e & He & Hine).
    apply trending_In in Hine. destruct Hine as (x & Hx & -> & _).
    exact (Hgone x Hx He). }
  split.
  { intros limit. rewrite in_map_iff. intros (e & He & Hine).
    apply approved_In in Hine. destruct Hine as (x & Hx & -> & _).
    exact (Hgone x Hx He). }
  split.
  { intros limit. rewrite in_map_iff. intros (e & He & Hine).
    apply placeholder_In in Hine. destruct Hine as (x & Hx & Ht & _).
    apply (Hgone x Hx). congruence. }
  split.
  { intros max_mentions. rewrite in_map_iff. intros (e & He & Hine).
    apply low_value_In in Hine. destruct Hine as (x & Hx & -> & _).
    exact (Hgone x Hx He). }
  split.
  { intros query status. rewrite in_map_iff. intros (e & He & Hine).
    apply search_In in Hine. destruct Hine as (x & Hx & Ht).
    apply (Hgone x Hx). congruence. }
  intros limit. rewrite in_map_iff. intros (e & He & Hine).
  apply recent_activity_In in Hine. destruct Hine as (x & Hx & Ht).
  apply (Hgone x Hx). congruence.
Qed.

Lemma delete_term_cascade_witness :
  fst (delete_term " Drip" drip_db) = true
  /\ mention_count 1 (snd (delete_term " Drip" drip_db)) = 0
  /\ delete_term "fit" drip_db = (false, drip_db).
Proof.
  assert (Hok : schema_ok drip_db)
    by (split; repeat constructor; simpl; tauto).
  destruct (delete_term_cascade " Drip" drip_db Hok) as [Hknown _].
  destruct (delete_term_cascade "fit" drip_db Hok) as [_ Hnew].
  specialize (Hknown (mkTermRow 1 "drip" (Some "Fashionable clothing")
                                "fashion" "pending" None None None 100)
                     (or_introl eq_refl) eq_refl).
  destruct Hknown as (Htrue & _ & _ & _ & Hcount & _).
  split; [exact Htrue|]. split; [exact Hcount|].
  apply Hnew. intros (r & [<-|[]] & E). discriminate E.
Defined.

(** ** [add_mention] *)

Lemma take_all (n : nat) (s : string) :
  (String.length s <= n)%nat -> Py.take n s = s.
Proof.
  revert s. induction n as [|n IH]; intros [|c s]; simpl; intros H;
    try reflexivity; [lia|].
  f_equal. apply IH. lia.
Qed.

Lemma take_prefix (n : nat) (s : string) :
  String.prefix (Py.take n s) s = true.
Proof.
  revert s. induction n as [|n IH]; intros [|c s]; simpl; try reflexivity.
  destruct (ascii_dec c c) as [_|Hne]; [apply IH | now elim Hne].
Qed.

(** C7.  [add_mention] runs [add_term] on the term, with no definition and
    the category "general", so that an unknown term is created with status
    pending; with an engagement that SQLite can store, a 64-bit integer,
    it then appends exactly one mention row, which refers to the id
    [add_term] returned and holds the first 500 characters of the content,
    and returns true.  After
    [add_term("Drip ", "Fashionable clothing", "fashion")] and
    [add_mention("drip", "reddit", "drip check", 5)] on a fresh store,
    [get_trending_terms(10)] is one entry for "drip" with 1 mention,
    average engagement 5 and status pending. *)
Theorem add_mention_records
        (term platform content : string) (engagement : Z) (now : Timestamp)
        (db : SlangDatabase) :
  sqlite_integer engagement = true ->
  let res := add_mention term platform content engagement now db in
  let upsert := add_term term None "general" now db in
  fst res = Returned true
  /\ slang_terms (snd res) = slang_terms (snd upsert)
  /\ daily_trends (snd res) = daily_trends db
  /\ (exists m : MentionRow,
         mentions (snd res) = (mentions db ++ [m])%list
         /\ m_term_id m = fst upsert
         /\ m_platform m = platform
         /\ m_content m = Py.take 500 content
         /\ Py.len (m_content m) <= 500
         /\ String.prefix (m_content m) content = true
         /\ (Py.len content <= 500 -> m_content m = content)
         /\ m_engagement_score m = engagement
         /\ m_detected_at m = now)
  /\ (exists r : TermRow,
         In r (slang_terms (snd res))
         /\ st_term r = normalize term /\ st_id r = fst upsert)
  /\ (~ known term db ->
      slang_terms (snd res)
      = (slang_terms db ++
           [mkTermRow (fst upsert) (normalize term) None "general" "pending"
                      None None None now])%list)
  /\ (forall t1 t2 : Timestamp,
         get_trending_terms 10 "all"
           (snd (add_mention "drip" "reddit" "drip check" 5 t2
                   (snd (add_term "Drip " (Some "Fashionable clothing")
                                  "fashion" t1 init_database))))
         = [mkTrending 1 "drip" "Fashionable clothing" "fashion" "pending"
                       None None None 1 5 t1]).
Proof.
  intros Hfits res upsert. subst res upsert. unfold add_mention.
  destruct (add_term term None "general" now db) as [term_id db1] eqn:E.
  rewrite Hfits. cbn [fst snd slang_terms mentions daily_trends].
  assert (Hm : mentions db1 = mentions db /\ daily_trends db1 = daily_trends db).
  { unfold add_term in E.
    destruct (select_term (normalize term) db) as [r|];
      cbn [better_definition] in E; inversion E; subst; auto. }
  destruct Hm as [Hm Ht].
  split; [reflexivity|]. split; [reflexivity|]. split; [exact Ht|].
  split.
  { eexists. rewrite Hm. split; [reflexivity|].
    cbn [m_term_id m_platform m_content m_engagement_score m_detected_at].
    repeat split.
    - unfold Py.len. rewrite length_take. lia.
    - apply take_prefix.
    - intros H. apply take_all. unfold Py.len in H. lia. }
  split.
  { destruct (add_term_known term None "general" now db) as (r & Hr & Hk & Hid).
    rewrite E in Hr, Hid. exists r. auto. }
  split.
  { intros Hnew. rewrite (add_term_new term None "general" now db Hnew) in E.
    inversion E. reflexivity. }
  intros t1 t2. reflexivity.
Qed.

Lemma add_mention_records_witness :
  slang_terms (snd (add_mention "Rizz" "reddit" "he has rizz" 3 101 init_database))
  = [mkTermRow 1 "rizz" None "general" "pending" None None None 101]
  /\ map m_content
         (mentions (snd (add_mention "Rizz" "reddit" "he has rizz" 3 101
                                     init_database)))
     = ["he has rizz"].
Proof.
  destruct (add_mention_records "Rizz" "reddit" "he has rizz" 3 101 init_database
              eq_refl)
    as (_ & _ & _ & (m & Hms & _ & _ & _ & _ & _ & Hc & _) & _ & Hnew & _).
  split.
  - apply Hnew. intros (r & [] & _).
  - rewrite Hms. cbn [mentions init_database app map]. f_equal.
    apply Hc. vm_compute. discriminate.
Defined.

(** ** The bulk operations *)

Lemma approve_term_schema_ok (term actor : string) (now : Timestamp)
      (db : SlangDatabase) :
  schema_ok db -> schema_ok (snd (approve_term term actor now db)).
Proof.
  intros [Hterms Hids]. unfold approve_term, schema_ok. cbn [snd slang_terms].
  rewrite (update_terms_keeps st_term), update_terms_keeps_id; auto.
Qed.

Lemma update_terms_ext (p q : TermRow -> bool) (f : TermRow -> TermRow)
      (rows : list TermRow) :
  (forall r, In r rows -> p r = q r) ->
  update_terms p f rows = update_terms q f rows
  /\ rowcount p rows = rowcount q rows.
Proof.
  intros H. unfold update_terms, rowcount. split.
  - apply map_ext_in. intros r Hr. now rewrite (H r Hr).
  - f_equal. f_equal. now apply filter_ext_in.
Qed.

(** One turn of the loop of [bulk_approve_terms] is the singular approval
    of a term that is stored and pending, and nothing otherwise. *)
Lemma bulk_approve_turn (term approved_by : string) (now : Timestamp)
      (db : SlangDatabase) :
  schema_ok db ->
  let hit := fun r => String.eqb (st_term r) (normalize term)
                      && String.eqb (st_approval_status r) "pending" in
  (0 <? rowcount hit (slang_terms db),
   mkDb (update_terms hit (set_approved approved_by now) (slang_terms db))
        (mentions db) (daily_trends db))
  = approve_if_pending approved_by now term db.
Proof.
  intros [Hterms Hids] hit. unfold approve_if_pending.
  destruct (select_term (normalize term) db) as [r|] eqn:E.
  - apply select_term_Some in E. destruct E as [Hin Hkey].
    assert (Hone : forall x, In x (slang_terms db) ->
                             String.eqb (st_term x) (normalize term) = true -> x = r).
    { intros x Hx Ex. apply String.eqb_eq in Ex. rewrite <- Hkey in Ex.
      exact (NoDup_map_inj st_term _ x r Hterms Hx Hin Ex). }
    destruct (String.eqb (st_approval_status r) "pending") eqn:Hp.
    + unfold approve_term.
      destruct (update_terms_ext hit
                  (fun x => String.eqb (st_term x) (normalize term))
                  (set_approved approved_by now) (slang_terms db)) as [-> ->];
        [|reflexivity].
      intros x Hx. unfold hit.
      destruct (String.eqb (st_term x) (normalize term)) eqn:Ex; [|reflexivity].
      now rewrite (Hone x Hx Ex), Hp.
    + assert (Hmiss : forall x, In x (slang_terms db) -> hit x = false).
      { intros x Hx. unfold hit.
        destruct (String.eqb (st_term x) (normalize term)) eqn:Ex; [|reflexivity].
        now rewrite (Hone x Hx Ex), Hp. }
      rewrite (update_terms_miss _ _ _ Hmiss).
      rewrite (proj2 (rowcount_zero hit (slang_terms db)) Hmiss).
      now destruct db.
  - assert (Hmiss : forall x, In x (slang_terms db) -> hit x = false).
    { intros x Hx. unfold hit. rewrite select_term_None in E.
      apply (E x) in Hx. apply String.eqb_neq in Hx. now rewrite Hx. }
    rewrite (update_terms_miss _ _ _ Hmiss).
    rewrite (proj2 (rowcount_zero hit (slang_terms db)) Hmiss).
    now destruct db.
Qed.

Lemma approve_if_pending_schema_ok (approved_by : string) (now : Timestamp)
      (term : string) (db : SlangDatabase) :
  schema_ok db -> schema_ok (snd (approve_if_pending approved_by now term db)).
Proof.
  intros Hok. unfold approve_if_pending.
  destruct (select_term (normalize term) db) as [r|]; [|exact Hok].
  destruct (String.eqb (st_approval_status r) "pending"); [|exact Hok].
  now apply approve_term_schema_ok.
Qed.

Lemma bulk_approve_refines (terms : list string) (approved_by : string) :
  forall (clock : nat -> Timestamp) (db : SlangDatabase),
    schema_ok db ->
    bulk_approve_terms terms approved_by clock db
    = apply_each (fun i => approve_if_pending approved_by (clock i)) terms db.
Proof.
  induction terms as [|term rest IH]; intros clock db Hok; [reflexivity|].
  cbn [bulk_approve_terms apply_each].
  pose proof (bulk_approve_turn term approved_by (clock O) db Hok) as Hturn.
  cbv zeta in Hturn.
  destruct (approve_if_pending approved_by (clock O) term db) as [ok db1] eqn:E.
  inversion Hturn as [[Hcount Hdb]]. rewrite Hcount, Hdb.
  rewrite (IH (fun i => clock (S i)) db1); [reflexivity|].
  pose proof (approve_if_pending_schema_ok approved_by (clock O) term db Hok) as H.
  now rewrite E in H.
Qed.

Lemma bulk_delete_refines (terms : list string) :
  forall db : SlangDatabase,
    bulk_delete_terms terms db = apply_each (fun _ => delete_term) terms db.
Proof.
  induction terms as [|term rest IH]; intros db; [reflexivity|].
  cbn [bulk_delete_terms apply_each].
  destruct (delete_term term db) as [ok db1]. now rewrite IH.
Qed.

Lemma apply_each_bounds (terms : list string) :
  forall op db,
    0 <= fst (apply_each op terms db) <= Z.of_nat (List.length terms).
Proof.
  induction terms as [|term rest IH]; intros op db; cbn [apply_each];
    [simpl; lia|].
  destruct (op O term db) as [ok db1].
  specialize (IH (fun i => op (S i)) db1).
  destruct (apply_each (fun i => op (S i)) rest db1) as [n db2].
  cbn [fst] in *. cbn [List.length]. destruct ok; lia.
Qed.

(** C5.  On a store that satisfies its schema, [bulk_approve_terms] is the
    singular approval applied to the elements in turn, an element whose
    term is missing or not pending being skipped, and its result is the
    number of elements approved; [bulk_delete_terms] is [delete_term]
    applied to the elements in turn, and its result the number of
    deletions that returned true. *)
Theorem bulk_operations_spec
        (terms : list string) (approved_by : string) (clock : nat -> Timestamp)
        (db : SlangDatabase) :
  schema_ok db ->
  bulk_approve_terms terms approved_by clock db
  = apply_each (fun i => approve_if_pending approved_by (clock i)) terms db
  /\ bulk_delete_terms terms db = apply_each (fun _ => delete_term) terms db
  /\ 0 <= fst (bulk_approve_terms terms approved_by clock db)
     <= Z.of_nat (List.length terms)
  /\ 0 <= fst (bulk_delete_terms terms db) <= Z.of_nat (List.length terms).
Proof.
  intros Hok.
  rewrite (bulk_approve_refines terms approved_by clock db Hok).
  rewrite bulk_delete_refines.
  repeat split; apply apply_each_bounds.
Qed.

Lemma bulk_operations_spec_witness :
  bulk_approve_terms ["Drip"; "fit"; "drip "] "admin" (fun _ => 102) drip_db
  = apply_each (fun _ => approve_if_pending "admin" 102)
               ["Drip"; "fit"; "drip "] drip_db
  /\ bulk_delete_terms ["fit"; "drip"; "drip"] drip_db
     = apply_each (fun _ => delete_term) ["fit"; "drip"; "drip"] drip_db.
Proof.
  assert (Hok : schema_ok drip_db)
    by (split; repeat constructor; simpl; tauto).
  split.
  - apply (bulk_operations_spec ["Drip"; "fit"; "drip "] "admin"
                                (fun _ => 102) drip_db Hok).
  - apply (bulk_operations_spec ["fit"; "drip"; "drip"] "admin"
                                (fun _ => 102) drip_db Hok).
Defined.

(** ** The candidate extractor *)

Lemma by_confidence_desc_false (a b : Candidate) :
  by_confidence_desc a b = false <-> confidence_desc b a.
Proof.
  unfold by_confidence_desc, confidence_desc.
  rewrite negb_false_iff. apply Qle_bool_iff.
Qed.

Lemma by_confidence_desc_true (a b : Candidate) :
  by_confidence_desc a b = true -> confidence_desc a b.
Proof.
  unfold by_confidence_desc, confidence_desc. rewrite negb_true_iff.
  intros H. apply Qlt_le_weak, Qnot_le_lt. intros Hle.
  apply Qle_bool_iff in Hle. congruence.
Qed.

Lemma confidence_desc_trans (a b c : Candidate) :
  confidence_desc a b -> confidence_desc b c -> confidence_desc a c.
Proof. unfold confidence_desc. intros H1 H2. eapply Qle_trans; eauto. Qed.

Lemma insert_by_confidence_sorted (x : Candidate) (l : list Candidate) :
  StronglySorted confidence_desc l ->
  StronglySorted confidence_desc (insert_by by_confidence_desc x l).
Proof.
  induction 1 as [|y l Hsorted IH Hall]; simpl.
  - repeat constructor.
  - destruct (by_confidence_desc y x) eqn:E.
    + constructor; [exact IH|].
      apply Forall_forall. intros z Hz.
      apply (Permutation_in _ (Permutation_sym (insert_by_perm _ x l))) in Hz.
      destruct Hz as [<-|Hz]; [now apply by_confidence_desc_true|].
      rewrite Forall_forall in Hall. now apply Hall.
    + apply by_confidence_desc_false in E.
      constructor; [now constructor|].
      constructor; [exact E|].
      eapply Forall_impl; [|exact Hall].
      intros z Hz. eapply confidence_desc_trans; eauto.
Qed.

(** The sort by confidence gives a list in descending order. *)
Lemma order_by_confidence_sorted (l : list Candidate) :
  StronglySorted confidence_desc (order_by by_confidence_desc l).
Proof.
  induction l as [|x l IH]; simpl; [constructor|].
  now apply insert_by_confidence_sorted.
Qed.

(** A block of candidates that is already in order and not below the rest
    stays where it is. *)
Lemma order_by_keeps_front (front rest : list Candidate) :
  StronglySorted confidence_desc front ->
  (forall a b, In a front -> In b rest -> confidence_desc a b) ->
  order_by by_confidence_desc (front ++ rest)
  = (front ++ order_by by_confidence_desc rest)%list.
Proof.
  induction 1 as [|x front Hsorted IH Hall]; intros Hrest; [reflexivity|].
  cbn [app order_by fold_right]. fold (order_by by_confidence_desc (front ++ rest)).
  rewrite IH; [|intros a b Ha Hb; apply Hrest; [now right | exact Hb]].
  destruct (front ++ order_by by_confidence_desc rest)%list as [|y l] eqn:E;
    [reflexivity|].
  cbn [insert_by].
  assert (Hy : confidence_desc x y).
  { assert (Hin : In y (front ++ order_by by_confidence_desc rest))
      by (rewrite E; now left).
    apply in_app_or in Hin. destruct Hin as [Hin|Hin].
    - rewrite Forall_forall in Hall. now apply Hall.
    - apply order_by_In in Hin. apply Hrest; [now left | exact Hin]. }
  apply by_confidence_desc_false in Hy. now rewrite Hy.
Qed.

Lemma unique_by_term_In (seen : list string) (l : list Candidate) (c : Candidate) :
  In c (unique_by_term seen l) ->
  ~ In (c_term c) seen
  /\ exists l1 l2, l = (l1 ++ c :: l2)%list /\ ~ In (c_term c) (map c_term l1).
Proof.
  revert seen. induction l as [|x l IH]; intros seen; simpl; [contradiction|].
  destruct (Py.str_in (c_term x) seen) eqn:E.
  - intros H. destruct (IH seen H) as (Hs & l1 & l2 & -> & Hl1).
    split; [exact Hs|]. exists (x :: l1), l2. split; [reflexivity|].
    simpl. intros [Hx|Hx]; [|contradiction].
    apply str_in_true in E. rewrite Hx in E. contradiction.
  - apply str_in_false in E. intros [<-|H].
    + split; [exact E|]. exists [], l. split; [reflexivity | simpl; tauto].
    + destruct (IH (c_term x :: seen) H) as (Hs & l1 & l2 & -> & Hl1).
      split; [intros Hin; apply Hs; now right|].
      exists (x :: l1), l2. split; [reflexivity|].
      simpl. intros [Hx|Hx]; [|contradiction].
      apply Hs. now left.
Qed.

Lemma unique_by_term_NoDup (seen : list string) (l : list Candidate) :
  NoDup (map c_term (unique_by_term seen l)).
Proof.
  revert seen. induction l as [|x l IH]; intros seen; simpl; [constructor|].
  destruct (Py.str_in (c_term x) seen); [apply IH|].
  simpl. constructor; [|apply IH].
  rewrite in_map_iff. intros (c & Hc & Hin).
  apply unique_by_term_In in Hin. destruct Hin as [Hs _].
  apply Hs. rewrite Hc. now left.
Qed.

Lemma unique_by_term_sorted (seen : list string) (l : list Candidate) :
  StronglySorted confidence_desc l ->
  StronglySorted confidence_desc (unique_by_term seen l).
Proof.
  intros H. revert seen. induction H as [|x l Hsorted IH Hall]; intros seen;
    simpl; [constructor|].
  destruct (Py.str_in (c_term x) seen); [apply IH|].
  constructor; [apply IH|].
  apply Forall_forall. intros c Hc. apply unique_by_term_In in Hc.
  destruct Hc as (_ & l1 & l2 & -> & _).
  rewrite Forall_forall in Hall. apply Hall. apply in_or_app. right. now left.
Qed.

(** Candidates of distinct terms, none of them seen, are all kept. *)
Lemma unique_by_term_keeps_front (front rest : list Candidate) :
  forall seen,
    NoDup (map c_term front) ->
    (forall c, In c front -> ~ In (c_term c) seen) ->
    exists seen',
      unique_by_term seen (front ++ rest)
      = (front ++ unique_by_term seen' rest)%list.
Proof.
  induction front as [|x front IH]; intros seen Hnd Hseen.
  - exists seen. reflexivity.
  - inversion Hnd as [|? ? Hx Hnd']; subst. cbn [app unique_by_term].
    rewrite (proj2 (str_in_false _ _) (Hseen x (or_introl eq_refl))).
    destruct (IH (c_term x :: seen) Hnd') as (seen' & ->).
    + intros c Hc [E|Hin].
      * apply Hx. rewrite E. now apply in_map.
      * apply (Hseen c); [now right | exact Hin].
    + now exists seen'.
Qed.

Lemma StronglySorted_firstn {A : Type} (R : A -> A -> Prop) (n : nat) (l : list A) :
  StronglySorted R l -> StronglySorted R (firstn n l).
Proof.
  intros H. revert n. induction H as [|x l Hsorted IH Hall]; intros [|n];
    simpl; try constructor; [apply IH|].
  apply Forall_forall. intros y Hy. apply firstn_In in Hy.
  rewrite Forall_forall in Hall. now apply Hall.
Qed.

Lemma NoDup_firstn {A : Type} (n : nat) (l : list A) :
  NoDup l -> NoDup (firstn n l).
Proof.
  intros H. revert n. induction H as [|x l Hx Hnd IH]; intros [|n];
    simpl; try constructor; [|apply IH].
  intros Hin. apply firstn_In in Hin. contradiction.
Qed.

Lemma StronglySorted_app_tail {A : Type} (R : A -> A -> Prop) (l1 l2 : list A) :
  StronglySorted R (l1 ++ l2) -> StronglySorted R l2.
Proof.
  induction l1 as [|x l1 IH]; simpl; [trivial|].
  intros H. inversion H; subst. now apply IH.
Qed.

(** Of the sorted candidates of one term, the one that is kept has the
    highest confidence. *)
Lemma unique_by_term_highest (l : list Candidate) (c c' : Candidate) :
  StronglySorted confidence_desc l ->
  In c (unique_by_term [] l) -> In c' l -> c_term c' = c_term c ->
  confidence_desc c c'.
Proof.
  intros Hsorted Hc Hc' Hterm.
  apply unique_by_term_In in Hc. destruct Hc as (_ & l1 & l2 & -> & Hl1).
  apply in_app_or in Hc'. destruct Hc' as [Hc'|[<-|Hc']].
  - elim Hl1. rewrite <- Hterm. now apply in_map.
  - unfold confidence_desc. apply Qle_refl.
  - apply StronglySorted_app_tail in Hsorted. inversion Hsorted as [|? ? _ Hall]; subst.
    rewrite Forall_forall in Hall. now apply Hall.
Qed.

Lemma scan_allowlist_spec (terms : list string) (text text_lower pattern : string)
      (confidence : Q) (source_platform : string) :
  forall candidates,
    scan_allowlist terms text text_lower pattern confidence source_platform candidates
    = (candidates ++
         map (fun t => mkCandidate t (Py.take 200 text) pattern confidence
                                   source_platform)
             (filter (fun t => Py.contains t text_lower) terms))%list.
Proof.
  induction terms as [|t terms IH]; intros candidates; simpl.
  - now rewrite app_nil_r.
  - rewrite IH. destruct (Py.contains t text_lower); simpl.
    + now rewrite <- app_assoc.
    + reflexivity.
Qed.

Lemma all_chars_letters (term : string) :
  Py.isalpha (Py.remove_char "-" (Py.remove_char " " term)) = true ->
  Py.all_chars letter_space_hyphen term = true.
Proof.
  unfold Py.isalpha. intros H. apply andb_prop in H. destruct H as [_ H].
  induction term as [|c term IH]; simpl in *; [reflexivity|].
  unfold letter_space_hyphen at 1.
  destruct (Ascii.eqb c " ") eqn:Es.
  - rewrite orb_true_r. simpl. now apply IH.
  - simpl in H. destruct (Ascii.eqb c "-") eqn:Eh.
    + rewrite orb_true_r. simpl. now apply IH.
    + simpl in H. apply andb_prop in H. destruct H as [Hc H].
      rewrite Hc. simpl. now apply IH.
Qed.

(** A character outside letters, space and hyphen makes the filter reject. *)
Lemma odd_char_rejected (term : string) :
  Py.all_chars letter_space_hyphen term = false ->
  negb (Py.isalpha (Py.remove_char "-" (Py.remove_char " " term))) = true.
Proof.
  intros H. apply negb_true_iff.
  destruct (Py.isalpha _) eqn:E; [|reflexivity].
  apply all_chars_letters in E. congruence.
Qed.

Lemma rejected_false (term : string) (candidates : list Candidate) :
  rejected term candidates = false ->
  passes_filter term /\ ~ In term (map c_term candidates).
Proof.
  unfold rejected. intros H.
  apply orb_false_elim in H. destruct H as [H Hdup].
  apply orb_false_elim in H. destruct H as [H Halpha].
  apply orb_false_elim in H. destruct H as [H Hdigit].
  apply orb_false_elim in H. destruct H as [H Hlong].
  apply orb_false_elim in H. destruct H as [Hblack Hshort].
  split; [|now apply str_in_false].
  split; [now apply str_in_false|].
  split; [split; apply Z.ltb_ge; assumption|].
  split; [exact Hdigit|].
  apply all_chars_letters. now apply negb_false_iff.
Qed.

Lemma unique_by_term_covers (l : list Candidate) (c0 : Candidate) :
  forall seen,
    In c0 l ->
    In (c_term c0) seen
    \/ exists c, In c (unique_by_term seen l) /\ c_term c = c_term c0.
Proof.
  induction l as [|x l IH]; intros seen; simpl; [contradiction|].
  intros [->|Hin].
  - destruct (Py.str_in (c_term c0) seen) eqn:E.
    + left. now apply str_in_true.
    + right. exists c0. split; [now left | reflexivity].
  - destruct (Py.str_in (c_term x) seen) eqn:E.
    + apply IH, Hin.
    + destruct (IH (c_term x :: seen) Hin) as [[Hx|Hs]|(c & Hc & Ht)].
      * right. exists x. split; [now left | exact Hx].
      * now left.
      * right. exists c. split; [now right | exact Ht].
Qed.

(** Cutting the sorted candidates after [n] of them keeps a candidate, or
    keeps [n] candidates that all score at least as high. *)
Lemma cut_keeps_best (n : nat) (l : list Candidate) (c : Candidate) :
  StronglySorted confidence_desc l -> In c l ->
  In c (firstn n l)
  \/ (List.length (firstn n l) = n
      /\ forall r, In r (firstn n l) -> confidence_desc r c).
Proof.
  intros H. revert n. induction H as [|x l Hs IH Hall]; intros n Hin;
    [contradiction|].
  destruct n as [|n]; [right; split; [reflexivity | intros r []]|].
  cbn [firstn]. destruct Hin as [->|Hin]; [left; now left|].
  destruct (IH n Hin) as [Hl|[Hlen Hr]].
  - left. now right.
  - right. split; [cbn [List.length]; now rewrite Hlen|].
    intros r [<-|Hr'].
    + rewrite Forall_forall in Hall. now apply Hall.
    + now apply Hr.
Qed.

Lemma rejected_none (term : string) (candidates : list Candidate) :
  ~ In term blacklist -> 3 <= Py.len term <= 15 -> Py.isdigit term = false ->
  Py.isalpha (Py.remove_char "-" (Py.remove_char " " term)) = true ->
  ~ In term (map c_term candidates) ->
  rejected term candidates = false.
Proof.
  intros Hblack [Hmin Hmax] Hdigit Halpha Hnew. unfold rejected.
  apply str_in_false in Hblack. apply str_in_false in Hnew.
  apply Z.ltb_ge in Hmin. apply Z.ltb_ge in Hmax.
  now rewrite Hblack, Hmin, Hmax, Hdigit, Halpha, Hnew.
Qed.

Lemma fold_left_invariant {S X : Type} (P : S -> Prop) (f : S -> X -> S)
      (l : list X) :
  (forall s x, In x l -> P s -> P (f s x)) ->
  forall s0, P s0 -> P (fold_left f l s0).
Proof.
  induction l as [|x l IH]; intros Hstep s0 H0; simpl; [exact H0|].
  apply IH.
  - intros s y Hy. apply Hstep. now right.
  - apply Hstep; [now left | exact H0].
Qed.

(** A property that one element of the list establishes and every step
    keeps holds when the loop is over. *)
Lemma fold_left_reaches {S X : Type} (P : S -> Prop) (f : S -> X -> S)
      (l : list X) (x0 : X) :
  In x0 l -> (forall s, P (f s x0)) -> (forall s x, P s -> P (f s x)) ->
  forall s0, P (fold_left f l s0).
Proof.
  intros Hin Hhit Hkeep. induction l as [|x l IH]; [contradiction|].
  intros s0. cbn [fold_left]. destruct Hin as [->|Hin].
  - apply fold_left_invariant; [intros s x _; apply Hkeep | apply Hhit].
  - now apply IH.
Qed.

Lemma filter_perm {A : Type} (p : A -> bool) (l l' : list A) :
  Permutation l l' -> Permutation (filter p l) (filter p l').
Proof.
  induction 1 as [|x l l' _ IH|x y l|l l' l'' _ IH1 _ IH2]; simpl.
  - constructor.
  - destruct (p x); [now constructor | exact IH].
  - destruct (p x), (p y); try reflexivity. apply perm_swap.
  - now transitivity (filter p l').
Qed.

Lemma regex_score_below_allowlist (c : Candidate) :
  regex_scored c -> (c_confidence c <= 0.7)%Q.
Proof.
  intros [_ H]. rewrite H.
  destruct (String.eqb (c_pattern c) "definition"); unfold Qle; simpl; lia.
Qed.

Section ExtractorFacts.

Variable World : Type.
Variable URBAN_DICT_AVAILABLE : bool.
Variable get_urban_definition : string -> World -> UrbanResult * World.
Variable re_findall : string -> string -> list string.
Variables fashion_iter gen_alpha_iter : list string.

Local Notation "'allow'" := (allowlist_candidates fashion_iter gen_alpha_iter).
Local Notation "'step'" :=
  (regex_step World URBAN_DICT_AVAILABLE get_urban_definition).
Local Notation "'pattern_loop'" :=
  (apply_pattern World URBAN_DICT_AVAILABLE get_urban_definition re_findall).
Local Notation "'collect'" :=
  (collect_candidates World URBAN_DICT_AVAILABLE get_urban_definition re_findall
                      fashion_iter gen_alpha_iter).
Local Notation "'extract'" :=
  (extract_slang_candidates World URBAN_DICT_AVAILABLE get_urban_definition
                            re_findall fashion_iter gen_alpha_iter).

Lemma allow_spec (text source : string) :
  allow text source
  = (map (fashion_candidate text source)
         (filter (fun t => Py.contains t (Py.lower text)) fashion_iter)
     ++ map (gen_alpha_candidate text source)
            (filter (fun t => Py.contains t (Py.lower text)) gen_alpha_iter))%list.
Proof.
  unfold allowlist_candidates. now rewrite !scan_allowlist_spec.
Qed.

(** A match that the basic filter refuses leaves the candidates and the
    world as they are. *)
Lemma regex_step_rejects (pattern_name text source : string)
      (candidates : list Candidate) (w : World) (match_ : string) :
  rejected (Py.lower (Py.strip match_)) candidates = true ->
  step pattern_name text source (candidates, w) match_ = (candidates, w).
Proof. unfold regex_step. now intros ->. Qed.

Lemma regex_step_cases (pattern_name text source : string)
      (candidates : list Candidate) (w : World) (match_ : string) :
  let res := step pattern_name text source (candidates, w) match_ in
  fst res = candidates
  \/ (rejected (Py.lower (Py.strip match_)) candidates = false
      /\ fst res
         = (candidates ++
              [mkCandidate (Py.lower (Py.strip match_)) (Py.take 200 text)
                           pattern_name
                           (if String.eqb pattern_name "definition"
                            then 0.7%Q else 0.5%Q)
                           source])%list).
Proof.
  unfold regex_step.
  destruct (rejected (Py.lower (Py.strip match_)) candidates); [now left|].
  destruct (is_valid_slang _ _ _ _ _ _) as [valid w'].
  destruct valid; [right; split; reflexivity | now left].
Qed.

Lemma regex_step_keeps (pattern_name text source : string)
      (allowed rx : list Candidate) (w : World) (match_ : string) :
  In pattern_name slang_patterns ->
  regex_part_ok allowed rx ->
  exists rx',
    fst (step pattern_name text source ((allowed ++ rx)%list, w) match_)
    = (allowed ++ rx')%list
    /\ regex_part_ok allowed rx'.
Proof.
  intros Hpat (Hall & Hnd & Hdis).
  destruct (regex_step_cases pattern_name text source (allowed ++ rx) w match_)
    as [->|[Hrej ->]].
  - exists rx. split; [reflexivity|]. now split.
  - apply rejected_false in Hrej. destruct Hrej as [Hpass Hnew].
    rewrite map_app, in_app_iff in Hnew.
    exists (rx ++ [mkCandidate (Py.lower (Py.strip match_)) (Py.take 200 text)
                               pattern_name
                               (if String.eqb pattern_name "definition"
                                then 0.7%Q else 0.5%Q)
                               source])%list.
    split; [now rewrite app_assoc|].
    split; [|split].
    + apply Forall_app. split; [exact Hall|].
      constructor; [|constructor]. split; [exact Hpass|].
      split; [exact Hpat | reflexivity].
    + rewrite map_app. apply NoDup_app_fresh; [exact Hnd | tauto].
    + intros c Hc. apply in_app_or in Hc. destruct Hc as [Hc|[<-|[]]].
      * now apply Hdis.
      * simpl. tauto.
Qed.

(** No step of the loops drops the term of a candidate. *)
Lemma regex_step_keeps_terms (pattern_name text source : string)
      (st : list Candidate * World) (match_ t : string) :
  In t (map c_term (fst st)) ->
  In t (map c_term (fst (step pattern_name text source st match_))).
Proof.
  destruct st as [candidates w0]. cbn [fst]. intros Hin.
  destruct (regex_step_cases pattern_name text source candidates w0 match_)
    as [->|[_ ->]]; [exact Hin|].
  rewrite map_app. apply in_or_app. now left.
Qed.

(** A match that the basic filter lets through and that [is_valid_slang]
    accepts in every world leaves its term among the candidates. *)
Lemma regex_step_adds (pattern_name text source : string)
      (st : list Candidate * World) (match_ : string) :
  let term := Py.lower (Py.strip match_) in
  ~ In term blacklist -> 3 <= Py.len term <= 15 -> Py.isdigit term = false ->
  Py.isalpha (Py.remove_char "-" (Py.remove_char " " term)) = true ->
  (forall w0, fst (is_valid_slang World URBAN_DICT_AVAILABLE get_urban_definition
                                  term true w0) = true) ->
  In term (map c_term (fst (step pattern_name text source st match_))).
Proof.
  intros term Hb Hl Hd Ha Hvalid. destruct st as [candidates w0].
  destruct (in_dec string_dec term (map c_term candidates)) as [Hin|Hnew].
  - now apply (regex_step_keeps_terms pattern_name text source (candidates, w0)).
  - unfold regex_step. fold term.
    rewrite (rejected_none term candidates Hb Hl Hd Ha Hnew).
    specialize (Hvalid w0).
    destruct (is_valid_slang _ _ _ term true w0) as [valid w']. cbn [fst] in Hvalid.
    subst valid. cbn [fst]. rewrite map_app. apply in_or_app. right. now left.
Qed.

(** Such a match of one of the patterns has its term among the candidates
    when the loops are over. *)
Lemma collect_reaches (text source : string) (w : World)
      (pattern_name match_ : string) :
  let term := Py.lower (Py.strip match_) in
  In pattern_name slang_patterns ->
  In match_ (re_findall pattern_name (Py.lower text)) ->
  ~ In term blacklist -> 3 <= Py.len term <= 15 -> Py.isdigit term = false ->
  Py.isalpha (Py.remove_char "-" (Py.remove_char " " term)) = true ->
  (forall w0, fst (is_valid_slang World URBAN_DICT_AVAILABLE get_urban_definition
                                  term true w0) = true) ->
  In term (map c_term (fst (collect text source w))).
Proof.
  intros term Hpat Hmatch Hb Hl Hd Ha Hvalid. unfold collect_candidates.
  apply (fold_left_reaches
           (fun st => In term (map c_term (fst st)))
           (apply_pattern World URBAN_DICT_AVAILABLE get_urban_definition
                          re_findall text source)
           slang_patterns pattern_name Hpat).
  - intros st. unfold apply_pattern.
    apply (fold_left_reaches
             (fun st => In term (map c_term (fst st)))
             (step pattern_name text source)
             (re_findall pattern_name (Py.lower text)) match_ Hmatch).
    + intros st'. now apply regex_step_adds.
    + intros st' m. apply regex_step_keeps_terms.
  - intros st name Hst. unfold apply_pattern.
    apply fold_left_invariant; [|exact Hst].
    intros st' m _. apply regex_step_keeps_terms.
Qed.

(** When the loops are over, the candidates are the allow-list candidates
    followed by what the patterns added. *)
Lemma collect_shape (text source : string) (w : World) :
  exists rx,
    fst (collect text source w) = (allow text source ++ rx)%list
    /\ regex_part_ok (allow text source) rx.
Proof.
  unfold collect_candidates.
  apply (fold_left_invariant
           (fun st => exists rx, fst st = (allow text source ++ rx)%list
                                 /\ regex_part_ok (allow text source) rx)).
  - intros st pattern_name Hpat Hst. unfold apply_pattern.
    apply (fold_left_invariant
             (fun st => exists rx, fst st = (allow text source ++ rx)%list
                                   /\ regex_part_ok (allow text source) rx));
      [|exact Hst].
    intros [candidates w0] match_ _ (rx & Hrx & Hok). cbn [fst] in Hrx. subst.
    now apply regex_step_keeps.
  - exists []. split; [now rewrite app_nil_r|].
    split; [constructor|]. split; [constructor | intros c []].
Qed.

Lemma extract_guarded (text source : string) (w : World) :
  Py.truthy text = true -> 3 <= Py.len (Py.strip text) ->
  fst (extract text source w)
  = firstn 10 (unique_by_term []
                 (order_by by_confidence_desc (fst (collect text source w)))).
Proof.
  intros Ht Hlen. unfold extract_slang_candidates. rewrite Ht.
  apply Z.ltb_ge in Hlen. rewrite Hlen. cbn [negb orb].
  now destruct (collect text source w).
Qed.

Lemma extract_short (text source : string) (w : World) :
  Py.truthy text = false \/ Py.len (Py.strip text) < 3 ->
  extract text source w = ([], w).
Proof.
  intros H. unfold extract_slang_candidates.
  destruct H as [->|H]; [reflexivity|].
  apply Z.ltb_lt in H. rewrite H. now rewrite orb_true_r.
Qed.

Lemma extract_result (text source : string) (w : World) :
  fst (extract text source w) = []
  \/ fst (extract text source w)
     = firstn 10 (unique_by_term []
                    (order_by by_confidence_desc (fst (collect text source w)))).
Proof.
  destruct (Py.truthy text) eqn:Ht.
  - destruct (Z_lt_le_dec (Py.len (Py.strip text)) 3) as [Hlt|Hge].
    + left. rewrite extract_short; auto.
    + right. now apply extract_guarded.
  - left. rewrite extract_short; auto.
Qed.

(** C9.  A regex match whose term is in the blacklist, shorter than 3 or
    longer than 15 characters, purely numeric, made of anything but
    letters, spaces and hyphens, or already among the candidates, is
    dropped; a match that none of this holds of and that [is_valid_slang]
    accepts is appended with the score 0.7 for the pattern "definition"
    and 0.5 for any other, and nothing else is ever appended.  So the
    candidates the patterns add all pass the filter, carry that score and
    repeat no term, and every match of a pattern that the filter lets
    through and [is_valid_slang] accepts whatever the world has its term
    among the candidates.  For a text that passes the guard, the list returned is
    the first 10 of the candidates sorted by descending confidence and
    reduced to the first candidate of each term: it has at most 10
    candidates, no term twice, descending confidence, for each term the
    candidate of highest confidence; and every candidate that was
    collected is represented in it by a candidate of its term that scores
    at least as high, unless the list is full with 10 candidates that all
    score at least as high. *)
Theorem regex_candidates_filtered (text source : string) (w : World) :
  (forall (pattern_name : string) (candidates : list Candidate) (w0 : World)
          (match_ : string),
      let term := Py.lower (Py.strip match_) in
      In term blacklist \/ Py.len term < 3 \/ 15 < Py.len term
      \/ Py.isdigit term = true
      \/ Py.all_chars letter_space_hyphen term = false
      \/ In term (map c_term candidates) ->
      step pattern_name text source (candidates, w0) match_ = (candidates, w0))
  /\ (forall (pattern_name : string) (candidates : list Candidate) (w0 : World)
             (match_ : string),
         let res := step pattern_name text source (candidates, w0) match_ in
         fst res = candidates
         \/ fst res
            = (candidates ++
                 [mkCandidate (Py.lower (Py.strip match_)) (Py.take 200 text)
                              pattern_name
                              (if String.eqb pattern_name "definition"
                               then 0.7%Q else 0.5%Q)
                              source])%list)
  /\ (exists rx,
         fst (collect text source w) = (allow text source ++ rx)%list
         /\ regex_part_ok (allow text source) rx)
  /\ (List.length (fst (extract text source w)) <= 10)%nat
  /\ NoDup (map c_term (fst (extract text source w)))
  /\ StronglySorted confidence_desc (fst (extract text source w))
  /\ (forall c,
         In c (fst (extract text source w)) ->
         In c (fst (collect text source w))
         /\ forall c', In c' (fst (collect text source w)) ->
                       c_term c' = c_term c -> confidence_desc c c')
  /\ (forall (pattern_name : string) (candidates : list Candidate) (w0 : World)
             (match_ : string),
         let term := Py.lower (Py.strip match_) in
         ~ In term blacklist -> 3 <= Py.len term <= 15 ->
         Py.isdigit term = false ->
         Py.isalpha (Py.remove_char "-" (Py.remove_char " " term)) = true ->
         ~ In term (map c_term candidates) ->
         step pattern_name text source (candidates, w0) match_
         = (if fst (is_valid_slang World URBAN_DICT_AVAILABLE get_urban_definition
                                   term true w0)
            then (candidates ++
                    [mkCandidate term (Py.take 200 text) pattern_name
                                 (if String.eqb pattern_name "definition"
                                  then 0.7%Q else 0.5%Q)
                                 source])%list
            else candidates,
            snd (is_valid_slang World URBAN_DICT_AVAILABLE get_urban_definition
                                term true w0)))
  /\ (Py.truthy text = true -> 3 <= Py.len (Py.strip text) ->
      fst (extract text source w)
      = firstn 10 (unique_by_term []
                     (order_by by_confidence_desc (fst (collect text source w))))
      /\ forall c,
           In c (fst (collect text source w)) ->
           (exists r, In r (fst (extract text source w))
                      /\ c_term r = c_term c /\ confidence_desc r c)
           \/ (List.length (fst (extract text source w)) = 10%nat
               /\ forall r, In r (fst (extract text source w)) ->
                            confidence_desc r c))
  /\ (forall pattern_name match_ : string,
         let term := Py.lower (Py.strip match_) in
         In pattern_name slang_patterns ->
         In match_ (re_findall pattern_name (Py.lower text)) ->
         ~ In term blacklist -> 3 <= Py.len term <= 15 ->
         Py.isdigit term = false ->
         Py.isalpha (Py.remove_char "-" (Py.remove_char " " term)) = true ->
         (forall w0,
             fst (is_valid_slang World URBAN_DICT_AVAILABLE get_urban_definition
                                 term true w0) = true) ->
         exists c, In c (fst (collect text source w)) /\ c_term c = term).
Proof.
  assert (Hreach :
    forall pattern_name match_ : string,
      let term := Py.lower (Py.strip match_) in
      In pattern_name slang_patterns ->
      In match_ (re_findall pattern_name (Py.lower text)) ->
      ~ In term blacklist -> 3 <= Py.len term <= 15 ->
      Py.isdigit term = false ->
      Py.isalpha (Py.remove_char "-" (Py.remove_char " " term)) = true ->
      (forall w0,
          fst (is_valid_slang World URBAN_DICT_AVAILABLE get_urban_definition
                              term true w0) = true) ->
      exists c, In c (fst (collect text source w)) /\ c_term c = term).
  { intros pattern_name match_ term Hpat Hmatch Hb Hl Hd Ha Hvalid.
    pose proof (collect_reaches text source w pattern_name match_
                  Hpat Hmatch Hb Hl Hd Ha Hvalid) as Hin.
    apply in_map_iff in Hin. destruct Hin as (c & Hterm & Hc).
    exists c. now split. }
  split.
  { intros pattern_name candidates w0 match_ term H.
    apply regex_step_rejects. fold term. unfold rejected.
    destruct H as [H|[H|[H|[H|[H|H]]]]].
    - apply str_in_true in H. now rewrite H.
    - apply Z.ltb_lt in H. rewrite H. now rewrite orb_true_r.
    - apply Z.ltb_lt in H. rewrite H. now rewrite !orb_true_r.
    - rewrite H. now rewrite !orb_true_r.
    - rewrite (odd_char_rejected term H). now rewrite !orb_true_r.
    - apply str_in_true in H. rewrite H. now rewrite !orb_true_r. }
  split.
  { intros pattern_name candidates w0 match_ res. subst res.
    destruct (regex_step_cases pattern_name text source candidates w0 match_)
      as [H|[_ H]]; [now left | now right]. }
  split; [apply collect_shape|].
  assert (Hsteps :
    forall (pattern_name : string) (candidates : list Candidate) (w0 : World)
           (match_ : string),
      let term := Py.lower (Py.strip match_) in
      ~ In term blacklist -> 3 <= Py.len term <= 15 ->
      Py.isdigit term = false ->
      Py.isalpha (Py.remove_char "-" (Py.remove_char " " term)) = true ->
      ~ In term (map c_term candidates) ->
      step pattern_name text source (candidates, w0) match_
      = (if fst (is_valid_slang World URBAN_DICT_AVAILABLE get_urban_definition
                                term true w0)
         then (candidates ++
                 [mkCandidate term (Py.take 200 text) pattern_name
                              (if String.eqb pattern_name "definition"
                               then 0.7%Q else 0.5%Q)
                              source])%list
         else candidates,
         snd (is_valid_slang World URBAN_DICT_AVAILABLE get_urban_definition
                             term true w0))).
  { intros pattern_name candidates w0 match_ term Hb Hl Hd Ha Hn.
    unfold regex_step. fold term.
    rewrite (rejected_none term candidates Hb Hl Hd Ha Hn).
    destruct (is_valid_slang _ _ _ term true w0) as [valid w'].
    now destruct valid. }
  assert (Htop :
    Py.truthy text = true -> 3 <= Py.len (Py.strip text) ->
    fst (extract text source w)
    = firstn 10 (unique_by_term []
                   (order_by by_confidence_desc (fst (collect text source w))))
    /\ forall c,
         In c (fst (collect text source w)) ->
         (exists r, In r (fst (extract text source w))
                    /\ c_term r = c_term c /\ confidence_desc r c)
         \/ (List.length (fst (extract text source w)) = 10%nat
             /\ forall r, In r (fst (extract text source w)) ->
                          confidence_desc r c)).
  { intros Ht Hlen. rewrite (extract_guarded text source w Ht Hlen).
    split; [reflexivity|]. intros c Hc.
    apply (order_by_In by_confidence_desc) in Hc.
    destruct (unique_by_term_covers _ c [] Hc) as [[]|(u & Hu & Hterm)].
    assert (Hbest : confidence_desc u c).
    { apply (unique_by_term_highest
               (order_by by_confidence_desc (fst (collect text source w))));
        auto using order_by_confidence_sorted. }
    destruct (cut_keeps_best 10 _ u
                (unique_by_term_sorted [] _
                   (order_by_confidence_sorted (fst (collect text source w))))
                Hu) as [Hin|[Hfull Hall]].
    - left. exists u. auto.
    - right. split; [exact Hfull|]. intros r Hr.
      apply (confidence_desc_trans r u c); auto. }
  destruct (extract_result text source w) as [E|E].
  { rewrite E in *. split; [simpl; lia|]. split; [constructor|].
    split; [constructor|]. split; [intros c []|]. split; [exact Hsteps|].
    split; [exact Htop | exact Hreach]. }
  split; [rewrite E, length_firstn; lia|].
  split.
  { rewrite E, <- firstn_map. apply NoDup_firstn, unique_by_term_NoDup. }
  split.
  { rewrite E.
    apply StronglySorted_firstn, unique_by_term_sorted, order_by_confidence_sorted. }
  split; [|split; [exact Hsteps | split; [exact Htop | exact Hreach]]].
  intros c Hc. rewrite E in Hc. apply firstn_In in Hc. split.
  - apply unique_by_term_In in Hc. destruct Hc as (_ & l1 & l2 & E' & _).
    apply (order_by_In by_confidence_desc). rewrite E'.
    apply in_or_app. right. now left.
  - intros c' Hc' Hterm.
    apply (unique_by_term_highest
             (order_by by_confidence_desc (fst (collect text source w)))).
    + apply order_by_confidence_sorted.
    + exact Hc.
    + now apply order_by_In.
    + exact Hterm.
Qed.

Lemma constant_confidence_sorted (k : Q) (l : list Candidate) :
  Forall (fun c => c_confidence c = k) l -> StronglySorted confidence_desc l.
Proof.
  induction 1 as [|x l Hx Hall IH]; constructor; [exact IH|].
  eapply Forall_impl; [|exact Hall].
  intros c Hc. unfold confidence_desc. rewrite Hx, Hc. apply Qle_refl.
Qed.

Lemma allow_In (text source : string) (c : Candidate) :
  In c (allow text source) ->
  Py.contains (c_term c) (Py.lower text) = true
  /\ ((In (c_term c) fashion_iter /\ c = fashion_candidate text source (c_term c))
      \/ (In (c_term c) gen_alpha_iter
          /\ c = gen_alpha_candidate text source (c_term c))).
Proof.
  rewrite allow_spec, in_app_iff, !in_map_iff.
  intros [(t & <- & Hin)|(t & <- & Hin)]; apply filter_In in Hin;
    destruct Hin as [Hin Hc]; (split; [exact Hc|]); [left | right]; now split.
Qed.

Lemma allow_confidence (text source : string) (c : Candidate) :
  In c (allow text source) -> (0.9 <= c_confidence c)%Q.
Proof.
  intros H. apply allow_In in H. destruct H as [_ [[_ ->]|[_ ->]]];
    unfold Qle; simpl; lia.
Qed.

(** C8 (as amended).  For a text that is not empty and has at least three
    characters once stripped, the result is the first ten of the
    candidates, sorted and made unique; the two allow-list loops append,
    for every term of the fashion list found in the lowercased text, a
    candidate with confidence 0.9 and the tag "fashion_whitelist", and for
    every term of the gen-alpha list a candidate with confidence 0.95 and
    the tag "gen_alpha_confirmed"; these stand in the list of candidates
    ahead of everything the patterns add, and each such term has, in the
    sorted list made unique, a candidate of the allow-list with confidence
    at least 0.9.  For a shorter text nothing is returned.  On the text
    "your fit is fire, no cap" the result begins with the candidates for
    "fit", "fire" and "no cap", each with confidence 0.9 and the tag
    "fashion_whitelist", and only candidates of the patterns follow. *)
Theorem allowlist_terms_emitted (text source : string) (w : World) :
  Permutation fashion_whitelist fashion_iter ->
  Permutation gen_alpha_terms gen_alpha_iter ->
  (Py.truthy text = true -> 3 <= Py.len (Py.strip text) ->
   fst (extract text source w)
   = firstn 10 (unique_by_term []
                  (order_by by_confidence_desc (fst (collect text source w))))
   /\ (exists rx,
          fst (collect text source w) = (allow text source ++ rx)%list
          /\ Forall regex_scored rx)
   /\ (forall t,
          Py.contains t (Py.lower text) = true ->
          (In t fashion_whitelist ->
           In (fashion_candidate text source t) (allow text source))
          /\ (In t gen_alpha_terms ->
              In (gen_alpha_candidate text source t) (allow text source))
          /\ (In t fashion_whitelist \/ In t gen_alpha_terms ->
              exists c,
                In c (unique_by_term []
                        (order_by by_confidence_desc
                                  (fst (collect text source w))))
                /\ c_term c = t
                /\ (0.9 <= c_confidence c)%Q
                /\ In c (allow text source))))
  /\ (forall c,
         In c (allow text source) ->
         Py.contains (c_term c) (Py.lower text) = true
         /\ ((In (c_term c) fashion_whitelist
              /\ c = fashion_candidate text source (c_term c))
             \/ (In (c_term c) gen_alpha_terms
                 /\ c = gen_alpha_candidate text source (c_term c))))
  /\ (Py.truthy text = false \/ Py.len (Py.strip text) < 3 ->
      extract text source w = ([], w))
  /\ (exists first rest,
         fst (extract fit_text source w) = (first ++ rest)%list
         /\ Permutation [fashion_candidate fit_text source "fit";
                         fashion_candidate fit_text source "fire";
                         fashion_candidate fit_text source "no cap"]
                        first
         /\ Forall regex_scored rest).
Proof.
  intros Hfashion Hgen.
  assert (Hemit : forall t,
             Py.contains t (Py.lower text) = true ->
             (In t fashion_whitelist ->
              In (fashion_candidate text source t) (allow text source))
             /\ (In t gen_alpha_terms ->
                 In (gen_alpha_candidate text source t) (allow text source))).
  { intros t Hc. rewrite allow_spec. split; intros Hin; apply in_or_app;
      [left | right]; apply in_map, filter_In; (split; [|exact Hc]).
    - exact (Permutation_in _ Hfashion Hin).
    - exact (Permutation_in _ Hgen Hin). }
  split; [|split; [|split]].
  - intros Ht Hlen. split; [now apply extract_guarded|].
    destruct (collect_shape text source w) as (rx & Hrx & Hall & Hnd & Hdis).
    split.
    { exists rx. split; [exact Hrx|].
      eapply Forall_impl; [|exact Hall]. now intros c [_ H]. }
    intros t Hc. destruct (Hemit t Hc) as [Hf Hg].
    split; [exact Hf|]. split; [exact Hg|].
    intros Hlisted.
    assert (Hc0 : exists c0, In c0 (allow text source) /\ c_term c0 = t).
    { destruct Hlisted as [H|H]; eexists; (split; [auto|reflexivity]). }
    destruct Hc0 as (c0 & Hc0 & Ht0).
    assert (Hsorted0 : In c0 (order_by by_confidence_desc
                                       (fst (collect text source w)))).
    { apply order_by_In. rewrite Hrx. apply in_or_app. now left. }
    destruct (unique_by_term_covers _ c0 [] Hsorted0) as [[]|(c & Hcin & Hct)].
    exists c. split; [exact Hcin|]. split; [congruence|].
    assert (Hge : (0.9 <= c_confidence c)%Q).
    { eapply Qle_trans; [exact (allow_confidence text source c0 Hc0)|].
      apply (unique_by_term_highest
               (order_by by_confidence_desc (fst (collect text source w))));
        auto using order_by_confidence_sorted. }
    split; [exact Hge|].
    apply unique_by_term_In in Hcin. destruct Hcin as (_ & l1 & l2 & E & _).
    assert (Hin : In c (fst (collect text source w))).
    { apply (order_by_In by_confidence_desc). rewrite E.
      apply in_or_app. right. now left. }
    rewrite Hrx in Hin. apply in_app_or in Hin. destruct Hin as [Hin|Hin]; [exact Hin|].
    rewrite Forall_forall in Hall. destruct (Hall c Hin) as [_ Hscore].
    apply regex_score_below_allowlist in Hscore.
    pose proof (Qle_trans _ _ _ Hge Hscore) as Habs.
    unfold Qle in Habs. simpl in Habs. lia.
  - intros c Hc. apply allow_In in Hc. destruct Hc as [Hcont Hkind].
    split; [exact Hcont|].
    destruct Hkind as [[Hin E]|[Hin E]]; [left | right]; (split; [|exact E]).
    + exact (Permutation_in _ (Permutation_sym Hfashion) Hin).
    + exact (Permutation_in _ (Permutation_sym Hgen) Hin).
  - apply extract_short.
  - pose proof (filter_perm (fun t => Py.contains t (Py.lower fit_text)) _ _ Hfashion)
      as Hfl.
    pose proof (filter_perm (fun t => Py.contains t (Py.lower fit_text)) _ _ Hgen)
      as Hgl.
    change (filter _ fashion_whitelist) with ["fire"; "fit"; "no cap"] in Hfl.
    change (filter _ gen_alpha_terms) with (@nil string) in Hgl.
    apply Permutation_nil in Hgl.
    set (front := map (fashion_candidate fit_text source)
                      (filter (fun t => Py.contains t (Py.lower fit_text))
                              fashion_iter)).
    assert (Hallow : allow fit_text source = front).
    { rewrite allow_spec, Hgl. simpl. now rewrite app_nil_r. }
    destruct (collect_shape fit_text source w) as (rx & Hrx & Hall & Hnd & Hdis).
    rewrite Hallow in Hrx.
    assert (Hscores : Forall regex_scored rx).
    { eapply Forall_impl; [|exact Hall]. now intros c [_ H]. }
    assert (Hfront9 : Forall (fun c => c_confidence c = 0.9%Q) front).
    { apply Forall_forall. intros c Hc. apply in_map_iff in Hc.
      now destruct Hc as (t & <- & _). }
    assert (Hterms : map c_term front
                     = filter (fun t => Py.contains t (Py.lower fit_text)) fashion_iter).
    { unfold front. rewrite map_map. apply map_id. }
    assert (Hlen : List.length front = 3%nat).
    { unfold front. rewrite length_map.
      now rewrite <- (Permutation_length Hfl). }
    rewrite extract_guarded; [|reflexivity | vm_compute; discriminate].
    rewrite Hrx, order_by_keeps_front.
    + destruct (unique_by_term_keeps_front front
                  (order_by by_confidence_desc rx) [])
        as (seen' & ->).
      * rewrite Hterms. apply (Permutation_NoDup Hfl).
        repeat constructor; simpl; intuition discriminate.
      * intros c _ [].
      * rewrite firstn_app, Hlen, (firstn_all2 front); [|lia].
        exists front, (firstn (10 - 3)
                              (unique_by_term seen' (order_by by_confidence_desc rx))).
        split; [reflexivity|]. split.
        -- unfold front.
           apply (Permutation_map (fashion_candidate fit_text source)) in Hfl.
           etransitivity; [|exact Hfl].
           simpl. rewrite perm_swap. reflexivity.
        -- apply Forall_forall. intros c Hc. apply firstn_In in Hc.
           apply unique_by_term_In in Hc. destruct Hc as (_ & l1 & l2 & E & _).
           rewrite Forall_forall in Hscores. apply Hscores.
           apply (order_by_In by_confidence_desc). rewrite E.
           apply in_or_app. right. now left.
    + now apply (constant_confidence_sorted 0.9%Q).
    + intros a b Ha Hb. unfold confidence_desc.
      rewrite Forall_forall in Hfront9, Hscores. rewrite (Hfront9 a Ha).
      eapply Qle_trans; [exact (regex_score_below_allowlist b (Hscores b Hb))|].
      unfold Qle. simpl. lia.
Qed.

End ExtractorFacts.

Lemma regex_candidates_filtered_witness :
  regex_step unit false no_lookup "quoted" yeet_text "reddit" ([], tt) " The "
  = ([], tt)
  /\ In (mkCandidate "cool" yeet_text "definition" 0.7 "reddit")
        (fst (collect_candidates unit false no_lookup yeet_matches
                fashion_whitelist gen_alpha_terms yeet_text "reddit" tt))
  /\ regex_step unit false no_lookup "definition" yeet_text "reddit" ([], tt)
                "cool"
     = ([mkCandidate "cool" yeet_text "definition" 0.7 "reddit"], tt)
  /\ fst (extract_slang_candidates unit false no_lookup yeet_matches
            fashion_whitelist gen_alpha_terms yeet_text "reddit" tt)
     = firstn 10
         (unique_by_term []
            (order_by by_confidence_desc
               (fst (collect_candidates unit false no_lookup yeet_matches
                       fashion_whitelist gen_alpha_terms yeet_text "reddit"
                       tt))))
  /\ exists c,
      In c (fst (collect_candidates unit false no_lookup yeet_matches
                   fashion_whitelist gen_alpha_terms yeet_text "reddit" tt))
      /\ c_term c = "yeet".
Proof.
  destruct (regex_candidates_filtered unit false no_lookup yeet_matches
              fashion_whitelist gen_alpha_terms yeet_text "reddit" tt)
    as (Hreject & _ & _ & _ & _ & _ & Hbest & Haccept & Htop & Hreach).
  split; [|split; [|split; [|split]]].
  - apply Hreject. left. apply (proj1 (str_in_true _ _)). reflexivity.
  - refine (proj1 (Hbest (mkCandidate "cool" yeet_text "definition" 0.7 "reddit") _)).
    vm_compute. right. left. reflexivity.
  - apply (Haccept "definition" [] tt "cool").
    + apply (proj1 (str_in_false _ _)). reflexivity.
    + vm_compute. split; discriminate.
    + reflexivity.
    + reflexivity.
    + intros [].
  - apply Htop; [reflexivity|]. vm_compute. discriminate.
  - apply (Hreach "explanation" "yeet").
    + apply (proj1 (str_in_true _ _)). reflexivity.
    + vm_compute. left. reflexivity.
    + apply (proj1 (str_in_false _ _)). reflexivity.
    + vm_compute. split; discriminate.
    + reflexivity.
    + reflexivity.
    + intros w0. reflexivity.
Defined.

Lemma allowlist_terms_emitted_witness :
  In (fashion_candidate yeet_text "reddit" "fr")
     (allowlist_candidates fashion_whitelist gen_alpha_terms yeet_text "reddit")
  /\ extract_slang_candidates unit false no_lookup yeet_matches
       fashion_whitelist gen_alpha_terms "fr" "reddit" tt
     = ([], tt).
Proof.
  destruct (allowlist_terms_emitted unit false no_lookup yeet_matches
              fashion_whitelist gen_alpha_terms yeet_text "reddit" tt
              (Permutation_refl _) (Permutation_refl _))
    as (Hlong & _).
  destruct (allowlist_terms_emitted unit false no_lookup yeet_matches
              fashion_whitelist gen_alpha_terms "fr" "reddit" tt
              (Permutation_refl _) (Permutation_refl _))
    as (_ & _ & Hshort & _).
  split.
  - destruct Hlong as (_ & _ & Hemit); [reflexivity | vm_compute; discriminate|].
    destruct (Hemit "fr" eq_refl) as (Hfashion & _).
    apply Hfashion. apply (proj1 (str_in_true _ _)). reflexivity.
  - apply Hshort. right. vm_compute. reflexivity.
Defined.

(** C8 as stated fails on a short text: "fr" is a term of the fashion list
    and is contained in the lowercased text "fr", yet nothing is emitted,
    since the text has fewer than three characters. *)
Lemma short_text_emits_nothing :
  In "fr" fashion_whitelist
  /\ Py.contains "fr" (Py.lower "fr") = true
  /\ extract_slang_candidates unit false no_lookup no_match
       fashion_whitelist gen_alpha_terms "fr" "reddit" tt
     = ([], tt).
Proof.
  split; [apply (proj1 (str_in_true _ _)); reflexivity|].
  split; reflexivity.
Qed.

(** ** What every reachable store satisfies *)

Lemma update_terms_column {B : Type} (column : TermRow -> B)
      (p : TermRow -> bool) (f : TermRow -> TermRow) (rows : list TermRow) :
  (forall r, column (f r) = column r) ->
  map column (update_terms p f rows) = map column rows.
Proof.
  intros H. unfold update_terms. rewrite map_map. apply map_ext.
  intros r. destruct (p r); [apply H | reflexivity].
Qed.

Lemma update_terms_statuses (p : TermRow -> bool) (f : TermRow -> TermRow)
      (rows : list TermRow) (valid : string -> Prop) :
  (forall r, valid (st_approval_status r) -> valid (st_approval_status (f r))) ->
  Forall valid (map st_approval_status rows) ->
  Forall valid (map st_approval_status (update_terms p f rows)).
Proof.
  intros Hf. unfold update_terms. rewrite !Forall_map.
  apply Forall_impl. intros r Hr. destruct (p r); [now apply Hf | exact Hr].
Qed.

(** An UPDATE of [slang_terms] that leaves [id] and [term] alone and writes
    a status of the workflow keeps the store in order. *)
Lemma store_ok_update (p : TermRow -> bool) (f : TermRow -> TermRow)
      (db : SlangDatabase) :
  (forall r, st_id (f r) = st_id r) ->
  (forall r, st_term (f r) = st_term r) ->
  (forall r, In (st_approval_status r) ["pending"; "approved"; "rejected"] ->
             In (st_approval_status (f r)) ["pending"; "approved"; "rejected"]) ->
  store_ok db ->
  store_ok (mkDb (update_terms p f (slang_terms db)) (mentions db)
                 (daily_trends db)).
Proof.
  intros Hid Hterm Hstatus ([Hterms Hids] & Hkeys & Hst & Hrefer & Hbound & Hm & Htr).
  unfold store_ok, schema_ok, keys_normalized, statuses_valid, mentions_refer,
    contents_bounded.
  cbn [slang_terms mentions daily_trends].
  rewrite (update_terms_column st_term), (update_terms_column st_id); auto.
  repeat split; auto.
  now apply update_terms_statuses.
Qed.

Lemma store_ok_init : store_ok init_database.
Proof.
  unfold store_ok, schema_ok, keys_normalized, statuses_valid, mentions_refer,
    contents_bounded. simpl. repeat split; constructor.
Qed.

Lemma store_ok_add_term (term : string) (definition : option string)
      (category : string) (now : Timestamp) (db : SlangDatabase) :
  store_ok db -> store_ok (snd (add_term term definition category now db)).
Proof.
  intros Hok. pose proof Hok as ([Hterms Hids] & Hkeys & Hst & Hrefer & Hbound & Hm & Htr).
  unfold add_term.
  destruct (select_term (normalize term) db) as [r|] eqn:E.
  - destruct (better_definition definition (st_definition r)); [|exact Hok].
    cbn [snd]. apply store_ok_update; auto.
  - cbn [snd].
    unfold store_ok, schema_ok, keys_normalized, statuses_valid, mentions_refer,
      contents_bounded.
    cbn [slang_terms mentions daily_trends]. rewrite !map_app. cbn [map].
    split; [split|].
    + apply NoDup_app_fresh; [exact Hterms|].
      rewrite in_map_iff. intros (r & Hr & Hin).
      rewrite select_term_None in E. now apply (E r Hin).
    + apply NoDup_app_fresh; [exact Hids | apply next_rowid_fresh].
    + split; [|split; [|split; [|split; [|split]]]]; auto.
      * apply Forall_app. split; [exact Hkeys|].
        constructor; [apply normalize_idempotent | constructor].
      * apply Forall_app. split; [exact Hst|].
        constructor; [now left | constructor].
      * eapply Forall_impl; [|exact Hrefer].
        intros m Hin. apply in_or_app. now left.
Qed.

Lemma store_ok_update_term_definition (term definition : string)
      (db : SlangDatabase) :
  store_ok db -> store_ok (snd (update_term_definition term definition db)).
Proof. intros Hok. unfold update_term_definition. cbn [snd]. now apply store_ok_update. Qed.

Lemma store_ok_approve_term (term approved_by : string) (now : Timestamp)
      (db : SlangDatabase) :
  store_ok db -> store_ok (snd (approve_term term approved_by now db)).
Proof.
  intros Hok. unfold approve_term. cbn [snd]. apply store_ok_update; auto.
  intros r _. simpl. tauto.
Qed.

Lemma store_ok_reject_term (term reason rejected_by : string) (now : Timestamp)
      (db : SlangDatabase) :
  store_ok db -> store_ok (snd (reject_term term reason rejected_by now db)).
Proof.
  intros Hok. unfold reject_term. cbn [snd]. apply store_ok_update; auto.
  intros r _. simpl. tauto.
Qed.

Lemma store_ok_add_mention (term platform content : string) (engagement : Z)
      (now : Timestamp) (db : SlangDatabase) :
  store_ok db ->
  store_ok (snd (add_mention term platform content engagement now db)).
Proof.
  intros Hok. unfold add_mention.
  pose proof (store_ok_add_term term None "general" now db Hok) as Hok1.
  destruct (add_term_known term None "general" now db) as (r & Hr & _ & Hid).
  destruct (add_term term None "general" now db) as [term_id db1].
  destruct (sqlite_integer engagement); cbn [fst snd] in *; [|exact Hok1].
  destruct Hok1 as (Hschema & Hkeys & Hst & Hrefer & Hbound & Hm & Htr).
  unfold store_ok, schema_ok, keys_normalized, statuses_valid, mentions_refer,
    contents_bounded in *.
  cbn [slang_terms mentions daily_trends].
  split; [exact Hschema|]. split; [exact Hkeys|]. split; [exact Hst|].
  split; [|split; [|split]]; auto.
  - apply Forall_app. split; [exact Hrefer|].
    constructor; [|constructor]. cbn [m_term_id]. rewrite <- Hid. now apply in_map.
  - apply Forall_app. split; [exact Hbound|].
    constructor; [|constructor]. cbn [m_content].
    unfold Py.len. rewrite length_take. lia.
  - rewrite map_app. cbn [map m_id].
    apply NoDup_app_fresh; [exact Hm | apply next_rowid_fresh].
Qed.

Lemma filter_column_In {A B : Type} (column : A -> B) (keep : A -> bool)
      (rows : list A) (x : B) :
  In x (map column (filter keep rows)) -> In x (map column rows).
Proof.
  rewrite !in_map_iff. intros (r & Hr & Hin). apply filter_In in Hin.
  exists r. tauto.
Qed.

Lemma NoDup_filter_column {A B : Type} (column : A -> B) (keep : A -> bool)
      (rows : list A) :
  NoDup (map column rows) -> NoDup (map column (filter keep rows)).
Proof.
  intros Hnd. induction rows as [|x rows IH]; simpl; [constructor|].
  simpl in Hnd. apply NoDup_cons_iff in Hnd. destruct Hnd as [Hx Hnd].
  destruct (keep x); simpl; [|now apply IH].
  apply NoDup_cons_iff. split; [|now apply IH].
  intros Hin. apply Hx. eapply filter_column_In. exact Hin.
Qed.

Lemma Forall_filter_column {A B : Type} (column : A -> B) (keep : A -> bool)
      (rows : list A) (P : B -> Prop) :
  Forall P (map column rows) -> Forall P (map column (filter keep rows)).
Proof.
  rewrite !Forall_forall. intros H x Hx. apply H.
  eapply filter_column_In. exact Hx.
Qed.

Lemma store_ok_delete_term (term : string) (db : SlangDatabase) :
  store_ok db -> store_ok (snd (delete_term term db)).
Proof.
  intros Hok. unfold delete_term.
  destruct (select_term (normalize term) db) as [r|]; [|exact Hok].
  destruct Hok as ([Hterms Hids] & Hkeys & Hst & Hrefer & Hbound & Hm & Htr).
  cbn [snd].
  unfold store_ok, schema_ok, keys_normalized, statuses_valid, mentions_refer,
    contents_bounded in *.
  cbn [slang_terms mentions daily_trends].
  split; [split; now apply NoDup_filter_column|].
  split; [now apply Forall_filter_column|].
  split; [now apply Forall_filter_column|].
  split; [|split; [|split]].
  - rewrite Forall_forall in *. intros m Hm'. apply filter_In in Hm'.
    destruct Hm' as [Hin Hne]. specialize (Hrefer m Hin).
    apply in_map_iff in Hrefer. destruct Hrefer as (x & Hx & Hxin).
    apply in_map_iff. exists x. split; [exact Hx|].
    apply filter_In. split; [exact Hxin|]. now rewrite Hx.
  - rewrite Forall_forall in *. intros m Hm'. apply filter_In in Hm'.
    now apply Hbound.
  - now apply (NoDup_filter_column m_id).
  - now rewrite Htr.
Qed.

Lemma store_ok_bulk_delete_terms (terms : list string) :
  forall db, store_ok db -> store_ok (snd (bulk_delete_terms terms db)).
Proof.
  induction terms as [|term rest IH]; intros db Hok; [exact Hok|].
  cbn [bulk_delete_terms].
  pose proof (store_ok_delete_term term db Hok) as H1.
  destruct (delete_term term db) as [ok db1]. cbn [snd] in H1.
  specialize (IH db1 H1).
  destruct (bulk_delete_terms rest db1) as [n db2]. exact IH.
Qed.

Lemma store_ok_bulk_approve_terms (terms : list string) (approved_by : string) :
  forall clock db,
    store_ok db -> store_ok (snd (bulk_approve_terms terms approved_by clock db)).
Proof.
  induction terms as [|term rest IH]; intros clock db Hok; [exact Hok|].
  cbn [bulk_approve_terms].
  match goal with
  | |- context [bulk_approve_terms rest approved_by ?c ?d] =>
      assert (H1 : store_ok d);
      [|specialize (IH c d H1);
        destruct (bulk_approve_terms rest approved_by c d) as [n db2]; exact IH]
  end.
  apply store_ok_update; auto. intros r _. simpl. tauto.
Qed.

Lemma store_ok_cleanup_database (dry_run : bool) (db : SlangDatabase) :
  store_ok db -> store_ok (snd (cleanup_database dry_run db)).
Proof.
  intros Hok. unfold cleanup_database. destruct dry_run; [exact Hok|].
  pose proof (store_ok_bulk_delete_terms (cleanup_candidates db) db Hok) as H.
  destruct (bulk_delete_terms (cleanup_candidates db) db) as [n db']. exact H.
Qed.

Lemma store_ok_run_call (db : SlangDatabase) (c : Call) :
  store_ok db -> store_ok (run_call db c).
Proof.
  intros Hok. destruct c; cbn [run_call].
  - now apply store_ok_add_term.
  - now apply store_ok_update_term_definition.
  - now apply store_ok_add_mention.
  - now apply store_ok_approve_term.
  - now apply store_ok_reject_term.
  - now apply store_ok_delete_term.
  - now apply store_ok_bulk_delete_terms.
  - now apply store_ok_bulk_approve_terms.
  - now apply store_ok_cleanup_database.
Qed.

Lemma store_ok_run_calls (calls : list Call) : store_ok (run_calls calls).
Proof.
  unfold run_calls. apply fold_left_invariant; [|apply store_ok_init].
  intros db c _. apply store_ok_run_call.
Qed.

(** X1.  Whatever sequence of writing methods is called on a fresh store,
    no two term rows share a key and no two share an id: the UNIQUE and
    PRIMARY KEY constraints of [slang_terms] hold, and so does the primary
    key of [mentions]. *)
Theorem reachable_schema_ok (calls : list Call) :
  schema_ok (run_calls calls)
  /\ NoDup (map m_id (mentions (run_calls calls))).
Proof.
  destruct (store_ok_run_calls calls) as (H & _ & _ & _ & _ & Hm & _).
  now split.
Qed.

(** X2.  Every key that the methods store is lowercased and stripped: for
    every term row of a reachable store, normalizing its key gives the key
    back. *)
Theorem reachable_keys_normalized (calls : list Call) (r : TermRow) :
  In r (slang_terms (run_calls calls)) -> normalize (st_term r) = st_term r.
Proof.
  destruct (store_ok_run_calls calls) as (_ & H & _).
  unfold keys_normalized in H. rewrite Forall_map, Forall_forall in H.
  apply H.
Qed.

(** X3.  In a reachable store every mention refers to a term row that is
    stored: no method leaves a mention behind without its term, and every
    stored content has at most 500 characters. *)
Theorem reachable_mentions_refer (calls : list Call) (m : MentionRow) :
  In m (mentions (run_calls calls)) ->
  (exists r, In r (slang_terms (run_calls calls)) /\ st_id r = m_term_id m)
  /\ Py.len (m_content m) <= 500.
Proof.
  destruct (store_ok_run_calls calls) as (_ & _ & _ & Hrefer & Hbound & _).
  unfold mentions_refer, contents_bounded in *.
  rewrite Forall_forall in Hrefer, Hbound. intros Hin. split.
  - specialize (Hrefer m Hin). apply in_map_iff in Hrefer.
    destruct Hrefer as (r & Hr & Hrin). now exists r.
  - now apply Hbound.
Qed.

(** X4.  In a reachable store the status of every term is "pending",
    "approved" or "rejected", and the table [daily_trends] is empty: no
    method writes it. *)
Theorem reachable_statuses_valid (calls : list Call) :
  (forall r, In r (slang_terms (run_calls calls)) ->
             In (st_approval_status r) ["pending"; "approved"; "rejected"])
  /\ daily_trends (run_calls calls) = [].
Proof.
  destruct (store_ok_run_calls calls) as (_ & _ & H & _ & _ & _ & Htr).
  split; [|exact Htr].
  unfold statuses_valid in H. rewrite Forall_map, Forall_forall in H. exact H.
Qed.

Lemma reachable_keys_normalized_witness : normalize "drip" = "drip".
Proof.
  apply (reachable_keys_normalized drip_calls
           (mkTermRow 1 "drip" (Some "Fashionable clothing") "fashion" "pending"
                      None None None 100)).
  left. reflexivity.
Defined.

Lemma reachable_mentions_refer_witness :
  (exists r, In r (slang_terms (run_calls drip_calls)) /\ st_id r = 1)
  /\ Py.len "drip check" <= 500.
Proof.
  apply (reachable_mentions_refer drip_calls
           (mkMentionRow 1 1 "reddit" "drip check" 5 101)).
  left. reflexivity.
Defined.

Lemma reachable_statuses_valid_witness :
  In "pending" ["pending"; "approved"; "rejected"].
Proof.
  apply (proj1 (reachable_statuses_valid drip_calls)
               (mkTermRow 1 "drip" (Some "Fashionable clothing") "fashion"
                          "pending" None None None 100)).
  left. reflexivity.
Defined.

(** ** Insert and look up *)

Lemma get_term_by_id_unique (db : SlangDatabase) (r : TermRow) :
  NoDup (map st_id (slang_terms db)) -> In r (slang_terms db) ->
  get_term_by_id (st_id r) db = Some r.
Proof.
  unfold get_term_by_id. induction (slang_terms db) as [|x rows IH]; simpl;
    intros Hnd Hin; [contradiction|].
  apply NoDup_cons_iff in Hnd. destruct Hnd as [Hx Hnd].
  destruct Hin as [->|Hin]; [now rewrite Z.eqb_refl|].
  destruct (st_id x =? st_id r) eqn:E; [|now apply IH].
  apply Z.eqb_eq in E. elim Hx. rewrite E. now apply in_map.
Qed.

(** X5.  On a store that satisfies its schema, the id that [add_term]
    returns leads back to the term: [get_term_by_id] on it and the lookup
    by the normalized name find one and the same row, whose key is the
    normalized name; for a term that was unknown, that row holds the given
    definition and category, status "pending" and no approval data. *)
Theorem add_term_then_lookup
        (term : string) (definition : option string) (category : string)
        (now : Timestamp) (db : SlangDatabase) :
  schema_ok db ->
  exists r,
    get_term_by_id (fst (add_term term definition category now db))
                   (snd (add_term term definition category now db)) = Some r
    /\ select_term (normalize term)
                   (snd (add_term term definition category now db)) = Some r
    /\ st_term r = normalize term
    /\ (~ known term db ->
        r = mkTermRow (fst (add_term term definition category now db))
                      (normalize term) definition category "pending"
                      None None None now).
Proof.
  intros Hok.
  pose proof (add_term_schema_ok term definition category now db Hok) as [Hterms Hids].
  destruct (add_term_known term definition category now db) as (r & Hr & Hkey & Hid).
  exists r. split; [|split; [|split]].
  - rewrite <- Hid. now apply get_term_by_id_unique.
  - rewrite <- Hkey. now apply select_term_unique.
  - exact Hkey.
  - intros Hnew. rewrite (add_term_new term definition category now db Hnew) in *.
    cbn [fst snd slang_terms] in *.
    apply in_app_or in Hr. destruct Hr as [Hr|[<-|[]]]; [|reflexivity].
    elim (next_rowid_fresh (map st_id (slang_terms db))).
    rewrite <- Hid. now apply in_map.
Qed.

Lemma add_term_then_lookup_witness :
  exists r,
    get_term_by_id (fst (add_term "Fit" (Some "An outfit") "fashion" 102 drip_db))
                   (snd (add_term "Fit" (Some "An outfit") "fashion" 102 drip_db))
    = Some r
    /\ select_term (normalize "Fit")
                   (snd (add_term "Fit" (Some "An outfit") "fashion" 102 drip_db))
       = Some r
    /\ st_term r = normalize "Fit"
    /\ (~ known "Fit" drip_db ->
        r = mkTermRow (fst (add_term "Fit" (Some "An outfit") "fashion" 102 drip_db))
                      (normalize "Fit") (Some "An outfit") "fashion" "pending"
                      None None None 102).
Proof.
  apply add_term_then_lookup. split; repeat constructor; simpl; tauto.
Defined.

(** ** [update_term_definition] *)

(** The rows after [update_term_definition], row by row. *)
Lemma update_term_definition_rows (term definition : string) (db : SlangDatabase) :
  Forall2
    (fun r r' =>
       same_but_definition r r'
       /\ if String.eqb (st_term r) (normalize term)
          then st_definition r' = Some definition
          else r' = r)
    (slang_terms db)
    (slang_terms (snd (update_term_definition term definition db))).
Proof.
  unfold update_term_definition. cbn [snd slang_terms].
  eapply Forall2_impl; [|apply update_terms_Forall2].
  intros r r' ->. unfold same_but_definition.
  destruct (String.eqb (st_term r) (normalize term)); simpl; repeat split.
Qed.

(** X6.  [update_term_definition] returns true exactly when the normalized
    name is stored, and false leaves the store as it was.  On the matching
    row it writes the new definition whatever the old and new ones are (no
    placeholder or length test as in [add_term]), and changes no other
    column, row or table; afterwards [_clean_definition] of the stored
    value is that of the new definition. *)
Theorem update_term_definition_overwrites
        (term definition : string) (db : SlangDatabase) :
  let res := update_term_definition term definition db in
  (fst res = true <-> known term db)
  /\ (fst res = false -> snd res = db)
  /\ mentions (snd res) = mentions db
  /\ daily_trends (snd res) = daily_trends db
  /\ Forall2
       (fun r r' =>
          same_but_definition r r'
          /\ if String.eqb (st_term r) (normalize term)
             then st_definition r' = Some definition
             else r' = r)
       (slang_terms db) (slang_terms (snd res))
  /\ (forall r', In r' (slang_terms (snd res)) -> st_term r' = normalize term ->
                 _clean_definition (st_definition r')
                 = _clean_definition (Some definition)).
Proof.
  intros res. subst res.
  pose proof (update_term_definition_rows term definition db) as Hrows.
  unfold update_term_definition in *. cbn [fst snd] in *.
  split; [rewrite rowcount_positive; apply hit_known|].
  split.
  { intros H. rewrite update_terms_miss; [now destruct db|].
    now apply rowcount_zero. }
  split; [reflexivity|]. split; [reflexivity|]. split; [exact Hrows|].
  intros r' Hin Hkey. cbn [slang_terms] in Hin.
  destruct (Forall2_In_r _ _ _ _ Hrows Hin) as (r & _ & Hsame & Hcase).
  destruct Hsame as (_ & Ht & _). rewrite Hkey in Ht.
  rewrite <- Ht, String.eqb_refl in Hcase. now rewrite Hcase.
Qed.

Lemma update_term_definition_overwrites_witness :
  fst (update_term_definition " DRIP" "ok" drip_db) = true
  /\ snd (update_term_definition "fit" "ok" drip_db) = drip_db.
Proof.
  split.
  - apply (update_term_definition_overwrites " DRIP" "ok" drip_db).
    exists (mkTermRow 1 "drip" (Some "Fashionable clothing") "fashion" "pending"
                      None None None 100).
    split; [now left | reflexivity].
  - apply (update_term_definition_overwrites "fit" "ok" drip_db). reflexivity.
Defined.

(** ** Mentions and the trending view *)

Lemma mention_count_append (term_id : Z) (db : SlangDatabase) (m : MentionRow)
      (rows : list TermRow) (trends : list TrendRow) :
  mention_count term_id (mkDb rows (mentions db ++ [m]) trends)
  = mention_count term_id db + (if m_term_id m =? term_id then 1 else 0).
Proof.
  unfold mention_count, mentions_of. cbn [mentions].
  rewrite filter_app, List.length_app. simpl.
  destruct (m_term_id m =? term_id); simpl; lia.
Qed.

Lemma add_term_mentions (term : string) (definition : option string)
      (category : string) (now : Timestamp) (db : SlangDatabase) :
  mentions (snd (add_term term definition category now db)) = mentions db.
Proof.
  unfold add_term. destruct (select_term (normalize term) db) as [r|];
    [destruct (better_definition definition (st_definition r))|]; reflexivity.
Qed.

(** X7.  With an engagement that SQLite can store, a 64-bit integer,
    [add_mention] returns true, raises the mention count of the term's id
    by exactly one and leaves the count of every other id as it was;
    afterwards the term is listed by [get_trending_terms] with status
    "all", provided the limit is not smaller than the number of stored
    terms.  With any other engagement it raises [OverflowError] when
    [add_term] has already stored the term: no count changes, and the term
    is left in the store as [add_term] wrote it, without the mention. *)
Theorem add_mention_counts
        (term platform content : string) (engagement : Z) (now : Timestamp)
        (db : SlangDatabase) :
  let term_id := fst (add_term term None "general" now db) in
  let res := add_mention term platform content engagement now db in
  (sqlite_integer engagement = true ->
   fst res = Returned true
   /\ mention_count term_id (snd res) = mention_count term_id db + 1
   /\ (forall other, other <> term_id ->
                     mention_count other (snd res) = mention_count other db)
   /\ (forall limit,
          Z.of_nat (List.length (slang_terms (snd res))) <= limit ->
          In (normalize term)
             (map tr_term (get_trending_terms limit "all" (snd res)))))
  /\ (sqlite_integer engagement = false ->
      fst res = OverflowError
      /\ snd res = snd (add_term term None "general" now db)
      /\ (forall i, mention_count i (snd res) = mention_count i db)
      /\ known term (snd res)).
Proof.
  intros term_id res. subst term_id res. unfold add_mention.
  pose proof (add_term_mentions term None "general" now db) as Hm.
  destruct (add_term_known term None "general" now db) as (r & Hr & Hkey & Hid).
  destruct (add_term term None "general" now db) as [term_id db1].
  cbn [fst snd] in *.
  split; intros Hfits; rewrite Hfits; cbn [fst snd].
  2:{ split; [reflexivity|]. split; [reflexivity|]. split.
      - intros i. unfold mention_count, mentions_of. now rewrite Hm.
      - exists r. split; [exact Hr | exact Hkey]. }
  assert (Hcount : forall i,
             mention_count i
               (mkDb (slang_terms db1)
                     (mentions db1 ++
                        [mkMentionRow (next_rowid (map m_id (mentions db1)))
                                      term_id platform (Py.take 500 content)
                                      engagement now])
                     (daily_trends db1))
             = mention_count i db + (if term_id =? i then 1 else 0)).
  { intros i. rewrite mention_count_append. cbn [m_term_id].
    unfold mention_count, mentions_of. now rewrite Hm. }
  split; [reflexivity|]. split; [|split].
  - rewrite Hcount, Z.eqb_refl. reflexivity.
  - intros other Hne. rewrite Hcount.
    destruct (term_id =? other) eqn:E; [|lia].
    apply Z.eqb_eq in E. now elim Hne.
  - intros limit Hlimit. unfold get_trending_terms.
    rewrite map_map. apply in_map_iff.
    exists (group_of
              (mkDb (slang_terms db1)
                    (mentions db1 ++
                       [mkMentionRow (next_rowid (map m_id (mentions db1)))
                                     term_id platform (Py.take 500 content)
                                     engagement now])
                    (daily_trends db1)) r).
    split; [exact Hkey|].
    rewrite sql_limit_all.
    + apply order_by_In, filter_In. split.
      * apply filter_In. split; [|reflexivity].
        apply term_groups_In. exists r. split; [exact Hr | reflexivity].
      * cbn [group_of g_mentions]. rewrite Hid, Hcount, Z.eqb_refl.
        apply Z.ltb_lt. unfold mention_count. lia.
    + rewrite order_by_length.
      etransitivity; [|exact Hlimit]. apply inj_le.
      etransitivity; [apply filter_length_le|].
      etransitivity; [apply filter_length_le|].
      unfold term_groups. rewrite length_map. cbn [slang_terms]. lia.
Qed.

Lemma add_mention_counts_witness :
  In (normalize "Rizz")
     (map tr_term
          (get_trending_terms 20 "all"
             (snd (add_mention "Rizz" "reddit" "he has rizz" 3 102 drip_db))))
  /\ fst (add_mention "Rizz" "reddit" "he has rizz" (2 ^ 63) 102 drip_db)
     = OverflowError
  /\ mention_count 2 (snd (add_mention "Rizz" "reddit" "he has rizz" (2 ^ 63)
                                       102 drip_db))
     = mention_count 2 drip_db.
Proof.
  destruct (add_mention_counts "Rizz" "reddit" "he has rizz" 3 102 drip_db)
    as [Hfits _].
  destruct (add_mention_counts "Rizz" "reddit" "he has rizz" (2 ^ 63) 102 drip_db)
    as [_ Hraises].
  destruct (Hfits eq_refl) as (_ & _ & _ & Hlisted).
  destruct (Hraises eq_refl) as (Hexc & _ & Hsame & _).
  split; [|split].
  - apply Hlisted. vm_compute. discriminate.
  - exact Hexc.
  - apply Hsame.
Defined.

(** X8.  The public view is the approved part of the dashboard view:
    [get_approved_terms(limit)] is [get_trending_terms(limit, "approved")]
    with the approval columns dropped, entry for entry and in the same
    order. *)
Theorem approved_is_trending_approved (limit : Z) (db : SlangDatabase) :
  get_approved_terms limit db
  = map as_approved_entry (get_trending_terms limit "approved" db).
Proof.
  unfold get_approved_terms, get_trending_terms. rewrite map_map.
  f_equal.
Qed.

(** ** The order and the bounds of the views *)

Lemma insert_by_sorted {A : Type} (before : A -> A -> bool) (R : A -> A -> Prop)
      (x : A) (l : list A) :
  (forall a b, before a b = true -> R a b) ->
  (forall a b, before a b = false -> R b a) ->
  (forall a b c, R a b -> R b c -> R a c) ->
  StronglySorted R l -> StronglySorted R (insert_by before x l).
Proof.
  intros Htrue Hfalse Htrans. induction 1 as [|y l Hsorted IH Hall]; simpl.
  - repeat constructor.
  - destruct (before y x) eqn:E.
    + constructor; [exact IH|].
      apply Forall_forall. intros z Hz.
      apply (Permutation_in _ (Permutation_sym (insert_by_perm _ x l))) in Hz.
      destruct Hz as [<-|Hz]; [now apply Htrue|].
      rewrite Forall_forall in Hall. now apply Hall.
    + constructor; [now constructor|].
      constructor; [now apply Hfalse|].
      eapply Forall_impl; [|exact Hall].
      intros z Hz. eapply Htrans; [apply Hfalse; exact E | exact Hz].
Qed.

Lemma order_by_sorted {A : Type} (before : A -> A -> bool) (R : A -> A -> Prop)
      (l : list A) :
  (forall a b, before a b = true -> R a b) ->
  (forall a b, before a b = false -> R b a) ->
  (forall a b c, R a b -> R b c -> R a c) ->
  StronglySorted R (order_by before l).
Proof.
  intros Htrue Hfalse Htrans. induction l as [|x l IH]; simpl; [constructor|].
  now apply insert_by_sorted.
Qed.

Lemma StronglySorted_map {A B : Type} (R : B -> B -> Prop) (f : A -> B)
      (l : list A) :
  StronglySorted (fun a b => R (f a) (f b)) l -> StronglySorted R (map f l).
Proof.
  induction 1 as [|x l Hsorted IH Hall]; simpl; constructor; [exact IH|].
  rewrite Forall_map. exact Hall.
Qed.

Lemma sql_limit_sorted {A : Type} (R : A -> A -> Prop) (limit : Z) (l : list A) :
  StronglySorted R l -> StronglySorted R (sql_limit limit l).
Proof.
  unfold sql_limit. destruct (limit <? 0); [trivial | apply StronglySorted_firstn].
Qed.

Lemma sql_limit_length {A : Type} (limit : Z) (l : list A) :
  0 <= limit -> Z.of_nat (List.length (sql_limit limit l)) <= limit.
Proof.
  intros H. unfold sql_limit. destruct (limit <? 0) eqn:E.
  - apply Z.ltb_lt in E. lia.
  - rewrite length_firstn. lia.
Qed.

Lemma sql_limit_NoDup {A : Type} (limit : Z) (l : list A) :
  NoDup l -> NoDup (sql_limit limit l).
Proof.
  unfold sql_limit. destruct (limit <? 0); [trivial | apply NoDup_firstn].
Qed.

Lemma sql_limit_map {A B : Type} (f : A -> B) (limit : Z) (l : list A) :
  map f (sql_limit limit l) = sql_limit limit (map f l).
Proof.
  unfold sql_limit. destruct (limit <? 0); [reflexivity | symmetry; apply firstn_map].
Qed.

(** Ordering and limiting a list keeps a column free of duplicates. *)
Lemma view_column_NoDup {A B : Type} (column : A -> B)
      (before : A -> A -> bool) (limit : Z) (rows : list A) :
  NoDup (map column rows) ->
  NoDup (map column (sql_limit limit (order_by before rows))).
Proof.
  intros Hnd. rewrite sql_limit_map. apply sql_limit_NoDup.
  eapply Permutation_NoDup; [apply Permutation_map, order_by_perm | exact Hnd].
Qed.

(** The groups come one for each term row, so their keys and ids are as
    distinct as those of the rows. *)
Lemma groups_column_NoDup {B : Type} (column : TermRow -> B) (db : SlangDatabase) :
  NoDup (map column (slang_terms db)) ->
  NoDup (map (fun g => column (g_st g)) (term_groups db)).
Proof. intros Hnd. unfold term_groups. rewrite map_map. exact Hnd. Qed.

Lemma mention_count_nonneg (term_id : Z) (db : SlangDatabase) :
  0 <= mention_count term_id db.
Proof. unfold mention_count. lia. Qed.

(** X9.  The list [get_trending_terms] returns is in descending order of
    mentions and, for a limit that is not negative, no longer than the
    limit; every entry has at least one mention, its count is the number
    of mention rows of its id, and under a status filter other than "all"
    its status is the one asked for; on a store that satisfies its schema
    no term and no id is listed twice. *)
Theorem trending_listing (limit : Z) (status : string) (db : SlangDatabase) :
  StronglySorted (fun a b => tr_mentions b <= tr_mentions a)
                 (get_trending_terms limit status db)
  /\ (0 <= limit ->
      Z.of_nat (List.length (get_trending_terms limit status db)) <= limit)
  /\ (forall e, In e (get_trending_terms limit status db) ->
                1 <= tr_mentions e
                /\ tr_mentions e = mention_count (tr_id e) db
                /\ (status <> "all" -> tr_approval_status e = status))
  /\ (schema_ok db ->
      NoDup (map tr_term (get_trending_terms limit status db))
      /\ NoDup (map tr_id (get_trending_terms limit status db))).
Proof.
  split; [|split; [|split]].
  - unfold get_trending_terms. apply StronglySorted_map.
    apply sql_limit_sorted.
    apply (order_by_sorted by_mentions_avg_desc
             (fun a b => g_mentions b <= g_mentions a)).
    + intros a b H. unfold by_mentions_avg_desc in H.
      apply orb_prop in H. destruct H as [H|H].
      * apply Z.ltb_lt in H. lia.
      * apply andb_prop in H. destruct H as [H _]. apply Z.eqb_eq in H. lia.
    + intros a b H. unfold by_mentions_avg_desc in H.
      apply orb_false_elim in H. destruct H as [H _]. apply Z.ltb_ge in H. lia.
    + intros a b c H1 H2. lia.
  - intros Hlimit. unfold get_trending_terms. rewrite length_map.
    now apply sql_limit_length.
  - intros e He. apply trending_In in He.
    destruct He as (r & Hr & -> & Hpos & Hst).
    cbn. split; [lia|]. split; [reflexivity|].
    intros Hne. unfold status_filter in Hst.
    destruct (String.eqb status "all") eqn:E.
    + apply String.eqb_eq in E. contradiction.
    + cbn in Hst. now apply String.eqb_eq in Hst.
  - intros [Hterms Hids]. unfold get_trending_terms. rewrite !map_map. split.
    + apply (view_column_NoDup (fun g => st_term (g_st g))).
      do 2 apply NoDup_filter_column. now apply groups_column_NoDup.
    + apply (view_column_NoDup (fun g => st_id (g_st g))).
      do 2 apply NoDup_filter_column. now apply groups_column_NoDup.
Qed.

Lemma trending_listing_witness :
  Z.of_nat (List.length (get_trending_terms 0 "all" drip_db)) <= 0
  /\ NoDup (map tr_term (get_trending_terms 10 "pending" drip_db)).
Proof.
  split.
  - apply (trending_listing 0 "all" drip_db). lia.
  - apply (trending_listing 10 "pending" drip_db).
    split; repeat constructor; simpl; tauto.
Defined.

(** X10.  [get_low_value_terms] lists exactly the stored terms whose
    mention count is at most the bound, each with its count and status, in
    ascending order of mentions; a negative bound gives the empty list, a
    larger bound gives every entry of a smaller one, and terms without any
    mention are listed for every bound from 0 on. *)
Theorem low_value_listing (max_mentions : Z) (db : SlangDatabase) :
  (forall e,
      In e (get_low_value_terms max_mentions db) <->
      exists r, In r (slang_terms db)
                /\ e = mkLowValue (st_term r) (or_no_definition (st_definition r))
                                  (mention_count (st_id r) db)
                                  (st_approval_status r)
                /\ mention_count (st_id r) db <= max_mentions)
  /\ StronglySorted (fun a b => lv_mentions a <= lv_mentions b)
                    (get_low_value_terms max_mentions db)
  /\ (max_mentions < 0 -> get_low_value_terms max_mentions db = [])
  /\ (forall larger e,
         max_mentions <= larger ->
         In e (get_low_value_terms max_mentions db) ->
         In e (get_low_value_terms larger db)).
Proof.
  split; [intros e; apply low_value_In|]. split; [|split].
  - unfold get_low_value_terms. apply StronglySorted_map.
    apply (order_by_sorted by_mentions_asc_term
             (fun a b => g_mentions a <= g_mentions b)).
    + intros a b H. unfold by_mentions_asc_term in H.
      apply orb_prop in H. destruct H as [H|H].
      * apply Z.ltb_lt in H. lia.
      * apply andb_prop in H. destruct H as [H _]. apply Z.eqb_eq in H. lia.
    + intros a b H. unfold by_mentions_asc_term in H.
      apply orb_false_elim in H. destruct H as [H _]. apply Z.ltb_ge in H. lia.
    + intros a b c H1 H2. lia.
  - intros Hneg.
    destruct (get_low_value_terms max_mentions db) as [|e l] eqn:E; [reflexivity|].
    assert (He : In e (get_low_value_terms max_mentions db)) by (rewrite E; now left).
    apply low_value_In in He. destruct He as (r & _ & _ & Hle).
    pose proof (mention_count_nonneg (st_id r) db). lia.
  - intros larger e Hle He. apply low_value_In in He.
    destruct He as (r & Hr & -> & Hc). apply low_value_In.
    exists r. repeat split; auto. lia.
Qed.

Lemma low_value_listing_witness :
  get_low_value_terms (-1) drip_db = []
  /\ In (mkLowValue "drip" "Fashionable clothing" 1 "pending")
        (get_low_value_terms 5 drip_db).
Proof.
  destruct (low_value_listing (-1) drip_db) as (_ & _ & Hneg & _).
  destruct (low_value_listing 1 drip_db) as (_ & _ & _ & Hmono).
  split; [apply Hneg; lia|].
  apply (Hmono 5); [lia|]. left. reflexivity.
Defined.

(** ** Approval and the public view *)

(** X11.  After [reject_term] the term is in no result of
    [get_approved_terms].  After [approve_term] on a stored term that has a
    mention, [get_approved_terms] lists it whenever the limit is not
    smaller than the number of stored terms. *)
Theorem approval_controls_public_view
        (term actor reason : string) (now : Timestamp) (db : SlangDatabase) :
  (forall limit,
      ~ In (normalize term)
           (map ap_term
                (get_approved_terms limit
                   (snd (reject_term term reason actor now db)))))
  /\ (forall limit r,
         In r (slang_terms db) -> st_term r = normalize term ->
         0 < mention_count (st_id r) db ->
         Z.of_nat (List.length (slang_terms db)) <= limit ->
         In (normalize term)
            (map ap_term
                 (get_approved_terms limit
                    (snd (approve_term term actor now db))))).
Proof.
  split.
  - intros limit Hin. apply in_map_iff in Hin. destruct Hin as (e & He & Hin).
    apply approved_In in Hin. destruct Hin as (r' & Hr' & -> & _ & Hst).
    cbn in He.
    destruct (reject_term_post term reason actor now db r' Hr' He) as (Hrej & _).
    rewrite Hrej in Hst. discriminate.
  - intros limit r Hr Hkey Hpos Hlimit.
    destruct (Forall2_In_l _ _ _ _ (approve_term_rows term db actor now) Hr)
      as (r' & Hr' & Hsame & _ & Hcase).
    destruct Hsame as (Hid & Hterm & _).
    rewrite Hkey, String.eqb_refl in Hcase. destruct Hcase as (Hst & _).
    unfold get_approved_terms. rewrite map_map. apply in_map_iff.
    exists (group_of (snd (approve_term term actor now db)) r').
    split; [cbn; congruence|].
    rewrite sql_limit_all.
    + apply order_by_In, filter_In. split.
      * apply filter_In. split; [|cbn; rewrite Hst; reflexivity].
        apply term_groups_In. now exists r'.
      * cbn [group_of g_mentions]. rewrite Hid. apply Z.ltb_lt. exact Hpos.
    + rewrite order_by_length. etransitivity; [|exact Hlimit]. apply inj_le.
      etransitivity; [apply filter_length_le|].
      etransitivity; [apply filter_length_le|].
      unfold term_groups, approve_term, update_terms. cbn [snd slang_terms].
      rewrite !length_map. lia.
Qed.

Lemma approval_controls_public_view_witness :
  In (normalize "Drip")
     (map ap_term
          (get_approved_terms 10 (snd (approve_term "Drip" "admin" 102 drip_db)))).
Proof.
  apply (proj2 (approval_controls_public_view "Drip" "admin" "" 102 drip_db) 10
               (mkTermRow 1 "drip" (Some "Fashionable clothing") "fashion"
                          "pending" None None None 100)).
  - left. reflexivity.
  - reflexivity.
  - reflexivity.
  - vm_compute. discriminate.
Defined.

(** ** [cleanup_database] *)

Lemma delete_term_rows (term : string) (db : SlangDatabase) (r : TermRow) :
  schema_ok db -> In r (slang_terms db) -> st_term r = normalize term ->
  forall x, In x (slang_terms (snd (delete_term term db)))
            <-> In x (slang_terms db) /\ st_term x <> normalize term.
Proof.
  intros Hok Hin Hkey x.
  rewrite (delete_term_known term db r Hok Hin Hkey). cbn [snd slang_terms].
  destruct Hok as [Hterms Hids].
  rewrite filter_In, negb_true_iff, Z.eqb_neq. split.
  - intros [Hx Hne]. split; [exact Hx|]. intros E. apply Hne.
    rewrite <- Hkey in E.
    now rewrite (NoDup_map_inj st_term _ x r Hterms Hx Hin E).
  - intros [Hx Hne]. split; [exact Hx|]. intros E. apply Hne.
    now rewrite (NoDup_map_inj st_id _ x r Hids Hx Hin E).
Qed.

(** Deleting distinct stored keys one after the other deletes each of
    them. *)
Lemma bulk_delete_distinct (keys : list string) :
  forall db,
    schema_ok db -> NoDup keys ->
    (forall k, In k keys ->
               normalize k = k /\ exists r, In r (slang_terms db) /\ st_term r = k) ->
    fst (bulk_delete_terms keys db) = Z.of_nat (List.length keys)
    /\ forall x, In x (slang_terms (snd (bulk_delete_terms keys db)))
                 <-> In x (slang_terms db) /\ ~ In (st_term x) keys.
Proof.
  induction keys as [|k rest IH]; intros db Hok Hnd Hkeys.
  - split; [reflexivity|]. intros x. cbn. tauto.
  - apply NoDup_cons_iff in Hnd. destruct Hnd as [Hk Hnd].
    destruct (Hkeys k (or_introl eq_refl)) as (Hnorm & r & Hr & Hrk).
    assert (Hkey : st_term r = normalize k) by congruence.
    pose proof (delete_term_rows k db r Hok Hr Hkey) as Hrows.
    pose proof (delete_term_schema_ok k db Hok) as Hok1.
    cbn [bulk_delete_terms].
    rewrite (delete_term_known k db r Hok Hr Hkey) in *.
    cbn [snd] in Hrows, Hok1.
    match goal with
    | |- context [bulk_delete_terms rest ?d] =>
        destruct (IH d Hok1 Hnd) as [Hcount Hrest]
    end.
    { intros k' Hk'. destruct (Hkeys k' (or_intror Hk')) as (Hn' & r' & Hr' & Hrk').
      split; [exact Hn'|]. exists r'. split; [|exact Hrk'].
      apply Hrows. split; [exact Hr'|].
      rewrite Hrk', Hnorm. intros E. apply Hk. rewrite <- E. exact Hk'. }
    match goal with
    | |- context [bulk_delete_terms rest ?d] =>
        destruct (bulk_delete_terms rest d) as [n db2]
    end.
    cbn [fst snd] in *. split.
    + rewrite Hcount. cbn [List.length]. lia.
    + intros x. rewrite Hrest, Hrows, Hnorm. cbn [In]. split.
      * intros [[Hx Hne] Hnot]. split; [exact Hx|].
        intros [E|E]; [now apply Hne | now apply Hnot].
      * intros [Hx Hnot]. split; [split; [exact Hx|]|]; intros E; apply Hnot; auto.
Qed.

Lemma low_value_terms_NoDup (max_mentions : Z) (db : SlangDatabase) :
  schema_ok db ->
  NoDup (map lv_term (get_low_value_terms max_mentions db)).
Proof.
  intros [Hterms _]. unfold get_low_value_terms. rewrite map_map.
  cbn [lv_term].
  eapply Permutation_NoDup; [apply Permutation_map, order_by_perm|].
  apply (NoDup_filter_column (fun g => st_term (g_st g))).
  now apply groups_column_NoDup.
Qed.

Lemma cleanup_candidates_In (db : SlangDatabase) (c : string) :
  In c (cleanup_candidates db) <->
  exists e p, In e (get_low_value_terms 1 db)
              /\ In p (get_placeholder_terms 200 db)
              /\ lv_term e = c /\ ph_term p = c.
Proof.
  unfold cleanup_candidates. rewrite in_map_iff. split.
  - intros (e & He & Hin). apply filter_In in Hin. destruct Hin as [Hin Hex].
    apply existsb_exists in Hex. destruct Hex as (p & Hp & E).
    apply String.eqb_eq in E. exists e, p. repeat split; congruence.
  - intros (e & p & He & Hp & Hec & Hpc). exists e. split; [exact Hec|].
    apply filter_In. split; [exact He|].
    apply existsb_exists. exists p. split; [exact Hp|].
    apply String.eqb_eq. congruence.
Qed.

(** X12.  On a store that satisfies its schema and holds normalized keys,
    every term [cleanup_database] picks is stored, has at most one mention
    and a placeholder definition; when no more than 200 terms are stored,
    every such term is picked.  A dry run reports the picked terms and
    leaves the store as it was; a real run deletes every picked term, so
    that the count of deletions equals the count of candidates, and keeps
    every other term row. *)
Theorem cleanup_database_deletes (db : SlangDatabase) :
  schema_ok db -> keys_normalized db ->
  (forall c, In c (cleanup_candidates db) ->
             exists r, In r (slang_terms db) /\ st_term r = c
                       /\ mention_count (st_id r) db <= 1
                       /\ is_placeholder (st_definition r) = true)
  /\ (Z.of_nat (List.length (slang_terms db)) <= 200 ->
      forall r, In r (slang_terms db) ->
                mention_count (st_id r) db <= 1 ->
                is_placeholder (st_definition r) = true ->
                In (st_term r) (cleanup_candidates db))
  /\ cleanup_database true db
     = (DryRun (cleanup_candidates db)
               (Z.of_nat (List.length (cleanup_candidates db))), db)
  /\ fst (cleanup_database false db)
     = Deleted (Z.of_nat (List.length (cleanup_candidates db)))
               (Z.of_nat (List.length (cleanup_candidates db)))
  /\ (forall x, In x (slang_terms (snd (cleanup_database false db)))
                <-> In x (slang_terms db)
                    /\ ~ In (st_term x) (cleanup_candidates db)).
Proof.
  intros Hok Hnorm. pose proof Hok as [Hterms Hids].
  assert (Hsound : forall c, In c (cleanup_candidates db) ->
             exists r, In r (slang_terms db) /\ st_term r = c
                       /\ mention_count (st_id r) db <= 1
                       /\ is_placeholder (st_definition r) = true).
  { intros c Hc. apply cleanup_candidates_In in Hc.
    destruct Hc as (e & p & He & Hp & Hec & Hpc).
    apply low_value_In in He. destruct He as (r & Hr & -> & Hle).
    apply placeholder_In in Hp. destruct Hp as (r' & Hr' & Hpt & _ & Hpl).
    cbn in Hec. exists r. repeat split; auto.
    assert (r' = r) as <-; [|exact Hpl].
    apply (NoDup_map_inj st_term _ r' r Hterms Hr' Hr). congruence. }
  split; [exact Hsound|]. split; [|split; [reflexivity|]].
  - intros Hsmall r Hr Hle Hpl. apply cleanup_candidates_In.
    exists (mkLowValue (st_term r) (or_no_definition (st_definition r))
                       (mention_count (st_id r) db) (st_approval_status r)).
    exists (mkPlaceholder (st_term r) (or_no_definition (st_definition r))
                          (mention_count (st_id r) db)).
    split; [apply low_value_In; exists r; auto|].
    split; [|split; reflexivity].
    unfold get_placeholder_terms. apply in_map_iff. exists (group_of db r).
    split; [reflexivity|]. rewrite sql_limit_all.
    + apply order_by_In, filter_In. split; [|exact Hpl].
      apply term_groups_In. now exists r.
    + rewrite order_by_length. etransitivity; [|exact Hsmall]. apply inj_le.
      etransitivity; [apply filter_length_le|].
      unfold term_groups. now rewrite length_map.
  - assert (Hbulk := bulk_delete_distinct (cleanup_candidates db) db Hok).
    destruct Hbulk as [Hcount Hrows].
    + unfold cleanup_candidates.
      apply (NoDup_filter_column lv_term). now apply low_value_terms_NoDup.
    + intros k Hk. destruct (Hsound k Hk) as (r & Hr & Hrk & _).
      split; [|now exists r].
      unfold keys_normalized in Hnorm. rewrite Forall_forall in Hnorm.
      apply Hnorm. rewrite <- Hrk. now apply in_map.
    + unfold cleanup_database.
      destruct (bulk_delete_terms (cleanup_candidates db) db) as [n db'].
      cbn [fst snd] in *. split; [now rewrite Hcount | exact Hrows].
Qed.

Lemma cleanup_database_deletes_witness :
  fst (cleanup_database false two_terms_db) = Deleted 1 1
  /\ In "mid" (cleanup_candidates two_terms_db).
Proof.
  assert (Hok : schema_ok two_terms_db)
    by (split; repeat constructor; simpl; intuition discriminate).
  assert (Hnorm : keys_normalized two_terms_db) by (repeat constructor).
  destruct (cleanup_database_deletes two_terms_db Hok Hnorm)
    as (_ & Hall & _ & Hrun & _).
  split; [exact Hrun|].
  apply (Hall ltac:(vm_compute; discriminate)
              (mkTermRow 2 "mid" None "general" "pending" None None None 102)).
  - right. left. reflexivity.
  - vm_compute. discriminate.
  - reflexivity.
Defined.

(** ** [get_stats] and [get_approval_stats] *)

Lemma status_counts_add_up (rows : list TermRow) :
  Forall (fun status => In status ["pending"; "approved"; "rejected"])
         (map st_approval_status rows) ->
  Z.of_nat (List.length rows)
  = rowcount (fun r => String.eqb (st_approval_status r) "approved") rows
    + rowcount (fun r => String.eqb (st_approval_status r) "pending") rows
    + rowcount (fun r => String.eqb (st_approval_status r) "rejected") rows.
Proof.
  unfold rowcount. induction rows as [|r rows IH]; intros H; [reflexivity|].
  cbn [map] in H. apply Forall_cons_iff in H. destruct H as [Hr H].
  specialize (IH H). cbn [filter List.length].
  destruct Hr as [E|[E|[E|[]]]]; rewrite <- E; cbn [String.eqb Ascii.eqb Bool.eqb];
    cbn [List.length]; lia.
Qed.

Lemma rowcount_bounds {A : Type} (p : A -> bool) (rows : list A) :
  0 <= rowcount p rows <= Z.of_nat (List.length rows).
Proof.
  unfold rowcount. pose proof (filter_length_le p rows). lia.
Qed.

Lemma dict_total_perm (d d' : list (string * Z)) :
  Permutation d d' -> dict_total d = dict_total d'.
Proof.
  unfold dict_total. induction 1; simpl; lia.
Qed.

(** Over keys without duplicates, the counts of the rows of each key add
    up to the number of rows whose key is among them. *)
Lemma counts_by_key_add_up {A : Type} (key : A -> string) (rows : list A) :
  forall keys,
    NoDup keys ->
    dict_total (map (fun k => (k, rowcount (fun x => String.eqb (key x) k) rows))
                    keys)
    = rowcount (fun x => Py.str_in (key x) keys) rows.
Proof.
  unfold dict_total, rowcount.
  induction keys as [|k keys IH]; intros Hnd.
  - simpl. induction rows; simpl; auto.
  - apply NoDup_cons_iff in Hnd. destruct Hnd as [Hk Hnd].
    cbn [map snd fold_right]. rewrite (IH Hnd). clear IH.
    induction rows as [|x rows IHr]; [reflexivity|].
    cbn [filter]. unfold Py.str_in. cbn [existsb].
    destruct (String.eqb (key x) k) eqn:E.
    + apply String.eqb_eq in E.
      assert (Hout : existsb (String.eqb (key x)) keys = false).
      { apply (proj2 (str_in_false _ _)). now rewrite E. }
      rewrite Hout. cbn [orb List.length].
      unfold Py.str_in in IHr. cbn [existsb] in IHr. lia.
    + cbn [orb]. unfold Py.str_in in IHr. cbn [existsb] in IHr.
      destruct (existsb (String.eqb (key x)) keys); cbn [List.length]; lia.
Qed.

Lemma dict_get_set_same (k : string) (v : Z) (d : list (string * Z)) :
  dict_get k (dict_set k v d) = Some v.
Proof.
  induction d as [|[k' v'] d IH]; simpl; [now rewrite String.eqb_refl|].
  destruct (String.eqb k' k) eqn:E; simpl; rewrite E; auto.
Qed.

Lemma dict_get_set_other (k k' : string) (v : Z) (d : list (string * Z)) :
  k <> k' -> dict_get k (dict_set k' v d) = dict_get k d.
Proof.
  intros Hne. induction d as [|[k0 v0] d IH]; simpl.
  - destruct (String.eqb k' k) eqn:E; [|reflexivity].
    apply String.eqb_eq in E. now elim Hne.
  - destruct (String.eqb k0 k') eqn:E; simpl.
    + apply String.eqb_eq in E. subst k0.
      destruct (String.eqb k' k) eqn:E'; [|reflexivity].
      apply String.eqb_eq in E'. now elim Hne.
    + destruct (String.eqb k0 k); auto.
Qed.

Lemma dict_get_fold_set (f : string -> Z) (k : string) (keys : list string) :
  forall d,
    dict_get k (fold_left (fun stats s => dict_set s (f s) stats) keys d)
    = if Py.str_in k keys then Some (f k) else dict_get k d.
Proof.
  induction keys as [|s keys IH]; intros d; [reflexivity|].
  cbn [fold_left]. rewrite IH. unfold Py.str_in. cbn [existsb].
  destruct (existsb (String.eqb k) keys); [now rewrite orb_true_r|].
  rewrite orb_false_r.
  destruct (String.eqb k s) eqn:E.
  - apply String.eqb_eq in E. subst s. apply dict_get_set_same.
  - apply String.eqb_neq in E. now apply dict_get_set_other.
Qed.

Lemma group_keys_In (descending : bool) (values : list string) (k : string) :
  In k (group_keys descending values) <-> In k values.
Proof.
  unfold group_keys. rewrite order_by_In. apply nodup_In.
Qed.

Lemma group_keys_NoDup (descending : bool) (values : list string) :
  NoDup (group_keys descending values).
Proof.
  unfold group_keys.
  eapply Permutation_NoDup; [apply order_by_perm | apply NoDup_nodup].
Qed.

(** X13.  The numbers of [get_stats] fit together: the mentions of today
    are among all mentions and the placeholder terms among all terms, the
    counts of the platforms add up to the number of mentions, and, when
    every status is one of the workflow (as in every reachable store), the
    approved, pending and rejected terms add up to all terms. *)
Theorem get_stats_consistent (now : Timestamp) (db : SlangDatabase) :
  let stats := get_stats now db in
  0 <= today_mentions stats <= total_mentions stats
  /\ 0 <= placeholder_terms stats <= total_terms stats
  /\ dict_total (platforms stats) = total_mentions stats
  /\ (statuses_valid db ->
      total_terms stats
      = approved_terms stats + pending_terms stats + rejected_terms stats).
Proof.
  intros stats. subst stats. unfold get_stats.
  cbn [today_mentions total_mentions placeholder_terms total_terms platforms
       approved_terms pending_terms rejected_terms].
  split; [apply rowcount_bounds|]. split; [apply rowcount_bounds|]. split.
  - unfold platform_counts.
    rewrite <- (dict_total_perm _ _ (order_by_perm _ _)).
    rewrite (counts_by_key_add_up m_platform); [|apply group_keys_NoDup].
    unfold rowcount. f_equal. f_equal.
    rewrite forallb_filter_id; [reflexivity|].
    apply forallb_forall. intros m Hm. apply (proj2 (str_in_true _ _)).
    apply group_keys_In. now apply in_map.
  - intros H. unfold count_status. now apply status_counts_add_up.
Qed.

Lemma get_stats_consistent_witness :
  total_terms (get_stats 200 two_terms_db)
  = approved_terms (get_stats 200 two_terms_db)
    + pending_terms (get_stats 200 two_terms_db)
    + rejected_terms (get_stats 200 two_terms_db).
Proof.
  apply (get_stats_consistent 200 two_terms_db).
  repeat constructor.
Defined.

(** X14.  [get_approval_stats] agrees with [get_stats]: under "approved",
    "pending" and "rejected" it holds the very counts that [get_stats]
    reports, also for a status that no term has, where both are 0. *)
Theorem approval_stats_agree (now : Timestamp) (db : SlangDatabase) :
  dict_get "approved" (get_approval_stats db)
  = Some (approved_terms (get_stats now db))
  /\ dict_get "pending" (get_approval_stats db)
     = Some (pending_terms (get_stats now db))
  /\ dict_get "rejected" (get_approval_stats db)
     = Some (rejected_terms (get_stats now db)).
Proof.
  assert (H : forall s, In s ["pending"; "approved"; "rejected"] ->
                        dict_get s (get_approval_stats db)
                        = Some (count_status s db)).
  { intros s Hs. unfold get_approval_stats.
    rewrite (dict_get_fold_set (fun status => count_status status db)).
    destruct (Py.str_in s _) eqn:E; [reflexivity|].
    assert (Hzero : count_status s db = 0).
    { unfold count_status, rowcount.
      rewrite (proj2 (List.length_zero_iff_nil _)); [reflexivity|].
      destruct (filter _ (slang_terms db)) as [|r l] eqn:F; [reflexivity|].
      assert (Hr : In r (r :: l)) by now left.
      rewrite <- F in Hr. apply filter_In in Hr. destruct Hr as [Hr Er].
      apply String.eqb_eq in Er. apply str_in_false in E. elim E.
      apply group_keys_In. rewrite <- Er. now apply in_map. }
    rewrite Hzero.
    destruct Hs as [<-|[<-|[<-|[]]]]; reflexivity. }
  repeat split; apply H; simpl; tauto.
Qed.

(** ** Decisions and the dashboard *)

Lemma filter_map_swap {A B : Type} (p : B -> bool) (f : A -> B) (l : list A) :
  filter p (map f l) = map f (filter (fun x => p (f x)) l).
Proof.
  induction l as [|x l IH]; simpl; [reflexivity|].
  destruct (p (f x)); simpl; now rewrite IH.
Qed.

Lemma insert_by_map {A B : Type} (before : A -> A -> bool)
      (before' : B -> B -> bool) (f : A -> B) (x : A) (l : list A) :
  (forall a b, before' (f a) (f b) = before a b) ->
  insert_by before' (f x) (map f l) = map f (insert_by before x l).
Proof.
  intros H. induction l as [|y l IH]; simpl; [reflexivity|].
  rewrite H. destruct (before y x); simpl; [now rewrite IH | reflexivity].
Qed.

Lemma order_by_map {A B : Type} (before : A -> A -> bool)
      (before' : B -> B -> bool) (f : A -> B) (l : list A) :
  (forall a b, before' (f a) (f b) = before a b) ->
  order_by before' (map f l) = map f (order_by before l).
Proof.
  intros H. induction l as [|x l IH]; simpl; [reflexivity|].
  fold (order_by before' (map f l)). fold (order_by before l).
  rewrite IH. now apply insert_by_map.
Qed.

(** An UPDATE that leaves ids and keys alone changes neither the terms of
    the dashboard view, nor their counts, nor their order. *)
Lemma trending_all_after_update (p : TermRow -> bool) (f : TermRow -> TermRow)
      (limit : Z) (db : SlangDatabase) :
  (forall r, st_id (f r) = st_id r) ->
  (forall r, st_term (f r) = st_term r) ->
  map (fun e => (tr_term e, tr_mentions e))
      (get_trending_terms limit "all"
         (mkDb (update_terms p f (slang_terms db)) (mentions db) (daily_trends db)))
  = map (fun e => (tr_term e, tr_mentions e)) (get_trending_terms limit "all" db).
Proof.
  intros Hid Hterm.
  set (upd := fun r => if p r then f r else r).
  set (F := fun g => mkGroup (upd (g_st g)) (g_mentions g) (g_avg_engagement g)).
  assert (Hupd_id : forall r, st_id (upd r) = st_id r)
    by (intros r; unfold upd; destruct (p r); auto).
  assert (Hupd_term : forall r, st_term (upd r) = st_term r)
    by (intros r; unfold upd; destruct (p r); auto).
  assert (Hgroups :
    term_groups (mkDb (update_terms p f (slang_terms db)) (mentions db)
                      (daily_trends db))
    = map F (term_groups db)).
  { unfold term_groups, update_terms. cbn [slang_terms]. rewrite !map_map.
    apply map_ext. intros r. unfold group_of, F. cbn [g_st g_mentions g_avg_engagement].
    fold (upd r). rewrite Hupd_id. reflexivity. }
  unfold get_trending_terms. rewrite Hgroups.
  rewrite !filter_map_swap.
  rewrite (order_by_map by_mentions_avg_desc by_mentions_avg_desc F);
    [|reflexivity].
  rewrite <- sql_limit_map, !map_map.
  apply map_ext. intros g. cbn. now rewrite Hupd_term.
Qed.

Lemma delete_term_api_runs (term : string) (now : Timestamp) (db : SlangDatabase) :
  delete_term_api true None term now db
  = (if fst (reject_term term "Deleted by admin" "dashboard" now db)
     then Json 200 true ("Deleted " ++ term)
     else Json 404 false "Term not found",
     snd (reject_term term "Deleted by admin" "dashboard" now db)).
Proof.
  unfold delete_term_api, requires_admin. cbn [negb].
  now destruct (reject_term term "Deleted by admin" "dashboard" now db) as [[|] db'].
Qed.

(** Whatever the session and the store do, the route leaves the store as
    it was or as [reject_term] leaves it. *)
Lemma delete_term_api_store (admin_authenticated : bool) (failure : option string)
      (term : string) (now : Timestamp) (db : SlangDatabase) :
  snd (delete_term_api admin_authenticated failure term now db) = db
  \/ (admin_authenticated = true /\ failure = None
      /\ snd (delete_term_api admin_authenticated failure term now db)
         = snd (reject_term term "Deleted by admin" "dashboard" now db)).
Proof.
  destruct admin_authenticated; [|now left].
  destruct failure as [e|]; [now left|].
  right. now rewrite delete_term_api_runs.
Qed.

(** X15.  The route [delete_term_api] deletes nothing, whatever the session
    and the store do: it leaves the ids and keys of all term rows, all
    mentions and all daily trends as they are, and the dashboard view
    lists the same terms with the same counts.  Without an admin session
    it redirects to the login page (302) and changes nothing; when the
    store raises, it answers 500 with the text of the exception and
    changes nothing.  In an admin session with a working store it answers
    200 when the term is stored and 404 without any change otherwise, so
    the answer is 200 exactly for an admin session, a working store and a
    stored term; a stored term then ends up rejected with the reason
    "Deleted by admin" and is absent from the public view. *)
Theorem delete_term_api_rejects
        (admin_authenticated : bool) (failure : option string)
        (term : string) (now : Timestamp) (db : SlangDatabase) :
  let response :=
    fst (delete_term_api admin_authenticated failure term now db) in
  let db' := snd (delete_term_api admin_authenticated failure term now db) in
  map st_id (slang_terms db') = map st_id (slang_terms db)
  /\ map st_term (slang_terms db') = map st_term (slang_terms db)
  /\ mentions db' = mentions db
  /\ daily_trends db' = daily_trends db
  /\ (forall limit,
         map (fun e => (tr_term e, tr_mentions e))
             (get_trending_terms limit "all" db')
         = map (fun e => (tr_term e, tr_mentions e))
               (get_trending_terms limit "all" db))
  /\ (admin_authenticated = false ->
      response = Redirect "/admin-login" /\ http_status response = 302
      /\ db' = db)
  /\ (forall e, admin_authenticated = true -> failure = Some e ->
                response = Json 500 false e /\ db' = db)
  /\ (http_status response = 200
      <-> admin_authenticated = true /\ failure = None /\ known term db)
  /\ (admin_authenticated = true -> failure = None ->
      (known term db -> response = Json 200 true ("Deleted " ++ term))
      /\ (~ known term db ->
          response = Json 404 false "Term not found" /\ db' = db)
      /\ (forall r, In r (slang_terms db') -> st_term r = normalize term ->
                    st_approval_status r = "rejected"
                    /\ st_rejection_reason r = Some "Deleted by admin")
      /\ (forall limit,
             ~ In (normalize term) (map ap_term (get_approved_terms limit db')))).
Proof.
  intros response db'. subst response db'.
  pose proof (reject_term_true term db "Deleted by admin" "dashboard" now) as Hknown.
  assert (Hframe :
    map st_id (slang_terms
                 (snd (delete_term_api admin_authenticated failure term now db)))
    = map st_id (slang_terms db)
    /\ map st_term (slang_terms
                      (snd (delete_term_api admin_authenticated failure term now db)))
       = map st_term (slang_terms db)
    /\ mentions (snd (delete_term_api admin_authenticated failure term now db))
       = mentions db
    /\ daily_trends (snd (delete_term_api admin_authenticated failure term now db))
       = daily_trends db
    /\ forall limit,
         map (fun e => (tr_term e, tr_mentions e))
             (get_trending_terms limit "all"
                (snd (delete_term_api admin_authenticated failure term now db)))
         = map (fun e => (tr_term e, tr_mentions e))
               (get_trending_terms limit "all" db)).
  { destruct (delete_term_api_store admin_authenticated failure term now db)
      as [->|(_ & _ & ->)]; [repeat split|].
    unfold reject_term. cbn [snd slang_terms mentions daily_trends].
    split; [now apply update_terms_column|].
    split; [now apply update_terms_column|].
    split; [reflexivity|]. split; [reflexivity|].
    intros limit. now apply trending_all_after_update. }
  destruct Hframe as (Hids & Hkeys & Hm & Ht & Hdash).
  split; [exact Hids|]. split; [exact Hkeys|]. split; [exact Hm|].
  split; [exact Ht|]. split; [exact Hdash|].
  split; [intros ->; repeat split|].
  split; [intros e -> ->; repeat split|].
  split.
  { destruct admin_authenticated.
    - destruct failure as [e|].
      + split; [discriminate|]. intros (_ & E & _). discriminate E.
      + rewrite delete_term_api_runs. cbn [fst]. rewrite <- Hknown.
        destruct (fst (reject_term term "Deleted by admin" "dashboard" now db));
          split; [auto | reflexivity | discriminate|].
        intros (_ & _ & E). discriminate E.
    - split; [discriminate|]. intros (E & _). discriminate E. }
  intros -> ->. rewrite delete_term_api_runs. cbn [fst snd].
  split.
  { intros Hk. apply Hknown in Hk. now rewrite Hk. }
  split.
  { intros Hnew.
    destruct (fst (reject_term term "Deleted by admin" "dashboard" now db)) eqn:E.
    - elim Hnew. now apply Hknown.
    - split; [reflexivity|]. now apply reject_term_false. }
  split.
  { intros r Hr Hkey.
    destruct (reject_term_post term _ _ now db r Hr Hkey) as (H1 & _ & _ & H2).
    now split. }
  intros limit Hin. apply in_map_iff in Hin. destruct Hin as (e & He & Hin).
  apply approved_In in Hin. destruct Hin as (r' & Hr' & -> & _ & Hst).
  cbn in He.
  destruct (reject_term_post term _ _ now db r' Hr' He) as (Hrej & _).
  rewrite Hrej in Hst. discriminate.
Qed.

Lemma delete_term_api_rejects_witness :
  fst (delete_term_api true None "Drip" 102 drip_db)
  = Json 200 true "Deleted Drip"
  /\ snd (delete_term_api true None "fit" 102 drip_db) = drip_db
  /\ delete_term_api false None "Drip" 102 drip_db
     = (Redirect "/admin-login", drip_db)
  /\ delete_term_api true (Some "database is locked") "Drip" 102 drip_db
     = (Json 500 false "database is locked", drip_db).
Proof.
  destruct (delete_term_api_rejects true None "Drip" 102 drip_db)
    as (_ & _ & _ & _ & _ & _ & _ & _ & Hruns).
  destruct (delete_term_api_rejects true None "fit" 102 drip_db)
    as (_ & _ & _ & _ & _ & _ & _ & _ & Hmiss).
  destruct (delete_term_api_rejects false None "Drip" 102 drip_db)
    as (_ & _ & _ & _ & _ & Hgate & _).
  destruct (delete_term_api_rejects true (Some "database is locked") "Drip" 102
              drip_db)
    as (_ & _ & _ & _ & _ & _ & Hfail & _).
  destruct (Hruns eq_refl eq_refl) as (Hstored & _).
  destruct (Hmiss eq_refl eq_refl) as (_ & Hnew & _).
  destruct (Hgate eq_refl) as (Hg1 & _ & Hg2).
  destruct (Hfail "database is locked" eq_refl eq_refl) as (Hf1 & Hf2).
  split; [|split; [|split]].
  - apply Hstored.
    exists (mkTermRow 1 "drip" (Some "Fashionable clothing") "fashion" "pending"
                      None None None 100).
    split; [now left | reflexivity].
  - apply Hnew. intros (r & [<-|[]] & E). discriminate E.
  - rewrite (surjective_pairing (delete_term_api false None "Drip" 102 drip_db)).
    exact (f_equal2 pair Hg1 Hg2).
  - rewrite (surjective_pairing
               (delete_term_api true (Some "database is locked") "Drip" 102
                                drip_db)).
    exact (f_equal2 pair Hf1 Hf2).
Defined.

(** X16.  Approving and rejecting do not move anything on the dashboard:
    after [approve_term] or [reject_term], [get_trending_terms] with status
    "all" lists the same terms with the same counts in the same order as
    before. *)
Theorem decisions_keep_dashboard
        (term actor reason : string) (now : Timestamp) (limit : Z)
        (db : SlangDatabase) :
  map (fun e => (tr_term e, tr_mentions e))
      (get_trending_terms limit "all" (snd (approve_term term actor now db)))
  = map (fun e => (tr_term e, tr_mentions e)) (get_trending_terms limit "all" db)
  /\ map (fun e => (tr_term e, tr_mentions e))
         (get_trending_terms limit "all"
            (snd (reject_term term reason actor now db)))
     = map (fun e => (tr_term e, tr_mentions e))
           (get_trending_terms limit "all" db).
Proof.
  split; unfold approve_term, reject_term; cbn [snd];
    now apply trending_all_after_update.
Qed.

(** ** The three ways to approve in bulk *)

Lemma approve_term_result (term actor : string) (now : Timestamp)
      (db : SlangDatabase) :
  fst (approve_term term actor now db) = key_stored db term.
Proof.
  unfold key_stored.
  destruct (fst (approve_term term actor now db)) eqn:E.
  - apply approve_term_true in E. destruct E as (r & Hr & Hk).
    symmetry. apply str_in_true. rewrite <- Hk. now apply in_map.
  - destruct (Py.str_in _ _) eqn:F; [|reflexivity].
    apply str_in_true in F. apply in_map_iff in F. destruct F as (r & Hk & Hr).
    assert (H : fst (approve_term term actor now db) = true)
      by (apply approve_term_true; now exists r).
    congruence.
Qed.

Lemma approve_term_keys (term actor : string) (now : Timestamp)
      (db : SlangDatabase) :
  map st_term (slang_terms (snd (approve_term term actor now db)))
  = map st_term (slang_terms db).
Proof. unfold approve_term. cbn [snd slang_terms]. now apply update_terms_column. Qed.

Lemma key_stored_ext (db db' : SlangDatabase) :
  map st_term (slang_terms db') = map st_term (slang_terms db) ->
  forall terms, filter (key_stored db') terms = filter (key_stored db) terms.
Proof.
  intros H terms. apply filter_ext. intros t. unfold key_stored. now rewrite H.
Qed.

Lemma bulk_approve_route_counts (terms : list string) :
  forall clock db,
    fst (fst (bulk_approve_route terms clock db))
    = Z.of_nat (List.length (filter (key_stored db) terms))
    /\ snd (fst (bulk_approve_route terms clock db))
       = map (fun t => "Term not found: " ++ t)
             (filter (fun t => negb (key_stored db t)) terms).
Proof.
  induction terms as [|term rest IH]; intros clock db; [split; reflexivity|].
  cbn [bulk_approve_route filter].
  pose proof (approve_term_result term "dashboard" (clock O) db) as Hres.
  pose proof (approve_term_keys term "dashboard" (clock O) db) as Hkeys.
  destruct (approve_term term "dashboard" (clock O) db) as [result db1].
  cbn [fst snd] in Hres, Hkeys.
  destruct (IH (fun i => clock (S i)) db1) as [Hcount Herr].
  destruct (bulk_approve_route rest (fun i => clock (S i)) db1)
    as [[approved_count errors] db2].
  cbn [fst snd] in Hcount, Herr.
  assert (Hneg : filter (fun t => negb (key_stored db1 t)) rest
                 = filter (fun t => negb (key_stored db t)) rest).
  { apply filter_ext. intros t. unfold key_stored. now rewrite Hkeys. }
  rewrite (key_stored_ext db db1 Hkeys) in Hcount. rewrite Hneg in Herr.
  rewrite <- Hres. destruct result; cbn [fst snd negb map List.length].
  - split; [lia | exact Herr].
  - split; [exact Hcount | now rewrite Herr].
Qed.

Lemma bulk_approve_terms_bound (terms : list string) (approved_by : string) :
  forall clock db,
    fst (bulk_approve_terms terms approved_by clock db)
    <= Z.of_nat (List.length (filter (key_stored db) terms)).
Proof.
  induction terms as [|term rest IH]; intros clock db; [reflexivity|].
  cbn [bulk_approve_terms filter].
  match goal with
  | |- context [bulk_approve_terms rest approved_by ?c ?d] =>
      pose proof (IH c d) as Hrest;
      rewrite (key_stored_ext db d) in Hrest;
      [destruct (bulk_approve_terms rest approved_by c d) as [n db2]|]
  end.
  - cbn [fst] in *.
    match goal with
    | |- context [0 <? rowcount ?hit ?rows] =>
        destruct (0 <? rowcount hit rows) eqn:E
    end.
    + apply rowcount_positive in E. destruct E as (r & Hr & Hhit).
      apply andb_prop in Hhit. destruct Hhit as [Hk _]. apply String.eqb_eq in Hk.
      assert (Hs : key_stored db term = true).
      { unfold key_stored. apply str_in_true. rewrite <- Hk. now apply in_map. }
      rewrite Hs. cbn [List.length]. lia.
    + destruct (key_stored db term); cbn [List.length]; lia.
  - cbn [slang_terms]. now apply update_terms_column.
Qed.

Lemma batch_is_route (terms_list : list string) :
  forall clock db,
    fst (batch_approve_researched_terms terms_list clock db)
    = (Z.of_nat (List.length terms_list), Z.of_nat (List.length terms_list))
    /\ snd (batch_approve_researched_terms terms_list clock db)
       = snd (bulk_approve_route terms_list clock db).
Proof.
  induction terms_list as [|term rest IH]; intros clock db; [split; reflexivity|].
  cbn [batch_approve_researched_terms bulk_approve_route].
  destruct (approve_term term "dashboard" (clock O) db) as [result db1].
  cbn [snd].
  destruct (IH (fun i => clock (S i)) db1) as [Hcount Hdb].
  destruct (batch_approve_researched_terms rest (fun i => clock (S i)) db1)
    as [[approved_count total_requested] db2].
  destruct (bulk_approve_route rest (fun i => clock (S i)) db1)
    as [[route_count errors] db3].
  cbn [fst snd] in *. inversion Hcount; subst.
  split; [|now destruct result].
  cbn [List.length]. f_equal; lia.
Qed.

(** X17.  The three bulk approvals count differently.  The loop of the
    route [/api/admin/bulk-approve] counts the requested terms that are
    stored and reports each other one as not found, so that the two add up
    to the number requested; [bulk_approve_terms] of the store, which only
    touches pending terms, never counts more than the route;
    [batch_approve_researched_terms] leaves the same store as the route
    and always reports every requested term as approved. *)
Theorem bulk_approval_paths
        (terms : list string) (approved_by : string) (clock : nat -> Timestamp)
        (db : SlangDatabase) :
  let route := bulk_approve_route terms clock db in
  let batch := batch_approve_researched_terms terms clock db in
  fst (fst route) = Z.of_nat (List.length (filter (key_stored db) terms))
  /\ snd (fst route)
     = map (fun t => "Term not found: " ++ t)
           (filter (fun t => negb (key_stored db t)) terms)
  /\ fst (fst route) + Z.of_nat (List.length (snd (fst route)))
     = Z.of_nat (List.length terms)
  /\ fst (bulk_approve_terms terms approved_by clock db) <= fst (fst route)
  /\ fst batch = (Z.of_nat (List.length terms), Z.of_nat (List.length terms))
  /\ snd batch = snd route.
Proof.
  intros route batch. subst route batch.
  destruct (bulk_approve_route_counts terms clock db) as [Hcount Herr].
  destruct (batch_is_route terms clock db) as [Hbatch Hdb].
  split; [exact Hcount|]. split; [exact Herr|]. split.
  - rewrite Hcount, Herr, length_map.
    pose proof (filter_length (key_stored db) terms) as H.
    unfold key_stored in *. lia.
  - split; [|split; assumption].
    rewrite Hcount. apply bulk_approve_terms_bound.
Qed.

(** ** What a cleaned definition looks like *)

Lemma truncation_stripped (t : string) :
  starts_clean t -> 300 < Py.len t ->
  Py.strip (Py.take 297 t ++ "...") = Py.take 297 t ++ "..."
  /\ Py.len (Py.take 297 t ++ "...") = 300.
Proof.
  intros Hclean Hlen. split.
  - unfold Py.strip. rewrite lstrip_fixed.
    + apply rstrip_app_fixed; [discriminate | reflexivity].
    + destruct t as [|c t]; [|exact Hclean].
      unfold Py.len in Hlen; simpl in Hlen; lia.
  - unfold Py.len in *. rewrite length_app, length_take.
    change (String.length "...") with 3%nat. lia.
Qed.

(** X18.  Whatever is stored, what [_clean_definition] hands to a view has
    at most 300 characters, is not empty, is not one of the placeholder
    strings, and has no white space around it. *)
Theorem clean_definition_bounds (definition : option string) :
  Py.len (_clean_definition definition) <= 300
  /\ _clean_definition definition <> EmptyString
  /\ ~ In (_clean_definition definition)
          ["Trending slang term"; "Approved slang term"]
  /\ Py.strip (_clean_definition definition) = _clean_definition definition.
Proof.
  destruct definition as [d|];
    [|repeat split; try (vm_compute; discriminate);
      intros [E|[E|[]]]; discriminate E].
  destruct (Py.str_in (Py.strip d)
              ["Trending slang term"; "Approved slang term"; ""]) eqn:Hp.
  - rewrite (clean_placeholder d Hp).
    repeat split; try (vm_compute; discriminate).
    intros [E|[E|[]]]; discriminate E.
  - destruct (Z_lt_le_dec 300 (Py.len (Py.strip d))) as [Hlong|Hshort].
    + rewrite (clean_truncated d Hlong).
      destruct (truncation_stripped (Py.strip d) (strip_starts_clean d) Hlong)
        as [Hfix Hlen].
      split; [lia|]. split; [|split; [|exact Hfix]].
      * intros E. rewrite E in Hlen. discriminate Hlen.
      * intros [E|[E|[]]]; rewrite <- E in Hlen; discriminate Hlen.
    + rewrite (clean_kept d Hp Hshort). apply str_in_false in Hp.
      split; [exact Hshort|]. split; [|split; [|apply strip_idempotent]].
      * intros E. apply Hp. rewrite E. simpl. tauto.
      * intros [E|[E|[]]]; apply Hp; rewrite <- E; simpl; tauto.
Qed.

(** ** [is_valid_slang] *)

Lemma lower_normalize (term : string) : Py.lower (normalize term) = normalize term.
Proof. unfold normalize. now rewrite lower_strip, lower_idempotent. Qed.

Section ValidSlang.

Variable World : Type.
Variable URBAN_DICT_AVAILABLE : bool.
Variable get_urban_definition : string -> World -> UrbanResult * World.

Local Notation "'valid'" :=
  (is_valid_slang World URBAN_DICT_AVAILABLE get_urban_definition).

Lemma is_valid_slang_normalize (term : string) (check_urban : bool) (w : World) :
  valid (normalize term) check_urban w = valid term check_urban w.
Proof.
  unfold is_valid_slang. fold (normalize (normalize term)). fold (normalize term).
  now rewrite normalize_idempotent.
Qed.

(** X19.  [is_valid_slang] decides on the normalized term, so case and
    surrounding white space of its argument do not matter.  A term of the
    blacklist, a term shorter than 2 or longer than 20 characters and a
    term with a character other than ASCII letters, white space, hyphen
    and apostrophe are refused; a term of the three lists of known slang is
    accepted; in all these cases no lookup is made.  Whatever is accepted
    has 2 to 20 characters of that alphabet and is not in the blacklist.
    The list entries "W" and "L" themselves are refused, their lower case
    being one character. *)
Theorem is_valid_slang_decides (term : string) (check_urban : bool) (w : World) :
  valid (normalize term) check_urban w = valid term check_urban w
  /\ (In (normalize term) blacklist \/ Py.len (normalize term) < 2
      \/ 20 < Py.len (normalize term) \/ slang_format (normalize term) = false ->
      valid term check_urban w = (false, w))
  /\ (In (normalize term) known_slang -> valid term check_urban w = (true, w))
  /\ (fst (valid term check_urban w) = true ->
      slang_format (normalize term) = true
      /\ 2 <= Py.len (normalize term) <= 20
      /\ ~ In (normalize term) blacklist)
  /\ valid "W" check_urban w = (false, w)
  /\ valid "L" check_urban w = (false, w).
Proof.
  split; [apply is_valid_slang_normalize|].
  unfold is_valid_slang. fold (normalize term).
  set (key := normalize term).
  split; [|split; [|split; [|split; reflexivity]]].
  - intros [H|[H|[H|H]]].
    + destruct (_ || _ || _ || _); [reflexivity|].
      apply str_in_true in H. now rewrite H.
    + apply Z.ltb_lt in H. rewrite H. now rewrite !orb_true_r.
    + apply Z.ltb_lt in H. rewrite H. now rewrite !orb_true_r.
    + rewrite H. now rewrite !orb_true_r.
  - intros Hknown.
    assert (Hcheck :
      forallb (fun k =>
                 negb (String.eqb (Py.lower k) k)
                 || (Py.truthy k && (2 <=? Py.len k) && (Py.len k <=? 20)
                     && slang_format k && negb (Py.str_in k blacklist)))
              known_slang = true) by (vm_compute; reflexivity).
    rewrite forallb_forall in Hcheck. specialize (Hcheck key Hknown).
    unfold key in Hcheck at 1 2. rewrite lower_normalize, String.eqb_refl in Hcheck.
    fold key in Hcheck. cbn [negb orb] in Hcheck.
    apply andb_prop in Hcheck. destruct Hcheck as [Hcheck Hblack].
    apply andb_prop in Hcheck. destruct Hcheck as [Hcheck Hformat].
    apply andb_prop in Hcheck. destruct Hcheck as [Hcheck Hmax].
    apply andb_prop in Hcheck. destruct Hcheck as [Htruthy Hmin].
    apply Z.leb_le in Hmin, Hmax. apply negb_true_iff in Hblack.
    rewrite Htruthy, Hformat, Hblack.
    rewrite (proj2 (Z.ltb_ge _ _) Hmin), (proj2 (Z.ltb_ge _ _) Hmax).
    cbn [negb orb].
    unfold known_slang in Hknown. rewrite !in_app_iff in Hknown.
    destruct Hknown as [H|[H|H]]; apply str_in_true in H; rewrite H;
      now rewrite ?orb_true_r.
  - intros Hacc.
    destruct (negb (Py.truthy key) || (Py.len key <? 2) || (20 <? Py.len key)
              || negb (slang_format key)) eqn:Hbad; [discriminate Hacc|].
    apply orb_false_elim in Hbad. destruct Hbad as [Hbad Hformat].
    apply orb_false_elim in Hbad. destruct Hbad as [Hbad Hmax].
    apply orb_false_elim in Hbad. destruct Hbad as [_ Hmin].
    apply negb_false_iff in Hformat. apply Z.ltb_ge in Hmin, Hmax.
    split; [exact Hformat|]. split; [lia|].
    destruct (Py.str_in key blacklist) eqn:Hblack; [discriminate Hacc|].
    now apply str_in_false.
Qed.

End ValidSlang.

Lemma is_valid_slang_decides_witness :
  is_valid_slang unit false no_lookup " No Cap " true tt = (true, tt)
  /\ is_valid_slang unit false no_lookup "Reddit" true tt = (false, tt).
Proof.
  destruct (is_valid_slang_decides unit false no_lookup " No Cap " true tt)
    as (_ & _ & Hknown & _).
  destruct (is_valid_slang_decides unit false no_lookup "Reddit" true tt)
    as (_ & Hbad & _).
  split.
  - apply Hknown. apply (proj1 (str_in_true _ _)). reflexivity.
  - apply Hbad. left. apply (proj1 (str_in_true _ _)). reflexivity.
Defined.

(** ** [categorize_term] *)

Lemma mapped_category_Some (term_lower : string)
      (mapping : list (string * list string)) (category : string) :
  mapped_category term_lower mapping = Some category ->
  exists terms, In (category, terms) mapping /\ In term_lower terms.
Proof.
  induction mapping as [|[c terms] mapping IH]; simpl; [discriminate|].
  destruct (Py.str_in term_lower terms) eqn:E.
  - intros H. inversion H; subst. exists terms. split; [now left|].
    now apply str_in_true.
  - intros H. destruct (IH H) as (terms' & Hin & Ht).
    exists terms'. split; [now right | exact Ht].
Qed.

(** X20.  [categorize_term] always answers one of "attitude", "fashion",
    "social", "general" and "gen_alpha", and does not depend on the case of
    its argument; a term whose lower case contains "fit", "style", "wear"
    or "look" is never put under "general". *)
Theorem categorize_term_labels (term : string) :
  In (categorize_term term)
     ["attitude"; "fashion"; "social"; "general"; "gen_alpha"]
  /\ categorize_term (Py.lower term) = categorize_term term
  /\ (existsb (fun word => Py.contains word (Py.lower term))
              ["fit"; "style"; "wear"; "look"] = true ->
      categorize_term term <> "general").
Proof.
  split; [|split].
  - unfold categorize_term.
    destruct (mapped_category (Py.lower term) category_mapping) as [c|] eqn:E.
    + apply mapped_category_Some in E. destruct E as (terms & Hin & _).
      simpl in Hin.
      destruct Hin as [H|[H|[H|[H|[H|[]]]]]]; inversion H; simpl; tauto.
    + destruct (Py.str_in _ gen_alpha_terms); [simpl; tauto|].
      destruct (Py.str_in _ fashion_whitelist); [simpl; tauto|].
      destruct (existsb _ _); simpl; tauto.
  - unfold categorize_term. now rewrite lower_idempotent.
  - intros Hword. unfold categorize_term.
    destruct (mapped_category (Py.lower term) category_mapping) as [c|] eqn:E.
    + intros ->. apply mapped_category_Some in E. destruct E as (terms & Hin & Ht).
      simpl in Hin.
      destruct Hin as [H|[H|[H|[H|[H|[]]]]]]; inversion H; subst terms.
      simpl in Ht.
      repeat (destruct Ht as [Ht|Ht];
              [rewrite <- Ht in Hword; vm_compute in Hword; discriminate Hword|]).
      exact Ht.
    + destruct (Py.str_in _ gen_alpha_terms); [discriminate|].
      destruct (Py.str_in _ fashion_whitelist); [discriminate|].
      rewrite Hword. discriminate.
Qed.

Lemma categorize_term_labels_witness : categorize_term "Streetwear" <> "general".
Proof.
  apply (categorize_term_labels "Streetwear"). reflexivity.
Defined.

(** ** What the extractor hands on *)

Lemma prefix_all_chars (p : ascii -> bool) (t u : string) :
  String.prefix t u = true -> Py.all_chars p u = true -> Py.all_chars p t = true.
Proof.
  revert u. induction t as [|c t IH]; intros u; [reflexivity|].
  destruct u as [|d u]; simpl; [discriminate|].
  destruct (ascii_dec c d) as [->|]; [|discriminate].
  intros Hpre Hall. apply andb_prop in Hall. destruct Hall as [Hd Hall].
  rewrite Hd. simpl. now apply (IH u).
Qed.

Lemma contains_all_chars (p : ascii -> bool) (t u : string) :
  Py.contains t u = true -> Py.all_chars p u = true -> Py.all_chars p t = true.
Proof.
  induction u as [|d u IH]; simpl.
  - rewrite orb_false_r. intros Hpre _. now apply (prefix_all_chars p t EmptyString).
  - intros H Hall. apply orb_prop in H. destruct H as [Hpre|Hrest].
    + now apply (prefix_all_chars p t (String d u)).
    + apply andb_prop in Hall. destruct Hall as [_ Hall]. now apply IH.
Qed.

Lemma lower_all_fixed (s : string) :
  Py.all_chars (fun c => Ascii.eqb (Py.lower_char c) c) (Py.lower s) = true.
Proof.
  induction s as [|c s IH]; simpl; [reflexivity|].
  now rewrite lower_char_idempotent, Ascii.eqb_refl.
Qed.

Lemma all_fixed_lower (t : string) :
  Py.all_chars (fun c => Ascii.eqb (Py.lower_char c) c) t = true -> Py.lower t = t.
Proof.
  induction t as [|c t IH]; simpl; [reflexivity|].
  intros H. apply andb_prop in H. destruct H as [Hc H].
  apply Ascii.eqb_eq in Hc. now rewrite Hc, IH.
Qed.

(** What is found in a lowercased text is in lower case. *)
Lemma contains_lower (t text : string) :
  Py.contains t (Py.lower text) = true -> Py.lower t = t.
Proof.
  intros H. apply all_fixed_lower.
  exact (contains_all_chars _ t _ H (lower_all_fixed text)).
Qed.

Lemma normalize_regex_term (match_ : string) :
  normalize (Py.lower (Py.strip match_)) = Py.lower (Py.strip match_).
Proof.
  unfold normalize.
  now rewrite lower_idempotent, lower_strip, strip_idempotent.
Qed.

Section ExtractorOutput.

Variable World : Type.
Variable URBAN_DICT_AVAILABLE : bool.
Variable get_urban_definition : string -> World -> UrbanResult * World.
Variable re_findall : string -> string -> list string.
Variables fashion_iter gen_alpha_iter : list string.

Hypothesis fashion_iter_perm : Permutation fashion_whitelist fashion_iter.
Hypothesis gen_alpha_iter_perm : Permutation gen_alpha_terms gen_alpha_iter.

Local Notation "'allow'" := (allowlist_candidates fashion_iter gen_alpha_iter).
Local Notation "'collect'" :=
  (collect_candidates World URBAN_DICT_AVAILABLE get_urban_definition re_findall
                      fashion_iter gen_alpha_iter).
Local Notation "'extract'" :=
  (extract_slang_candidates World URBAN_DICT_AVAILABLE get_urban_definition
                            re_findall fashion_iter gen_alpha_iter).

Lemma allow_candidate_of (text source : string) (c : Candidate) :
  In c (allow text source) -> candidate_of text source c.
Proof.
  intros Hc.
  destruct (allow_In fashion_iter gen_alpha_iter text source c Hc)
    as [Hcont Hkind].
  assert (Hstripped : forallb (fun t => String.eqb (Py.strip t) t)
                              (fashion_whitelist ++ gen_alpha_terms) = true)
    by (vm_compute; reflexivity).
  rewrite forallb_forall in Hstripped.
  assert (Hlisted : In (c_term c) (fashion_whitelist ++ gen_alpha_terms)).
  { apply in_or_app. destruct Hkind as [[Hin _]|[Hin _]].
    - left. exact (Permutation_in _ (Permutation_sym fashion_iter_perm) Hin).
    - right. exact (Permutation_in _ (Permutation_sym gen_alpha_iter_perm) Hin). }
  assert (Hnorm : normalize (c_term c) = c_term c).
  { unfold normalize. rewrite (contains_lower _ _ Hcont).
    apply String.eqb_eq. now apply Hstripped. }
  destruct Hkind as [[_ E]|[_ E]]; rewrite E in *; repeat split; exact Hnorm.
Qed.

Lemma collect_candidate_of (text source : string) (w : World) :
  Forall (candidate_of text source) (fst (collect text source w)).
Proof.
  unfold collect_candidates.
  apply (fold_left_invariant
           (fun st => Forall (candidate_of text source) (fst st))).
  - intros st pattern_name _ Hst. unfold apply_pattern.
    apply (fold_left_invariant
             (fun st => Forall (candidate_of text source) (fst st)));
      [|exact Hst].
    intros [candidates w0] match_ _ Hall. cbn [fst] in Hall.
    destruct (regex_step_cases World URBAN_DICT_AVAILABLE get_urban_definition
                pattern_name text source candidates w0 match_) as [->|[_ ->]];
      [exact Hall|].
    apply Forall_app. split; [exact Hall|].
    constructor; [|constructor].
    repeat split. apply normalize_regex_term.
  - cbn [fst]. apply Forall_forall. intros c Hc. now apply allow_candidate_of.
Qed.

(** X21.  Every candidate that [extract_slang_candidates] returns has a
    term in normal form (lower case, no white space around it), so that
    [add_mention] stores it under that very key; it carries the first 200
    characters of the text as context and the platform it was called
    with; its confidence is 0.95, 0.9, 0.7 or 0.5. *)
Theorem extracted_candidates_wellformed
        (text source : string) (w : World) (c : Candidate) :
  In c (fst (extract text source w)) ->
  normalize (c_term c) = c_term c
  /\ c_context c = Py.take 200 text
  /\ Py.len (c_context c) <= 200
  /\ c_source_platform c = source
  /\ In (c_confidence c) [0.95%Q; 0.9%Q; 0.7%Q; 0.5%Q].
Proof.
  intros Hc.
  assert (Hin : In c (fst (collect text source w))).
  { destruct (extract_result World URBAN_DICT_AVAILABLE get_urban_definition
                re_findall fashion_iter gen_alpha_iter text source w) as [E|E];
      rewrite E in Hc; [contradiction|].
    apply firstn_In in Hc. apply unique_by_term_In in Hc.
    destruct Hc as (_ & l1 & l2 & E' & _).
    apply (order_by_In by_confidence_desc). rewrite E'.
    apply in_or_app. right. now left. }
  pose proof (collect_candidate_of text source w) as Hall.
  rewrite Forall_forall in Hall. destruct (Hall c Hin) as (Hnorm & Hctx & Hsrc).
  split; [exact Hnorm|]. split; [exact Hctx|]. split.
  { rewrite Hctx. unfold Py.len. rewrite length_take. lia. }
  split; [exact Hsrc|].
  destruct (collect_shape World URBAN_DICT_AVAILABLE get_urban_definition
              re_findall fashion_iter gen_alpha_iter text source w)
    as (rx & Hrx & Hok & _).
  rewrite Hrx in Hin. apply in_app_or in Hin. destruct Hin as [Hin|Hin].
  - apply allow_In in Hin. destruct Hin as [_ [[_ ->]|[_ ->]]]; simpl; tauto.
  - rewrite Forall_forall in Hok. destruct (Hok c Hin) as (_ & _ & Hscore).
    rewrite Hscore. destruct (String.eqb (c_pattern c) "definition"); simpl; tauto.
Qed.

End ExtractorOutput.

Lemma extracted_candidates_wellformed_witness :
  normalize "cool" = "cool"
  /\ c_context (mkCandidate "cool" yeet_text "definition" 0.7 "reddit")
     = Py.take 200 yeet_text.
Proof.
  destruct (extracted_candidates_wellformed unit false no_lookup yeet_matches
              fashion_whitelist gen_alpha_terms
              (Permutation_refl _) (Permutation_refl _)
              yeet_text "reddit" tt
              (mkCandidate "cool" yeet_text "definition" 0.7 "reddit"))
    as (Hnorm & Hctx & _).
  - vm_compute. right. left. reflexivity.
  - split; [exact Hnorm | exact Hctx].
Defined.

(** ** The parsing of [research_terms_from_list] *)

Lemma lstrip_all_chars (p : ascii -> bool) (s : string) :
  Py.all_chars p s = true -> Py.all_chars p (Py.lstrip s) = true.
Proof.
  induction s as [|c s IH]; simpl; [trivial|].
  intros H. destruct (Py.isspace_char c); [|exact H].
  apply andb_prop in H. now apply IH.
Qed.

Lemma rstrip_all_chars (p : ascii -> bool) (s : string) :
  Py.all_chars p s = true -> Py.all_chars p (Py.rstrip s) = true.
Proof.
  induction s as [|c s IH]; simpl; [trivial|].
  intros H. apply andb_prop in H. destruct H as [Hc H]. specialize (IH H).
  destruct (Py.rstrip s) as [|d r].
  - destruct (Py.isspace_char c); simpl; [reflexivity | now rewrite Hc].
  - cbn [Py.all_chars]. rewrite Hc. exact IH.
Qed.

Lemma strip_all_chars (p : ascii -> bool) (s : string) :
  Py.all_chars p s = true -> Py.all_chars p (Py.strip s) = true.
Proof. intros H. now apply rstrip_all_chars, lstrip_all_chars. Qed.

Lemma split_terms_nonempty (in_run : bool) (s : string) :
  split_terms in_run s <> [].
Proof.
  revert in_run. induction s as [|c s IH]; intros in_run; simpl; [discriminate|].
  destruct (is_separator c).
  - destruct in_run; [apply IH | discriminate].
  - destruct (split_terms false s); discriminate.
Qed.

Lemma split_terms_pieces (s : string) :
  forall in_run,
    Forall (fun piece => Py.all_chars (fun c => negb (is_separator c)) piece = true)
           (split_terms in_run s).
Proof.
  induction s as [|c s IH]; intros in_run; simpl; [repeat constructor|].
  destruct (is_separator c) eqn:E.
  - destruct in_run; [apply IH|]. constructor; [reflexivity | apply IH].
  - specialize (IH false). destruct (split_terms false s) as [|piece rest].
    + constructor; [|constructor]. simpl. now rewrite E.
    + apply Forall_cons_iff in IH. destruct IH as [Hp Hrest].
      constructor; [|exact Hrest]. simpl. now rewrite E, Hp.
Qed.

Lemma parse_terms_clean (terms_string t : string) :
  In t (parse_terms terms_string) -> clean_term t.
Proof.
  unfold parse_terms. rewrite in_map_iff. intros (piece & <- & Hin).
  apply filter_In in Hin. destruct Hin as [Hin Htruthy].
  split; [now apply truthy_true|]. split; [apply strip_idempotent|].
  apply strip_all_chars.
  pose proof (split_terms_pieces (Py.strip terms_string) false) as H.
  rewrite Forall_forall in H. now apply H.
Qed.

Lemma split_terms_head (x : string) :
  Py.all_chars (fun c => negb (is_separator c)) x = true ->
  forall in_run u,
    (x <> EmptyString \/ in_run = false) ->
    split_terms in_run (x ++ String "," u) = x :: split_terms true u.
Proof.
  induction x as [|c x IH]; intros Hall in_run u Hrun.
  - destruct Hrun as [H| ->]; [now elim H|]. reflexivity.
  - simpl in Hall. apply andb_prop in Hall. destruct Hall as [Hc Hall].
    apply negb_true_iff in Hc. cbn [append split_terms]. rewrite Hc.
    rewrite (IH Hall false u (or_intror eq_refl)). reflexivity.
Qed.

Lemma split_terms_word (x : string) :
  Py.all_chars (fun c => negb (is_separator c)) x = true ->
  x <> EmptyString ->
  forall in_run, split_terms in_run x = [x].
Proof.
  induction x as [|c x IH]; intros Hall Hne in_run; [now elim Hne|].
  simpl in Hall. apply andb_prop in Hall. destruct Hall as [Hc Hall].
  apply negb_true_iff in Hc. cbn [split_terms]. rewrite Hc.
  destruct x as [|d x]; [reflexivity|].
  now rewrite (IH Hall ltac:(discriminate) false).
Qed.

Lemma concat_two (x y : string) (l : list string) :
  String.concat "," (x :: y :: l)
  = x ++ String "," (String.concat "," (y :: l)).
Proof. reflexivity. Qed.

Lemma split_terms_concat (l : list string) :
  l <> [] -> Forall clean_term l ->
  forall in_run, split_terms in_run (String.concat "," l) = l.
Proof.
  induction l as [|x l IH]; intros Hne Hall in_run; [now elim Hne|].
  apply Forall_cons_iff in Hall. destruct Hall as [(Hx & _ & Hsep) Hall].
  destruct l as [|y l].
  - cbn [String.concat]. now apply split_terms_word.
  - rewrite concat_two.
    rewrite (split_terms_head x Hsep in_run _ (or_introl Hx)).
    now rewrite (IH ltac:(discriminate) Hall true).
Qed.

Lemma clean_term_rstrip (t : string) : clean_term t -> Py.rstrip t = t.
Proof.
  intros (_ & Hs & _). rewrite <- Hs at 1. unfold Py.strip.
  rewrite rstrip_idempotent. exact Hs.
Qed.

Lemma concat_clean_stripped (l : list string) :
  l <> [] -> Forall clean_term l ->
  String.concat "," l <> EmptyString
  /\ Py.rstrip (String.concat "," l) = String.concat "," l
  /\ starts_clean (String.concat "," l).
Proof.
  induction l as [|x l IH]; intros Hne Hall; [now elim Hne|].
  apply Forall_cons_iff in Hall. destruct Hall as [Hx Hall].
  pose proof Hx as (Hxne & Hxs & _).
  assert (Hstart : starts_clean x)
    by (rewrite <- Hxs; apply strip_starts_clean).
  destruct l as [|y l].
  - cbn [String.concat]. split; [exact Hxne|].
    split; [now apply clean_term_rstrip | exact Hstart].
  - destruct (IH ltac:(discriminate) Hall) as (Hne' & Hr & _).
    rewrite concat_two. split; [|split].
    + destruct x; [now elim Hxne | discriminate].
    + apply rstrip_app_fixed.
      * discriminate.
      * cbn [Py.rstrip]. rewrite Hr.
        destruct (String.concat "," (y :: l)); [now elim Hne' | reflexivity].
    + destruct x; [now elim Hxne | exact Hstart].
Qed.

(** X22.  The parsing of [research_terms_from_list] returns terms that are
    not empty, have no white space around them and hold neither a comma
    nor a line feed; and it undoes the joining of such terms with commas:
    parsing the joined string gives the list back. *)
Theorem parse_terms_round_trip (terms_string : string) (l : list string) :
  (forall t, In t (parse_terms terms_string) -> clean_term t)
  /\ (Forall clean_term l -> parse_terms (String.concat "," l) = l).
Proof.
  split; [intros t; apply parse_terms_clean|].
  intros Hall. destruct l as [|x l]; [reflexivity|].
  destruct (concat_clean_stripped (x :: l) ltac:(discriminate) Hall)
    as (_ & Hr & Hstart).
  unfold parse_terms.
  assert (Hstrip : Py.strip (String.concat "," (x :: l)) = String.concat "," (x :: l)).
  { unfold Py.strip. now rewrite (lstrip_fixed _ Hstart). }
  rewrite Hstrip, (split_terms_concat (x :: l) ltac:(discriminate) Hall false).
  rewrite forallb_filter_id.
  - rewrite <- (map_id (x :: l)) at 2. apply map_ext_in.
    intros t Ht. rewrite Forall_forall in Hall. now destruct (Hall t Ht) as (_ & ? & _).
  - apply forallb_forall. intros t Ht. rewrite Forall_forall in Hall.
    destruct (Hall t Ht) as (Hne & Hs & _). rewrite Hs. now apply truthy_true.
Qed.

Lemma parse_terms_round_trip_witness :
  parse_terms (String.concat "," ["rizz"; "no cap"]) = ["rizz"; "no cap"]
  /\ clean_term "no cap".
Proof.
  destruct (parse_terms_round_trip "rizz, no cap" ["rizz"; "no cap"])
    as [Hclean Hround].
  split.
  - apply Hround. repeat constructor; discriminate.
  - apply Hclean. right. left. reflexivity.
Defined.

(** ** [get_recent_activity], [get_placeholder_terms], [search_terms] *)

Lemma approved_at_gt_true (a b : TermRow) :
  approved_at_gt a b = true -> not_later (st_approved_at a) (st_approved_at b).
Proof.
  unfold approved_at_gt, not_later.
  destruct (st_approved_at a), (st_approved_at b); try discriminate; auto.
  intros H. apply Z.ltb_lt in H. lia.
Qed.

Lemma approved_at_gt_false (a b : TermRow) :
  approved_at_gt a b = false -> not_later (st_approved_at b) (st_approved_at a).
Proof.
  unfold approved_at_gt, not_later.
  destruct (st_approved_at a), (st_approved_at b); try discriminate; auto.
  intros H. apply Z.ltb_ge in H. lia.
Qed.

Lemma not_later_trans (a b c : option Timestamp) :
  not_later a b -> not_later b c -> not_later a c.
Proof.
  unfold not_later. destruct a, b, c; try tauto; lia.
Qed.

(** X23.  [get_recent_activity] lists only terms on which a decision was
    taken (a term that was never approved or rejected is absent), each
    with its status, actor and time, the latest decision first, and for a
    limit that is not negative no more entries than the limit; right after
    [approve_term] on a stored term the term is listed as approved at that
    time, provided the limit does not cut the list. *)
Theorem recent_activity_listing (limit : Z) (db : SlangDatabase) :
  (forall e, In e (get_recent_activity limit db) ->
             exists r, In r (slang_terms db)
                       /\ e = mkActivity (st_term r) (st_approval_status r)
                                         (st_approved_by r) (st_approved_at r)
                       /\ st_approved_at r <> None)
  /\ StronglySorted (fun a b => not_later (ac_approved_at a) (ac_approved_at b))
                    (get_recent_activity limit db)
  /\ (0 <= limit -> Z.of_nat (List.length (get_recent_activity limit db)) <= limit)
  /\ (forall term actor now,
         known term db ->
         Z.of_nat (List.length (slang_terms db)) <= limit ->
         exists e,
           In e (get_recent_activity limit (snd (approve_term term actor now db)))
           /\ ac_term e = normalize term /\ ac_status e = "approved"
           /\ ac_approved_by e = Some actor /\ ac_approved_at e = Some now).
Proof.
  split; [|split; [|split]].
  - intros e He. unfold get_recent_activity in He. apply in_map_iff in He.
    destruct He as (r & <- & Hin). apply sql_limit_In, order_by_In in Hin.
    apply filter_In in Hin. destruct Hin as [Hin Hat].
    exists r. split; [exact Hin|]. split; [reflexivity|].
    destruct (st_approved_at r); [discriminate | discriminate Hat].
  - unfold get_recent_activity. apply StronglySorted_map. cbn [ac_approved_at].
    apply sql_limit_sorted.
    apply (order_by_sorted approved_at_gt
             (fun a b => not_later (st_approved_at a) (st_approved_at b))).
    + apply approved_at_gt_true.
    + apply approved_at_gt_false.
    + intros a b c. apply not_later_trans.
  - intros Hlimit. unfold get_recent_activity. rewrite length_map.
    now apply sql_limit_length.
  - intros term actor now (r & Hr & Hkey) Hlimit.
    destruct (Forall2_In_l _ _ _ _ (approve_term_rows term db actor now) Hr)
      as (r' & Hr' & Hsame & _ & Hcase).
    destruct Hsame as (_ & Hterm & _).
    rewrite Hkey, String.eqb_refl in Hcase. destruct Hcase as (Hst & Hby & Hat).
    exists (mkActivity (st_term r') (st_approval_status r') (st_approved_by r')
                       (st_approved_at r')).
    split; [|cbn; repeat split; congruence].
    unfold get_recent_activity. apply in_map_iff. exists r'.
    split; [reflexivity|]. rewrite sql_limit_all.
    + apply order_by_In, filter_In. split; [exact Hr' | now rewrite Hat].
    + rewrite order_by_length. etransitivity; [|exact Hlimit]. apply inj_le.
      etransitivity; [apply filter_length_le|].
      unfold approve_term, update_terms. cbn [snd slang_terms].
      rewrite length_map. lia.
Qed.

Lemma recent_activity_listing_witness :
  Z.of_nat (List.length (get_recent_activity 0 stale_reason_db)) <= 0
  /\ exists e,
      In e (get_recent_activity 10 (snd (approve_term "Drip" "admin" 102 drip_db)))
      /\ ac_term e = normalize "Drip" /\ ac_status e = "approved"
      /\ ac_approved_by e = Some "admin" /\ ac_approved_at e = Some 102.
Proof.
  destruct (recent_activity_listing 0 stale_reason_db) as (_ & _ & Hlen & _).
  destruct (recent_activity_listing 10 drip_db) as (_ & _ & _ & Happ).
  split; [apply Hlen; lia|].
  apply Happ.
  - exists (mkTermRow 1 "drip" (Some "Fashionable clothing") "fashion" "pending"
                      None None None 100).
    split; [now left | reflexivity].
  - vm_compute. discriminate.
Defined.

Lemma or_no_definition_placeholder (definition : option string) :
  is_placeholder definition = true ->
  In (or_no_definition definition)
     ["No definition"; "Trending slang term"; "Approved slang term"].
Proof.
  destruct definition as [d|]; [|simpl; tauto].
  unfold is_placeholder. intros H. apply str_in_true in H.
  destruct H as [<-|[<-|[<-|[]]]]; simpl; tauto.
Qed.

(** X24.  [get_placeholder_terms] lists only stored terms whose definition
    is NULL, empty or one of the two placeholder strings, each with its
    mention count and, as definition, the placeholder string or "No
    definition", the most mentioned first; these are terms for which
    [_clean_definition] shows "No definition available".  When the limit
    does not cut the list, it has as many entries as [get_stats] counts
    placeholder terms.  A term whose definition was set by
    [update_term_definition] to something that is no placeholder is not
    listed any more. *)
Theorem placeholder_listing (limit : Z) (now : Timestamp) (db : SlangDatabase) :
  (forall e, In e (get_placeholder_terms limit db) ->
             exists r, In r (slang_terms db)
                       /\ ph_term e = st_term r
                       /\ ph_mentions e = mention_count (st_id r) db
                       /\ is_placeholder (st_definition r) = true
                       /\ _clean_definition (st_definition r)
                          = "No definition available"
                       /\ In (ph_definition e)
                             ["No definition"; "Trending slang term";
                              "Approved slang term"])
  /\ StronglySorted (fun a b => ph_mentions b <= ph_mentions a)
                    (get_placeholder_terms limit db)
  /\ (Z.of_nat (List.length (slang_terms db)) <= limit ->
      Z.of_nat (List.length (get_placeholder_terms limit db))
      = placeholder_terms (get_stats now db))
  /\ (forall term definition,
         is_placeholder (Some definition) = false ->
         ~ In (normalize term)
              (map ph_term
                   (get_placeholder_terms limit
                      (snd (update_term_definition term definition db))))).
Proof.
  split; [|split; [|split]].
  - intros e He. unfold get_placeholder_terms in He. apply in_map_iff in He.
    destruct He as (g & <- & Hin). apply sql_limit_In, order_by_In in Hin.
    apply filter_In in Hin. destruct Hin as [Hin Hp].
    apply term_groups_In in Hin. destruct Hin as (r & Hr & ->).
    change (is_placeholder (st_definition r) = true) in Hp.
    exists r. split; [exact Hr|]. split; [reflexivity|]. split; [reflexivity|].
    split; [exact Hp|]. split.
    + destruct (st_definition r) as [d|]; [|reflexivity].
      unfold is_placeholder in Hp. apply str_in_true in Hp.
      destruct Hp as [<-|[<-|[<-|[]]]]; reflexivity.
    + now apply or_no_definition_placeholder.
  - unfold get_placeholder_terms. apply StronglySorted_map. cbn [ph_mentions].
    apply sql_limit_sorted.
    apply (order_by_sorted by_mentions_desc
             (fun a b => g_mentions b <= g_mentions a)).
    + intros a b H. apply Z.ltb_lt in H. lia.
    + intros a b H. apply Z.ltb_ge in H. lia.
    + intros a b c H1 H2. lia.
  - intros Hlimit. unfold get_placeholder_terms, get_stats.
    cbn [placeholder_terms]. rewrite length_map, sql_limit_all.
    + rewrite order_by_length. unfold term_groups, rowcount.
      rewrite filter_map_swap, length_map. reflexivity.
    + rewrite order_by_length. etransitivity; [|exact Hlimit]. apply inj_le.
      etransitivity; [apply filter_length_le|].
      unfold term_groups. now rewrite length_map.
  - intros term definition Hreal Hin. apply in_map_iff in Hin.
    destruct Hin as (e & He & Hin). apply placeholder_In in Hin.
    destruct Hin as (r' & Hr' & Hterm & _ & Hp).
    pose proof (update_term_definition_rows term definition db) as Hrows.
    destruct (Forall2_In_r _ _ _ _ Hrows Hr') as (r & _ & Hsame & Hcase).
    destruct Hsame as (_ & Ht & _).
    assert (Hkey : st_term r = normalize term) by congruence.
    rewrite Hkey, String.eqb_refl in Hcase. rewrite Hcase in Hp. congruence.
Qed.

Lemma placeholder_listing_witness :
  Z.of_nat (List.length (get_placeholder_terms 200 two_terms_db))
  = placeholder_terms (get_stats 200 two_terms_db)
  /\ ~ In (normalize "Mid")
          (map ph_term
               (get_placeholder_terms 200
                  (snd (update_term_definition "Mid" "Average" two_terms_db)))).
Proof.
  destruct (placeholder_listing 200 200 two_terms_db) as (_ & _ & Hlen & Hgone).
  split.
  - apply Hlen. vm_compute. discriminate.
  - apply Hgone. reflexivity.
Defined.

Lemma like_percent_unfold (p s : string) :
  sql_like (String "%" p) s
  = sql_like p s
    || match s with
       | EmptyString => false
       | String _ s' => sql_like (String "%" p) s'
       end.
Proof. destruct s; reflexivity. Qed.

Lemma like_percent_all (s : string) : sql_like "%" s = true.
Proof.
  induction s as [|c s IH]; [reflexivity|].
  rewrite like_percent_unfold. rewrite IH. apply orb_true_r.
Qed.

Lemma like_literal_prefix (q s : string) :
  wildcard_free q = true -> String.prefix q s = true ->
  sql_like (q ++ "%") s = true.
Proof.
  revert s. induction q as [|c q IH]; intros s Hfree Hpre.
  - apply like_percent_all.
  - destruct s as [|d s]; [discriminate Hpre|].
    cbn [String.prefix] in Hpre.
    destruct (ascii_dec c d) as [<-|]; [|discriminate Hpre].
    unfold wildcard_free in Hfree. cbn [Py.all_chars] in Hfree.
    apply andb_prop in Hfree. destruct Hfree as [Hc Hfree].
    apply negb_true_iff, orb_false_elim in Hc. destruct Hc as [Hp Hu].
    cbn [append sql_like]. rewrite Hp, Hu, Ascii.eqb_refl.
    now apply IH.
Qed.

(** A text that contains the search text matches the pattern of
    [search_terms]. *)
Lemma like_contains (q s : string) :
  wildcard_free q = true -> Py.contains q s = true ->
  sql_like ("%" ++ q ++ "%") s = true.
Proof.
  intros Hfree. change ("%" ++ q ++ "%") with (String "%" (q ++ "%")).
  induction s as [|d s IH]; intros Hc; rewrite like_percent_unfold.
  - cbn [Py.contains] in Hc. rewrite orb_false_r in Hc.
    now rewrite (like_literal_prefix q EmptyString Hfree Hc).
  - cbn [Py.contains] in Hc. apply orb_prop in Hc. destruct Hc as [Hpre|Hrest].
    + now rewrite (like_literal_prefix q (String d s) Hfree Hpre).
    + rewrite (IH Hrest). apply orb_true_r.
Qed.

Lemma same_selected_columns (a b : Group) :
  same_selected a b = true ->
  st_term (g_st a) = st_term (g_st b)
  /\ st_definition (g_st a) = st_definition (g_st b)
  /\ st_category (g_st a) = st_category (g_st b)
  /\ st_approval_status (g_st a) = st_approval_status (g_st b)
  /\ g_mentions a = g_mentions b.
Proof.
  unfold same_selected. intros H.
  apply andb_prop in H. destruct H as [H Hm].
  apply andb_prop in H. destruct H as [H Hs].
  apply andb_prop in H. destruct H as [H Hc].
  apply andb_prop in H. destruct H as [Ht Hd].
  apply String.eqb_eq in Ht, Hc, Hs. apply Z.eqb_eq in Hm.
  repeat split; auto.
  unfold opt_string_eqb in Hd.
  destruct (st_definition (g_st a)), (st_definition (g_st b));
    try discriminate; [|reflexivity].
  apply String.eqb_eq in Hd. now subst.
Qed.

(** [SELECT DISTINCT] keeps, of every row, a row with the same columns. *)
Lemma sql_distinct_covers (l : list Group) (g : Group) :
  forall seen,
    In g l ->
    (exists g', In g' seen /\ same_selected g g' = true)
    \/ exists g', In g' (sql_distinct seen l)
                  /\ (g' = g \/ same_selected g g' = true).
Proof.
  induction l as [|x l IH]; intros seen; [contradiction|].
  cbn [sql_distinct]. intros [->|Hin].
  - destruct (existsb (same_selected g) seen) eqn:E.
    + left. apply existsb_exists in E. destruct E as (g' & Hg' & Hs).
      now exists g'.
    + right. exists g. split; [now left | now left].
  - destruct (existsb (same_selected x) seen).
    + apply IH, Hin.
    + destruct (IH (x :: seen) Hin) as [(g' & [<-|Hg'] & Ht)|(g' & Hg' & Ht)].
      * right. exists x. split; [now left | now right].
      * left. now exists g'.
      * right. exists g'. split; [now right | exact Ht].
Qed.

(** X25.  [search_terms] returns only stored terms whose key or definition
    matches the pattern, each with its cleaned definition, category,
    status and mention count, the most mentioned first, and under a status
    filter other than "all" only terms of that status.  With status "all"
    it returns the entry of every stored term whose key contains the
    search text, when that text holds no wildcard of LIKE; so the empty
    search text returns the entry of every stored term. *)
Theorem search_terms_finds (query status : string) (db : SlangDatabase) :
  (forall e, In e (search_terms query status db) ->
             exists r, In r (slang_terms db)
                       /\ e = mkSearch (st_term r)
                                       (_clean_definition (st_definition r))
                                       (st_category r) (st_approval_status r)
                                       (mention_count (st_id r) db)
                       /\ (sql_like ("%" ++ query ++ "%") (st_term r) = true
                           \/ exists d, st_definition r = Some d
                                        /\ sql_like ("%" ++ query ++ "%") d = true))
  /\ StronglySorted (fun a b => se_mentions b <= se_mentions a)
                    (search_terms query status db)
  /\ (forall e, In e (search_terms query status db) -> status <> "all" ->
                se_approval_status e = status)
  /\ (forall r, In r (slang_terms db) ->
                wildcard_free query = true ->
                Py.contains query (st_term r) = true ->
                In (mkSearch (st_term r) (_clean_definition (st_definition r))
                             (st_category r) (st_approval_status r)
                             (mention_count (st_id r) db))
                   (search_terms query "all" db))
  /\ (forall r, In r (slang_terms db) ->
                In (mkSearch (st_term r) (_clean_definition (st_definition r))
                             (st_category r) (st_approval_status r)
                             (mention_count (st_id r) db))
                   (search_terms "" "all" db)).
Proof.
  assert (Hfind : forall q r,
             In r (slang_terms db) -> wildcard_free q = true ->
             Py.contains q (st_term r) = true ->
             In (mkSearch (st_term r) (_clean_definition (st_definition r))
                          (st_category r) (st_approval_status r)
                          (mention_count (st_id r) db))
                (search_terms q "all" db)).
  { intros q r Hr Hfree Hc. unfold search_terms.
    match goal with
    | |- In _ (map _ (order_by _ (sql_distinct [] ?l))) =>
        destruct (sql_distinct_covers l (group_of db r) []) as [(g' & [] & _)|H]
    end.
    - apply filter_In. split; [apply term_groups_In; now exists r|].
      cbn [group_of g_st]. rewrite (like_contains q (st_term r) Hfree Hc).
      reflexivity.
    - destruct H as (g' & Hg' & Hsame). apply in_map_iff. exists g'.
      split; [|now apply order_by_In].
      destruct Hsame as [->|Hsame]; [reflexivity|].
      apply same_selected_columns in Hsame. cbn [group_of g_st g_mentions] in Hsame.
      destruct Hsame as (Ht & Hd & Hcat & Hst & Hm).
      now rewrite <- Ht, <- Hd, <- Hcat, <- Hst, <- Hm. }
  split; [|split; [|split; [|split]]].
  - intros e He. unfold search_terms in He. apply in_map_iff in He.
    destruct He as (g & <- & Hin). apply order_by_In, sql_distinct_In in Hin.
    apply filter_In in Hin. destruct Hin as [Hin Hf].
    apply term_groups_In in Hin. destruct Hin as (r & Hr & ->).
    exists r. split; [exact Hr|]. split; [reflexivity|].
    apply andb_prop in Hf. destruct Hf as [Hf _]. cbn [group_of g_st] in Hf.
    apply orb_prop in Hf. destruct Hf as [Hf|Hf]; [now left|].
    right. destruct (st_definition r) as [d|]; [|discriminate]. now exists d.
  - unfold search_terms. apply StronglySorted_map. cbn [se_mentions].
    apply (order_by_sorted by_mentions_desc
             (fun a b => g_mentions b <= g_mentions a)).
    + intros a b H. apply Z.ltb_lt in H. lia.
    + intros a b H. apply Z.ltb_ge in H. lia.
    + intros a b c H1 H2. lia.
  - intros e He Hne. unfold search_terms in He. apply in_map_iff in He.
    destruct He as (g & <- & Hin). apply order_by_In, sql_distinct_In in Hin.
    apply filter_In in Hin. destruct Hin as [_ Hf].
    apply andb_prop in Hf. destruct Hf as [_ Hst]. unfold status_filter in Hst.
    destruct (String.eqb status "all") eqn:E.
    + apply String.eqb_eq in E. contradiction.
    + cbn. now apply String.eqb_eq in Hst.
  - intros r Hr Hfree Hc. now apply Hfind.
  - intros r Hr. apply Hfind; [exact Hr | reflexivity|].
    destruct (st_term r); reflexivity.
Qed.

Lemma search_terms_finds_witness :
  In (mkSearch "drip" "Fashionable clothing" "fashion" "pending" 1)
     (search_terms "ri" "all" two_terms_db).
Proof.
  destruct (search_terms_finds "ri" "all" two_terms_db)
    as (_ & _ & _ & Hfind & _).
  apply (Hfind (mkTermRow 1 "drip" (Some "Fashionable clothing") "fashion"
                          "pending" None None None 100)).
  - left. reflexivity.
  - reflexivity.
  - reflexivity.
Defined.
